(** * The calculator's expression evaluator (backend/engine.py)

    A shallow embedding of [SafeEvaluator] and [CalculatorEngine].

    The engine hands the expression text to the host interpreter's parser
    ([ast.parse]) and walks the resulting tree; arithmetic, comparisons and
    the function library are host operations as well.  The development
    therefore has three layers:

    - the data the code manipulates: Python objects ([value]), exceptions
      ([exn]) and syntax trees (module [ast]);
    - the engine itself, parametrised by a [Host] that supplies everything
      the source imports ([ast], [operator], [math], [statistics], [random]
      and the builtins), so that statements about the engine hold for every
      host;
    - a reference host [cpython], a model of the interpreter on integers,
      booleans, binary64 floats and the expression syntax, against which the
      concrete examples are evaluated. *)

From Stdlib Require Import ZArith String Ascii List Bool Floats Lia.
From stdpp Require Import gmap strings pretty.

Set Warnings "-register-all".

Local Open Scope string_scope.
Local Open Scope Z_scope.

(** ** Python objects and exceptions *)

(** The exception classes the engine tells apart.  All of them derive from
    [Exception]; [OtherException] stands for every remaining subclass
    (SyntaxError, ValueError, IndexError, OverflowError, ...). *)
Inductive exc_class : Type :=
| EvalError
| ZeroDivisionError
| TypeError
| StatisticsError
| OtherException.

(** An exception instance: its class and the text [str(e)] yields. *)
Record exn : Type := Exn { exn_class : exc_class; exn_msg : string }.

(** The objects an evaluation can produce.  [VExc] is an exception instance
    held as an ordinary object (constructed, not raised). *)
Inductive value : Type :=
| VInt (z : Z)
| VFloat (f : float)
| VBool (b : bool)
| VStr (s : string)
| VNone
| VList (items : list value)
| VTuple (items : list value)
| VExc (e : exn).

(** [bool(v)]: the truth value Python gives an object. *)
Definition truthy (v : value) : bool :=
  match v with
  | VInt z => negb (z =? 0)
  | VFloat f => negb (PrimFloat.eqb f 0%float)
  | VBool b => b
  | VStr s => negb (String.eqb s "")
  | VNone => false
  | VList items | VTuple items => match items with [] => false | _ => true end
  | VExc _ => true
  end.

(** The result of running a piece of Python: a value, or a raised exception. *)
Inductive res (A : Type) : Type :=
| Return (a : A)
| Raise (e : exn).
Arguments Return {A} a.
Arguments Raise {A} e.

(** ** Syntax trees: the part of Python's [ast] module the evaluator meets *)

Module ast.

Inductive unaryop : Type := UAdd | USub | Not | Invert.

Inductive operator : Type :=
| Add | Sub | Mult | Div | FloorDiv | Mod | Pow
| MatMult | LShift | RShift | BitOr | BitXor | BitAnd.

Inductive boolop : Type := And | Or.

Inductive cmpop : Type :=
| Eq | NotEq | Lt | LtE | Gt | GtE
| Is | IsNot | In | NotIn.

(** [Other cls] is a node of any class the evaluator has no method for
    (Attribute, Subscript, Lambda, IfExp, Dict, Starred, ...); only its
    class name is ever inspected.  A [Call] keeps its keyword arguments as
    (name, value) pairs, the name being absent for [**kwargs]. *)
Inductive node : Type :=
| Expression (body : node)
| Constant (value_ : value)
| Num (n : value)
| UnaryOp (op : unaryop) (operand : node)
| BinOp (left : node) (op : operator) (right : node)
| BoolOp (op : boolop) (values : list node)
| Compare (left : node) (ops : list cmpop) (comparators : list node)
| Call (func : node) (args : list node) (keywords : list (option string * node))
| Name (id : string)
| List (elts : list node)
| Tuple (elts : list node)
| Other (class_name : string).

(** [type(op).__name__] *)
Definition operator_name (op : operator) : string :=
  match op with
  | Add => "Add" | Sub => "Sub" | Mult => "Mult" | Div => "Div"
  | FloorDiv => "FloorDiv" | Mod => "Mod" | Pow => "Pow"
  | MatMult => "MatMult" | LShift => "LShift" | RShift => "RShift"
  | BitOr => "BitOr" | BitXor => "BitXor" | BitAnd => "BitAnd"
  end.

End ast.

(** ** Strings

    A text is the UTF-8 encoding of a Python [str]. *)

Module unicode.

(** What a text is made of: code points, and bytes that belong to no
    well-formed sequence (no [str] encodes to them; they are carried along as
    they are). *)
Inductive item : Type :=
| Char (c : Z)
| Stray (b : ascii).

Definition byte (b : ascii) : Z := Z.of_nat (nat_of_ascii b).

Definition continuation (b : ascii) : bool := (128 <=? byte b) && (byte b <? 192).

Definition payload (b : ascii) : Z := byte b - 128.

Fixpoint decode (s : string) : list item :=
  match s with
  | EmptyString => []
  | String b s1 =>
      let stray := Stray b :: decode s1 in
      if byte b <? 128 then Char (byte b) :: decode s1
      else
        match s1 with
        | String b1 s2 =>
            if negb (continuation b1) then stray
            else if (194 <=? byte b) && (byte b <? 224) then
              Char ((byte b - 192) * 64 + payload b1) :: decode s2
            else
              match s2 with
              | String b2 s3 =>
                  if negb (continuation b2) then stray
                  else if (224 <=? byte b) && (byte b <? 240) then
                    let c := ((byte b - 224) * 64 + payload b1) * 64 + payload b2 in
                    if (2048 <=? c) && negb ((55296 <=? c) && (c <? 57344))
                    then Char c :: decode s3 else stray
                  else
                    match s3 with
                    | String b3 s4 =>
                        if negb (continuation b3) then stray
                        else if (240 <=? byte b) && (byte b <? 245) then
                          let c := (((byte b - 240) * 64 + payload b1) * 64 + payload b2) * 64
                                   + payload b3 in
                          if (65536 <=? c) && (c <? 1114112)
                          then Char c :: decode s4 else stray
                        else stray
                    | EmptyString => stray
                    end
              | EmptyString => stray
              end
        | EmptyString => stray
        end
  end.

Definition of_byte (n : Z) : ascii := ascii_of_nat (Z.to_nat n).

Definition encode_char (c : Z) : string :=
  if c <? 128 then String (of_byte c) EmptyString
  else if c <? 2048 then
    String (of_byte (192 + c / 64)) (String (of_byte (128 + c mod 64)) EmptyString)
  else if c <? 65536 then
    String (of_byte (224 + c / 4096))
      (String (of_byte (128 + (c / 64) mod 64))
         (String (of_byte (128 + c mod 64)) EmptyString))
  else
    String (of_byte (240 + c / 262144))
      (String (of_byte (128 + (c / 4096) mod 64))
         (String (of_byte (128 + (c / 64) mod 64))
            (String (of_byte (128 + c mod 64)) EmptyString))).

Fixpoint encode (l : list item) : string :=
  match l with
  | [] => EmptyString
  | Char c :: l' => encode_char c +:+ encode l'
  | Stray b :: l' => String b (encode l')
  end.

(** The simple lower-case mappings of the Unicode character database
    (version 14.0, the one of CPython 3.11), in increasing order: every
    [step]-th code point from [first] to [last] maps to itself plus
    [delta]. *)
Definition lowercase : list (Z * Z * Z * Z) :=
  [
   (65, 90, 1, 32); (192, 214, 1, 32); (216, 222, 1, 32); (256, 302, 2, 1);
   (306, 310, 2, 1); (313, 327, 2, 1); (330, 374, 2, 1); (376, 376, 1, -121);
   (377, 381, 2, 1); (385, 385, 1, 210); (386, 388, 2, 1); (390, 390, 1, 206);
   (391, 391, 1, 1); (393, 394, 1, 205); (395, 395, 1, 1); (398, 398, 1, 79);
   (399, 399, 1, 202); (400, 400, 1, 203); (401, 401, 1, 1); (403, 403, 1, 205);
   (404, 404, 1, 207); (406, 406, 1, 211); (407, 407, 1, 209); (408, 408, 1, 1);
   (412, 412, 1, 211); (413, 413, 1, 213); (415, 415, 1, 214); (416, 420, 2, 1);
   (422, 422, 1, 218); (423, 423, 1, 1); (425, 425, 1, 218); (428, 428, 1, 1);
   (430, 430, 1, 218); (431, 431, 1, 1); (433, 434, 1, 217); (435, 437, 2, 1);
   (439, 439, 1, 219); (440, 440, 1, 1); (444, 444, 1, 1); (452, 452, 1, 2);
   (453, 453, 1, 1); (455, 455, 1, 2); (456, 456, 1, 1); (458, 458, 1, 2);
   (459, 475, 2, 1); (478, 494, 2, 1); (497, 497, 1, 2); (498, 500, 2, 1);
   (502, 502, 1, -97); (503, 503, 1, -56); (504, 542, 2, 1); (544, 544, 1, -130);
   (546, 562, 2, 1); (570, 570, 1, 10795); (571, 571, 1, 1); (573, 573, 1, -163);
   (574, 574, 1, 10792); (577, 577, 1, 1); (579, 579, 1, -195); (580, 580, 1, 69);
   (581, 581, 1, 71); (582, 590, 2, 1); (880, 882, 2, 1); (886, 886, 1, 1);
   (895, 895, 1, 116); (902, 902, 1, 38); (904, 906, 1, 37); (908, 908, 1, 64);
   (910, 911, 1, 63); (913, 929, 1, 32); (931, 939, 1, 32); (975, 975, 1, 8);
   (984, 1006, 2, 1); (1012, 1012, 1, -60); (1015, 1015, 1, 1); (1017, 1017, 1, -7);
   (1018, 1018, 1, 1); (1021, 1023, 1, -130); (1024, 1039, 1, 80); (1040, 1071, 1, 32);
   (1120, 1152, 2, 1); (1162, 1214, 2, 1); (1216, 1216, 1, 15); (1217, 1229, 2, 1);
   (1232, 1326, 2, 1); (1329, 1366, 1, 48); (4256, 4293, 1, 7264); (4295, 4295, 1, 7264);
   (4301, 4301, 1, 7264); (5024, 5103, 1, 38864); (5104, 5109, 1, 8); (7312, 7354, 1, -3008);
   (7357, 7359, 1, -3008); (7680, 7828, 2, 1); (7838, 7838, 1, -7615); (7840, 7934, 2, 1);
   (7944, 7951, 1, -8); (7960, 7965, 1, -8); (7976, 7983, 1, -8); (7992, 7999, 1, -8);
   (8008, 8013, 1, -8); (8025, 8031, 2, -8); (8040, 8047, 1, -8); (8072, 8079, 1, -8);
   (8088, 8095, 1, -8); (8104, 8111, 1, -8); (8120, 8121, 1, -8); (8122, 8123, 1, -74);
   (8124, 8124, 1, -9); (8136, 8139, 1, -86); (8140, 8140, 1, -9); (8152, 8153, 1, -8);
   (8154, 8155, 1, -100); (8168, 8169, 1, -8); (8170, 8171, 1, -112); (8172, 8172, 1, -7);
   (8184, 8185, 1, -128); (8186, 8187, 1, -126); (8188, 8188, 1, -9); (8486, 8486, 1, -7517);
   (8490, 8490, 1, -8383); (8491, 8491, 1, -8262); (8498, 8498, 1, 28); (8544, 8559, 1, 16);
   (8579, 8579, 1, 1); (9398, 9423, 1, 26); (11264, 11311, 1, 48); (11360, 11360, 1, 1);
   (11362, 11362, 1, -10743); (11363, 11363, 1, -3814); (11364, 11364, 1, -10727); (11367, 11371, 2, 1);
   (11373, 11373, 1, -10780); (11374, 11374, 1, -10749); (11375, 11375, 1, -10783); (11376, 11376, 1, -10782);
   (11378, 11378, 1, 1); (11381, 11381, 1, 1); (11390, 11391, 1, -10815); (11392, 11490, 2, 1);
   (11499, 11501, 2, 1); (11506, 11506, 1, 1); (42560, 42604, 2, 1); (42624, 42650, 2, 1);
   (42786, 42798, 2, 1); (42802, 42862, 2, 1); (42873, 42875, 2, 1); (42877, 42877, 1, -35332);
   (42878, 42886, 2, 1); (42891, 42891, 1, 1); (42893, 42893, 1, -42280); (42896, 42898, 2, 1);
   (42902, 42920, 2, 1); (42922, 42922, 1, -42308); (42923, 42923, 1, -42319); (42924, 42924, 1, -42315);
   (42925, 42925, 1, -42305); (42926, 42926, 1, -42308); (42928, 42928, 1, -42258); (42929, 42929, 1, -42282);
   (42930, 42930, 1, -42261); (42931, 42931, 1, 928); (42932, 42946, 2, 1); (42948, 42948, 1, -48);
   (42949, 42949, 1, -42307); (42950, 42950, 1, -35384); (42951, 42953, 2, 1); (42960, 42960, 1, 1);
   (42966, 42968, 2, 1); (42997, 42997, 1, 1); (65313, 65338, 1, 32); (66560, 66599, 1, 40);
   (66736, 66771, 1, 40); (66928, 66938, 1, 39); (66940, 66954, 1, 39); (66956, 66962, 1, 39);
   (66964, 66965, 1, 39); (68736, 68786, 1, 64); (71840, 71871, 1, 32); (93760, 93791, 1, 32);
   (125184, 125217, 1, 34)
  ].

Fixpoint simple_lower (table : list (Z * Z * Z * Z)) (c : Z) : Z :=
  match table with
  | [] => c
  | (first, last, step, delta) :: table' =>
      if c <? first then c
      else if (c <=? last) && ((c - first) mod step =? 0) then c + delta
      else simple_lower table' c
  end.

(** The full mapping: U+0130 alone becomes two code points. *)
Definition to_lower (c : Z) : list Z :=
  if c =? 304 then [105; 775] else [simple_lower lowercase c].

(** The code points with the property Case_Ignorable, as ranges in
    increasing order. *)
Definition case_ignorable : list (Z * Z) :=
  [
   (39, 39); (46, 46); (58, 58); (94, 94); (96, 96); (168, 168);
   (173, 173); (175, 175); (180, 180); (183, 184); (688, 879); (884, 885);
   (890, 890); (900, 901); (903, 903); (1155, 1161); (1369, 1369); (1375, 1375);
   (1425, 1469); (1471, 1471); (1473, 1474); (1476, 1477); (1479, 1479); (1524, 1524);
   (1536, 1541); (1552, 1562); (1564, 1564); (1600, 1600); (1611, 1631); (1648, 1648);
   (1750, 1757); (1759, 1768); (1770, 1773); (1807, 1807); (1809, 1809); (1840, 1866);
   (1958, 1968); (2027, 2037); (2042, 2042); (2045, 2045); (2070, 2093); (2137, 2139);
   (2184, 2184); (2192, 2193); (2200, 2207); (2249, 2306); (2362, 2362); (2364, 2364);
   (2369, 2376); (2381, 2381); (2385, 2391); (2402, 2403); (2417, 2417); (2433, 2433);
   (2492, 2492); (2497, 2500); (2509, 2509); (2530, 2531); (2558, 2558); (2561, 2562);
   (2620, 2620); (2625, 2626); (2631, 2632); (2635, 2637); (2641, 2641); (2672, 2673);
   (2677, 2677); (2689, 2690); (2748, 2748); (2753, 2757); (2759, 2760); (2765, 2765);
   (2786, 2787); (2810, 2815); (2817, 2817); (2876, 2876); (2879, 2879); (2881, 2884);
   (2893, 2893); (2901, 2902); (2914, 2915); (2946, 2946); (3008, 3008); (3021, 3021);
   (3072, 3072); (3076, 3076); (3132, 3132); (3134, 3136); (3142, 3144); (3146, 3149);
   (3157, 3158); (3170, 3171); (3201, 3201); (3260, 3260); (3263, 3263); (3270, 3270);
   (3276, 3277); (3298, 3299); (3328, 3329); (3387, 3388); (3393, 3396); (3405, 3405);
   (3426, 3427); (3457, 3457); (3530, 3530); (3538, 3540); (3542, 3542); (3633, 3633);
   (3636, 3642); (3654, 3662); (3761, 3761); (3764, 3772); (3782, 3782); (3784, 3789);
   (3864, 3865); (3893, 3893); (3895, 3895); (3897, 3897); (3953, 3966); (3968, 3972);
   (3974, 3975); (3981, 3991); (3993, 4028); (4038, 4038); (4141, 4144); (4146, 4151);
   (4153, 4154); (4157, 4158); (4184, 4185); (4190, 4192); (4209, 4212); (4226, 4226);
   (4229, 4230); (4237, 4237); (4253, 4253); (4348, 4348); (4957, 4959); (5906, 5908);
   (5938, 5939); (5970, 5971); (6002, 6003); (6068, 6069); (6071, 6077); (6086, 6086);
   (6089, 6099); (6103, 6103); (6109, 6109); (6155, 6159); (6211, 6211); (6277, 6278);
   (6313, 6313); (6432, 6434); (6439, 6440); (6450, 6450); (6457, 6459); (6679, 6680);
   (6683, 6683); (6742, 6742); (6744, 6750); (6752, 6752); (6754, 6754); (6757, 6764);
   (6771, 6780); (6783, 6783); (6823, 6823); (6832, 6862); (6912, 6915); (6964, 6964);
   (6966, 6970); (6972, 6972); (6978, 6978); (7019, 7027); (7040, 7041); (7074, 7077);
   (7080, 7081); (7083, 7085); (7142, 7142); (7144, 7145); (7149, 7149); (7151, 7153);
   (7212, 7219); (7222, 7223); (7288, 7293); (7376, 7378); (7380, 7392); (7394, 7400);
   (7405, 7405); (7412, 7412); (7416, 7417); (7468, 7530); (7544, 7544); (7579, 7679);
   (8125, 8125); (8127, 8129); (8141, 8143); (8157, 8159); (8173, 8175); (8189, 8190);
   (8203, 8207); (8216, 8217); (8228, 8228); (8231, 8231); (8234, 8238); (8288, 8292);
   (8294, 8303); (8305, 8305); (8319, 8319); (8336, 8348); (8400, 8432); (11388, 11389);
   (11503, 11505); (11631, 11631); (11647, 11647); (11744, 11775); (11823, 11823); (12293, 12293);
   (12330, 12333); (12337, 12341); (12347, 12347); (12441, 12446); (12540, 12542); (40981, 40981);
   (42232, 42237); (42508, 42508); (42607, 42610); (42612, 42621); (42623, 42623); (42652, 42655);
   (42736, 42737); (42752, 42785); (42864, 42864); (42888, 42890); (42994, 42996); (43000, 43001);
   (43010, 43010); (43014, 43014); (43019, 43019); (43045, 43046); (43052, 43052); (43204, 43205);
   (43232, 43249); (43263, 43263); (43302, 43309); (43335, 43345); (43392, 43394); (43443, 43443);
   (43446, 43449); (43452, 43453); (43471, 43471); (43493, 43494); (43561, 43566); (43569, 43570);
   (43573, 43574); (43587, 43587); (43596, 43596); (43632, 43632); (43644, 43644); (43696, 43696);
   (43698, 43700); (43703, 43704); (43710, 43711); (43713, 43713); (43741, 43741); (43756, 43757);
   (43763, 43764); (43766, 43766); (43867, 43871); (43881, 43883); (44005, 44005); (44008, 44008);
   (44013, 44013); (64286, 64286); (64434, 64450); (65024, 65039); (65043, 65043); (65056, 65071);
   (65106, 65106); (65109, 65109); (65279, 65279); (65287, 65287); (65294, 65294); (65306, 65306);
   (65342, 65342); (65344, 65344); (65392, 65392); (65438, 65439); (65507, 65507); (65529, 65531);
   (66045, 66045); (66272, 66272); (66422, 66426); (67456, 67461); (67463, 67504); (67506, 67514);
   (68097, 68099); (68101, 68102); (68108, 68111); (68152, 68154); (68159, 68159); (68325, 68326);
   (68900, 68903); (69291, 69292); (69446, 69456); (69506, 69509); (69633, 69633); (69688, 69702);
   (69744, 69744); (69747, 69748); (69759, 69761); (69811, 69814); (69817, 69818); (69821, 69821);
   (69826, 69826); (69837, 69837); (69888, 69890); (69927, 69931); (69933, 69940); (70003, 70003);
   (70016, 70017); (70070, 70078); (70089, 70092); (70095, 70095); (70191, 70193); (70196, 70196);
   (70198, 70199); (70206, 70206); (70367, 70367); (70371, 70378); (70400, 70401); (70459, 70460);
   (70464, 70464); (70502, 70508); (70512, 70516); (70712, 70719); (70722, 70724); (70726, 70726);
   (70750, 70750); (70835, 70840); (70842, 70842); (70847, 70848); (70850, 70851); (71090, 71093);
   (71100, 71101); (71103, 71104); (71132, 71133); (71219, 71226); (71229, 71229); (71231, 71232);
   (71339, 71339); (71341, 71341); (71344, 71349); (71351, 71351); (71453, 71455); (71458, 71461);
   (71463, 71467); (71727, 71735); (71737, 71738); (71995, 71996); (71998, 71998); (72003, 72003);
   (72148, 72151); (72154, 72155); (72160, 72160); (72193, 72202); (72243, 72248); (72251, 72254);
   (72263, 72263); (72273, 72278); (72281, 72283); (72330, 72342); (72344, 72345); (72752, 72758);
   (72760, 72765); (72767, 72767); (72850, 72871); (72874, 72880); (72882, 72883); (72885, 72886);
   (73009, 73014); (73018, 73018); (73020, 73021); (73023, 73029); (73031, 73031); (73104, 73105);
   (73109, 73109); (73111, 73111); (73459, 73460); (78896, 78904); (92912, 92916); (92976, 92982);
   (92992, 92995); (94031, 94031); (94095, 94111); (94176, 94177); (94179, 94180); (110576, 110579);
   (110581, 110587); (110589, 110590); (113821, 113822); (113824, 113827); (118528, 118573); (118576, 118598);
   (119143, 119145); (119155, 119170); (119173, 119179); (119210, 119213); (119362, 119364); (121344, 121398);
   (121403, 121452); (121461, 121461); (121476, 121476); (121499, 121503); (121505, 121519); (122880, 122886);
   (122888, 122904); (122907, 122913); (122915, 122916); (122918, 122922); (123184, 123197); (123566, 123566);
   (123628, 123631); (125136, 125142); (125252, 125259); (127995, 127999); (917505, 917505); (917536, 917631);
   (917760, 917999)
  ].

(** The code points with the property Cased that are not Case_Ignorable. *)
Definition cased : list (Z * Z) :=
  [
   (65, 90); (97, 122); (170, 170); (181, 181); (186, 186); (192, 214);
   (216, 246); (248, 442); (444, 447); (452, 659); (661, 687); (880, 883);
   (886, 887); (891, 893); (895, 895); (902, 902); (904, 906); (908, 908);
   (910, 929); (931, 1013); (1015, 1153); (1162, 1327); (1329, 1366); (1376, 1416);
   (4256, 4293); (4295, 4295); (4301, 4301); (4304, 4346); (4349, 4351); (5024, 5109);
   (5112, 5117); (7296, 7304); (7312, 7354); (7357, 7359); (7424, 7467); (7531, 7543);
   (7545, 7578); (7680, 7957); (7960, 7965); (7968, 8005); (8008, 8013); (8016, 8023);
   (8025, 8025); (8027, 8027); (8029, 8029); (8031, 8061); (8064, 8116); (8118, 8124);
   (8126, 8126); (8130, 8132); (8134, 8140); (8144, 8147); (8150, 8155); (8160, 8172);
   (8178, 8180); (8182, 8188); (8450, 8450); (8455, 8455); (8458, 8467); (8469, 8469);
   (8473, 8477); (8484, 8484); (8486, 8486); (8488, 8488); (8490, 8493); (8495, 8500);
   (8505, 8505); (8508, 8511); (8517, 8521); (8526, 8526); (8544, 8575); (8579, 8580);
   (9398, 9449); (11264, 11387); (11390, 11492); (11499, 11502); (11506, 11507); (11520, 11557);
   (11559, 11559); (11565, 11565); (42560, 42605); (42624, 42651); (42786, 42863); (42865, 42887);
   (42891, 42894); (42896, 42954); (42960, 42961); (42963, 42963); (42965, 42969); (42997, 42998);
   (43002, 43002); (43824, 43866); (43872, 43880); (43888, 43967); (64256, 64262); (64275, 64279);
   (65313, 65338); (65345, 65370); (66560, 66639); (66736, 66771); (66776, 66811); (66928, 66938);
   (66940, 66954); (66956, 66962); (66964, 66965); (66967, 66977); (66979, 66993); (66995, 67001);
   (67003, 67004); (68736, 68786); (68800, 68850); (71840, 71903); (93760, 93823); (119808, 119892);
   (119894, 119964); (119966, 119967); (119970, 119970); (119973, 119974); (119977, 119980); (119982, 119993);
   (119995, 119995); (119997, 120003); (120005, 120069); (120071, 120074); (120077, 120084); (120086, 120092);
   (120094, 120121); (120123, 120126); (120128, 120132); (120134, 120134); (120138, 120144); (120146, 120485);
   (120488, 120512); (120514, 120538); (120540, 120570); (120572, 120596); (120598, 120628); (120630, 120654);
   (120656, 120686); (120688, 120712); (120714, 120744); (120746, 120770); (120772, 120779); (122624, 122633);
   (122635, 122654); (125184, 125251); (127280, 127305); (127312, 127337); (127344, 127369)
  ].

Fixpoint within (ranges : list (Z * Z)) (c : Z) : bool :=
  match ranges with
  | [] => false
  | (first, last) :: ranges' =>
      if c <? first then false
      else if c <=? last then true
      else within ranges' c
  end.

(** Whether the first character that is not case-ignorable is cased. *)
Fixpoint cased_ahead (l : list item) : bool :=
  match l with
  | Char c :: l' => if within case_ignorable c then cased_ahead l' else within cased c
  | _ => false
  end.

(** [str.lower], character by character.  A capital sigma (U+03A3) becomes
    a final sigma (U+03C2) when a cased character comes before it and none
    after it, case-ignorable characters apart, and a small sigma (U+03C3)
    otherwise; [before] tells whether the last character read that is not
    case-ignorable was cased. *)
Fixpoint lower (before : bool) (l : list item) : list item :=
  match l with
  | [] => []
  | Char c :: l' =>
      let now := if within case_ignorable c then before else within cased c in
      if c =? 931 then Char (if before && negb (cased_ahead l') then 962 else 963) :: lower now l'
      else (map Char (to_lower c) ++ lower now l')%list
  | Stray b :: l' => Stray b :: lower false l'
  end.

End unicode.

(** [s.lower()] *)
Definition lower (s : string) : string :=
  unicode.encode (unicode.lower false (unicode.decode s)).

(** [s.replace(old, new)] for a one-character pattern [old]. *)
Fixpoint replace (old : ascii) (new : string) (s : string) : string :=
  match s with
  | EmptyString => EmptyString
  | String c s' =>
      if Ascii.eqb c old then new +:+ replace old new s'
      else String c (replace old new s')
  end.

(** ** The host interpreter *)

(** Everything the source imports or gets from the language.  [W] is the
    host's mutable state (the random number generator).  Functions that the
    source calls with the evaluated argument list ([fn( *args )]) take that
    list; functions the source calls on one object, or on the tuple of
    arguments as a data sequence, take the object or the sequence's
    elements. *)
Record Host (W : Type) : Type := {
  (** [ast.parse(expr, mode="eval")]: the tree, or [None] when the parser
      raises (SyntaxError, ValueError, RecursionError, MemoryError). *)
  ast_parse : string -> option ast.node;
  (** [str(op)] of an operator object of the given class; the text carries a
      memory address. *)
  op_str : string -> string;
  (** [+x] and [-x] *)
  py_pos : value -> res value;
  py_neg : value -> res value;
  (** [operator.add], [sub], [mul], [truediv], [floordiv], [mod], [pow] *)
  py_binop : ast.operator -> value -> value -> res value;
  (** [==], [!=], [<], [<=], [>], [>=] on the objects of [value] *)
  py_compare : ast.cmpop -> value -> value -> res bool;
  (** the text of the TypeError raised when the lambda of the given
      qualified name and parameters receives the given number of arguments *)
  arity_msg : string -> list string -> nat -> string;
  math_sin : value -> res value;
  math_cos : value -> res value;
  math_tan : value -> res value;
  math_radians : value -> res value;
  math_log10 : value -> res value;
  math_factorial : value -> res value;
  builtin_int : value -> res value;
  (** called with the argument list *)
  math_sqrt : list value -> res value;
  math_log : list value -> res value;
  builtin_abs : list value -> res value;
  builtin_round : list value -> res value;
  (** called on one sequence *)
  statistics_mean : list value -> res value;
  statistics_median : list value -> res value;
  statistics_mode : list value -> res value;
  statistics_stdev : list value -> res value;
  statistics_variance : list value -> res value;
  builtin_min : list value -> res value;
  builtin_max : list value -> res value;
  (** the generator *)
  random_random : W -> float * W;
  random_choice : list value -> W -> res value * W;
}.
Arguments ast_parse {W} _ _.
Arguments op_str {W} _ _.
Arguments py_pos {W} _ _.
Arguments py_neg {W} _ _.
Arguments py_binop {W} _ _ _ _.
Arguments py_compare {W} _ _ _ _.
Arguments arity_msg {W} _ _ _ _.
Arguments math_sin {W} _ _.
Arguments math_cos {W} _ _.
Arguments math_tan {W} _ _.
Arguments math_radians {W} _ _.
Arguments math_log10 {W} _ _.
Arguments math_factorial {W} _ _.
Arguments builtin_int {W} _ _.
Arguments math_sqrt {W} _ _.
Arguments math_log {W} _ _.
Arguments builtin_abs {W} _ _.
Arguments builtin_round {W} _ _.
Arguments statistics_mean {W} _ _.
Arguments statistics_median {W} _ _.
Arguments statistics_mode {W} _ _.
Arguments statistics_stdev {W} _ _.
Arguments statistics_variance {W} _ _.
Arguments builtin_min {W} _ _.
Arguments builtin_max {W} _ _.
Arguments random_random {W} _ _.
Arguments random_choice {W} _ _ _.

(** [math.pi] and [math.e] *)
Definition math_pi : float := 0x1.921fb54442d18p+1%float.
Definition math_e : float := 0x1.5bf0a8b145769p+1%float.

(** ** Running Python: state and exceptions *)

Definition M (W A : Type) : Type := W -> res A * W.

Definition ret {W A} (a : A) : M W A := fun w => (Return a, w).

Definition raise {W A} (e : exn) : M W A := fun w => (Raise e, w).

Definition bind {W A B} (c : M W A) (k : A -> M W B) : M W B :=
  fun w => match c w with
           | (Return a, w') => k a w'
           | (Raise e, w') => (Raise e, w')
           end.

Definition lift {W A} (r : res A) : M W A := fun w => (r, w).

(** [try: body  except Exception as e: handler(e)] *)
Definition try_except {W A} (body : M W A) (handler : exn -> M W A) : M W A :=
  fun w => match body w with
           | (Return a, w') => (Return a, w')
           | (Raise e, w') => handler e w'
           end.

Notation "x <- c ;; k" := (bind c (fun x => k))
  (at level 100, c at next level, right associativity).

(** [[f(x) for x in l]], left to right *)
Definition mapM {W A B} (f : A -> M W B) : list A -> M W (list B) :=
  fix go (l : list A) : M W (list B) :=
    match l with
    | [] => ret []
    | x :: l' => y <- f x ;; ys <- go l' ;; ret (y :: ys)
    end.

(** ** The engine *)

Section Engine.

Context {W : Type} (host : Host W).

(** A callable of the function table, applied to the evaluated argument
    list. *)
Definition native : Type := list value -> M W value.

(** *** class SafeEvaluator *)

Record SafeEvaluator : Type := {
  funcs : gmap string native;
  names : gmap string value;
}.

(** The arithmetic operators [visit_BinOp] has a table entry for. *)
Definition in_ops (op : ast.operator) : bool :=
  match op with
  | ast.Add | ast.Sub | ast.Mult | ast.Div
  | ast.FloorDiv | ast.Mod | ast.Pow => true
  | _ => false
  end.

(** The body of [visit_BinOp] once both operands are evaluated: the table
    lookup and the translation of what the operator raises. *)
Definition apply_binop (op : ast.operator) (left_ right_ : value) : M W value :=
  if in_ops op then
    match py_binop host op left_ right_ with
    | Return v => ret v
    | Raise e =>
        match exn_class e with
        | ZeroDivisionError => raise (Exn EvalError "Division by zero")
        | _ => raise (Exn EvalError (exn_msg e))
        end
    end
  else
    raise (Exn EvalError
             ("Unsupported binary operator: " +:+ op_str host (ast.operator_name op))).

(** The body of [visit_UnaryOp] once the operand is evaluated. *)
Definition apply_unaryop (op : ast.unaryop) (operand : value) : M W value :=
  match op with
  | ast.UAdd => lift (py_pos host operand)
  | ast.USub => lift (py_neg host operand)
  | ast.Not => ret (VBool (negb (truthy operand)))
  | ast.Invert =>
      raise (Exn EvalError ("Unsupported unary operator: " +:+ op_str host "Invert"))
  end.

(** The body of [visit_BoolOp] once the operands are evaluated:
    [all(vals)] and [any(vals)]. *)
Definition apply_boolop (op : ast.boolop) (vals : list value) : value :=
  match op with
  | ast.And => VBool (forallb truthy vals)
  | ast.Or => VBool (existsb truthy vals)
  end.

(** One step of the loop of [visit_Compare]:
    [result = result and (left OP right)].  Python's [and] leaves the right
    operand alone when [result] is already false. *)
Definition compare_step (op : ast.cmpop) (result : bool) (left_ right_ : value)
  : M W bool :=
  match op with
  | ast.Eq | ast.NotEq | ast.Lt | ast.LtE | ast.Gt | ast.GtE =>
      if result then lift (py_compare host op left_ right_) else ret false
  | _ => raise (Exn EvalError "Unsupported comparison")
  end.

(** The loop of [visit_Compare] over [zip(node.ops, node.comparators)]. *)
Definition compare_loop (visit : ast.node -> M W value)
  : list ast.cmpop -> list ast.node -> value -> bool -> M W value :=
  fix loop ops comparators left_ result {struct comparators} :=
    match comparators, ops with
    | comparator :: comparators', op :: ops' =>
        right_ <- visit comparator ;;
        result' <- compare_step op result left_ right_ ;;
        loop ops' comparators' right_ result'
    | _, _ => ret (VBool result)
    end.

(** The [try] block of [visit_Call]: [fn( *args )] with its two handlers. *)
Definition call_native (fn : native) (args : list value) : M W value :=
  try_except (fn args)
    (fun e =>
       match exn_class e with
       | TypeError => raise (Exn EvalError ("Function call error: " +:+ exn_msg e))
       | _ => raise (Exn EvalError (exn_msg e))
       end).

(** [SafeEvaluator.visit]: dispatch on the node's class to [visit_<Class>],
    falling back on [generic_visit]. *)
Fixpoint visit (self : SafeEvaluator) (node : ast.node) {struct node} : M W value :=
  match node with
  | ast.Expression body => visit self body
  | ast.Constant v => ret v
  | ast.Num n => ret n
  | ast.UnaryOp op operand =>
      operand <- visit self operand ;;
      apply_unaryop op operand
  | ast.BinOp l op r =>
      left_ <- visit self l ;;
      right_ <- visit self r ;;
      apply_binop op left_ right_
  | ast.BoolOp op values =>
      vals <- mapM (visit self) values ;;
      ret (apply_boolop op vals)
  | ast.Compare l ops comparators =>
      left_ <- visit self l ;;
      compare_loop (visit self) ops comparators left_ true
  | ast.Call func args _ =>
      match func with
      | ast.Name id =>
          let fname := lower id in
          match funcs self !! fname with
          | None => raise (Exn EvalError ("Unknown function: " +:+ fname))
          | Some fn =>
              args <- mapM (visit self) args ;;
              call_native fn args
          end
      | _ => raise (Exn EvalError "Only direct function calls allowed")
      end
  | ast.Name id =>
      let nid := lower id in
      match names self !! nid with
      | Some v => ret v
      | None => raise (Exn EvalError ("Unknown name: " +:+ id))
      end
  | ast.List elts =>
      items <- mapM (visit self) elts ;;
      ret (VList items)
  | ast.Tuple elts =>
      items <- mapM (visit self) elts ;;
      ret (VTuple items)
  | ast.Other class_name =>
      raise (Exn EvalError ("Unsupported expression: " +:+ class_name))
  end.

(** *** class CalculatorEngine *)

Record CalculatorEngine : Type := { mode : string }.

(** [__init__] *)
Definition new_engine : CalculatorEngine := {| mode := "deg" |}.

Definition set_mode (self : CalculatorEngine) (mode_ : string) : CalculatorEngine :=
  if String.eqb mode_ "deg" || String.eqb mode_ "rad"
  then {| mode := mode_ |} else self.

(** [_raise(msg)] *)
Definition _raise {A} (msg : string) : M W A := raise (Exn EvalError msg).

(** Calling a [lambda] with fixed parameters: the interpreter checks the
    number of arguments before the body runs.  [scope] is the method the
    lambda is written in. *)
Definition qualname (scope : string) : string :=
  "CalculatorEngine." +:+ scope +:+ ".<locals>.<lambda>".

Definition lambda0 (scope : string) (body : M W value) : native :=
  fun args =>
    match args with
    | [] => body
    | _ => raise (Exn TypeError (arity_msg host (qualname scope) [] (length args)))
    end.

Definition lambda1 (scope x : string) (body : value -> M W value) : native :=
  fun args =>
    match args with
    | [a] => body a
    | _ => raise (Exn TypeError (arity_msg host (qualname scope) [x] (length args)))
    end.

Definition lambda2 (scope x y : string) (body : value -> value -> M W value) : native :=
  fun args =>
    match args with
    | [a; b] => body a b
    | _ => raise (Exn TypeError (arity_msg host (qualname scope) [x; y] (length args)))
    end.

(** [a[i]] on the argument tuple *)
Definition index (a : list value) (i : nat) : M W value :=
  match nth_error a i with
  | Some v => ret v
  | None => raise (Exn OtherException "tuple index out of range")
  end.

Definition _angle_wrapper (self : CalculatorEngine) (trig_fn : value -> res value)
  : native :=
  if String.eqb (mode self) "rad" then
    lambda1 "_angle_wrapper" "x" (fun x => lift (trig_fn x))
  else
    lambda1 "_angle_wrapper" "x"
      (fun x => r <- lift (math_radians host x) ;; lift (trig_fn r)).

Definition _safe_mode (args : list value) : M W value :=
  try_except (lift (statistics_mode host args))
    (fun e =>
       match exn_class e with
       | StatisticsError => ret (VStr "No unique mode")
       | _ => raise e
       end).

(** [1 / f(x)], as in [sec], [csc] and [cot] *)
Definition reciprocal (f : native) : native :=
  lambda1 "_prepare_functions" "x"
    (fun x => y <- f [x] ;; lift (py_binop host ast.Div (VInt 1) y)).

(** [statistics.f(a) if len(a) > 1 else _raise(msg)] *)
Definition needs_two (f : list value -> res value) (msg : string) : native :=
  fun a => if (1 <? length a)%nat then lift (f a) else _raise msg.

Definition is_sequence (v : value) : option (list value) :=
  match v with
  | VList items | VTuple items => Some items
  | _ => None
  end.

Definition _prepare_functions (self : CalculatorEngine) : gmap string native :=
  list_to_map [
    ("sin", _angle_wrapper self (math_sin host));
    ("cos", _angle_wrapper self (math_cos host));
    ("tan", _angle_wrapper self (math_tan host));
    ("sec", reciprocal (_angle_wrapper self (math_cos host)));
    ("csc", reciprocal (_angle_wrapper self (math_sin host)));
    ("cot", reciprocal (_angle_wrapper self (math_tan host)));
    ("sqrt", fun a => lift (math_sqrt host a));
    ("log", fun a =>
              match a with
              | [x] => lift (math_log10 host x)
              | _ => x <- index a 0 ;; b <- index a 1 ;; lift (math_log host [x; b])
              end);
    ("ln", fun a => lift (math_log host a));
    ("mean", fun a =>
               if (1 <=? length a)%nat then lift (statistics_mean host a)
               else ret (VExc (Exn EvalError "mean() needs args")));
    ("median", fun a => lift (statistics_median host a));
    ("mode", fun a => _safe_mode a);
    ("std", needs_two (statistics_stdev host) "Need ≥2 values for stdev");
    ("stdev", needs_two (statistics_stdev host) "Need ≥2 values for stdev");
    ("variance", needs_two (statistics_variance host) "Need ≥2 values for variance");
    ("min", fun a => lift (builtin_min host a));
    ("max", fun a => lift (builtin_max host a));
    ("abs", fun a => lift (builtin_abs host a));
    ("round", fun a => lift (builtin_round host a));
    ("factorial", lambda1 "_prepare_functions" "n"
                    (fun n => i <- lift (builtin_int host n) ;;
                              lift (math_factorial host i)));
    ("mod", lambda2 "_prepare_functions" "a" "b"
              (fun a b => lift (py_binop host ast.Mod a b)));
    ("rand", lambda0 "_prepare_functions"
               (fun w => let (f, w') := random_random host w in
                         (Return (VFloat f), w')));
    ("choice", fun a =>
                 match a with
                 | [s] => match is_sequence s with
                          | Some items => random_choice host items
                          | None => _raise "choice requires a single sequence argument"
                          end
                 | _ => _raise "choice requires a single sequence argument"
                 end)
  ].

Definition _prepare_names (extra : option (list (string * value)))
  : gmap string value :=
  let names := list_to_map [("pi", VFloat math_pi); ("e", VFloat math_e)] in
  match extra with
  | Some items => fold_left (fun names kv => <[lower (fst kv) := snd kv]> names) items names
  | None => names
  end.

(** [expression.replace(" ", "").replace("^", "**")] *)
Definition prepare_text (expression : string) : string :=
  replace "^" "**" (replace " " "" expression).

(** The [try] block shared by [calculate] and [evaluate_for_x]. *)
Definition evaluate (self : CalculatorEngine) (extra : option (list (string * value)))
    (expression : string) : M W value :=
  let expr := prepare_text expression in
  match ast_parse host expr with
  | None => raise (Exn OtherException "invalid syntax")
  | Some node =>
      let funcs := _prepare_functions self in
      let names := _prepare_names extra in
      let evaluator := {| funcs := funcs; names := names |} in
      visit evaluator node
  end.

Definition calculate (self : CalculatorEngine) (expression : string) : M W value :=
  try_except (evaluate self None expression)
    (fun e =>
       match exn_class e with
       | EvalError => ret (VStr ("Error: " +:+ exn_msg e))
       | ZeroDivisionError => ret (VStr "Division by zero")
       | _ => ret (VStr "Error")
       end).

Definition evaluate_for_x (self : CalculatorEngine) (expression : string)
    (x_value : value) : M W value :=
  try_except (evaluate self (Some [("x", x_value)]) expression)
    (fun e =>
       match exn_class e with
       | EvalError => ret VNone
       | _ => ret VNone
       end).

End Engine.

(** * The reference host

    A model of the host interpreter for the part of Python the examples
    exercise.  Expression syntax: integer and float literals (decimal,
    hexadecimal, octal, binary; no digit separators, no imaginary literals),
    plain quoted strings without escapes, identifiers, the operators of the
    expression grammar, calls with positional and keyword arguments, list and
    tuple displays, attribute access, subscription, parameterless lambda and
    the conditional expression, all on one line.  Any other text (comments,
    line breaks, dict and set displays, comprehensions, ...) is reported as
    unparsable.  Values: integers, booleans, binary64 floats, strings and
    sequences. *)

(** ** binary64 *)

Module pyfloat.

Definition spec_of_Z (z : Z) : spec_float :=
  match z with
  | Z0 => S754_zero false
  | Zpos p => S754_finite false p 0
  | Zneg p => S754_finite true p 0
  end.

(** The float nearest to the quotient [a / b] of two integers (ties to
    even); an infinity when the quotient is out of range. *)
Definition div_Z (a b : Z) : float :=
  SF2Prim (SFdiv prec emax (spec_of_Z a) (spec_of_Z b)).

(** The float nearest to an integer. *)
Definition of_Z (z : Z) : float :=
  SF2Prim (binary_normalize prec emax z 0 false).

(** The float nearest to [m * 10^e]: the value of a decimal literal. *)
Definition of_decimal (m e : Z) : float :=
  if 0 <=? e then of_Z (m * 10 ^ e) else div_Z m (10 ^ (- e)).

Definition is_finite (f : float) : bool :=
  match Prim2SF f with
  | S754_zero _ | S754_finite _ _ _ => true
  | _ => false
  end.

(** A finite float as an exact fraction [(n, d)], [d] a power of two. *)
Definition to_frac (f : float) : Z * Z :=
  match Prim2SF f with
  | S754_finite s m e =>
      let n := if s then Zneg m else Zpos m in
      if 0 <=? e then (n * 2 ^ e, 1) else (n, 2 ^ (- e))
  | _ => (0, 1)
  end.

(** Python compares an integer with a float by value, without rounding
    the integer. *)
Definition compare_Z (z : Z) (f : float) : option comparison :=
  match Prim2SF f with
  | S754_nan => None
  | S754_infinity s => Some (if s then Gt else Lt)
  | _ => let (n, d) := to_frac f in Some (z * d ?= n)
  end.

(** The sign bit. *)
Definition sign (f : float) : bool :=
  match Prim2SF f with
  | S754_zero s | S754_infinity s | S754_finite s _ _ => s
  | S754_nan => false
  end.

Definition is_zero (f : float) : bool := PrimFloat.eqb f 0%float.

(** [copysign(0.0, f)] *)
Definition zero_like (negative : bool) : float :=
  if negative then (-0)%float else 0%float.

(** Whether a float is a whole number, and an odd one. *)
Definition is_integer (f : float) : bool :=
  is_finite f && (let (n, d) := to_frac f in n mod d =? 0).

Definition is_odd_integer (f : float) : bool :=
  is_integer f && (let (n, d) := to_frac f in Z.odd (n / d)).

(** C's [floor]. *)
Definition floor (f : float) : float :=
  if negb (is_finite f) || is_zero f then f
  else let (n, d) := to_frac f in
       let q := n / d in
       if q =? 0 then zero_like (sign f) else of_Z q.

(** [int(f)]: the integer part of a finite float. *)
Definition trunc (f : float) : Z :=
  let (n, d) := to_frac f in Z.quot n d.

(** C's [fmod], for a divisor other than zero: exact, with the sign of
    the dividend. *)
Definition fmod (x y : float) : float :=
  if PrimFloat.is_nan x || PrimFloat.is_nan y || negb (is_finite x) then nan
  else if negb (is_finite y) then x
  else
    let (n1, d1) := to_frac x in
    let (n2, d2) := to_frac y in
    let r := Z.rem (n1 * d2) (n2 * d1) in
    if r =? 0 then zero_like (sign x) else div_Z r (d1 * d2).

End pyfloat.

(** ** The parser: [ast.parse(text, mode="eval")] *)

Module pyparse.

Inductive token : Type :=
| TNum (v : value)
| TStr (s : string)
| TName (s : string)
| TOp (s : string).

Definition code (c : ascii) : nat := nat_of_ascii c.

Definition is_digit (c : ascii) : bool := ((48 <=? code c) && (code c <=? 57))%nat.

Definition is_name_start (c : ascii) : bool :=
  (((65 <=? code c) && (code c <=? 90)) || ((97 <=? code c) && (code c <=? 122))
   || (code c =? 95))%nat.

Definition is_name_char (c : ascii) : bool := is_name_start c || is_digit c.

Definition is_blank (c : ascii) : bool :=
  ((code c =? 32) || (code c =? 9) || (code c =? 12))%nat.

(** The value of a digit in a base up to sixteen. *)
Definition digit_value (base : nat) (c : ascii) : option Z :=
  let n := code c in
  let d := if is_digit c then Some (n - 48)%nat
           else if ((97 <=? n) && (n <=? 102))%nat then Some (n - 87)%nat
           else if ((65 <=? n) && (n <=? 70))%nat then Some (n - 55)%nat
           else None in
  match d with
  | Some d => if (d <? base)%nat then Some (Z.of_nat d) else None
  | None => None
  end.

(** The longest run of digits in front of a text: how many there are,
    their value, and the rest of the text. *)
Fixpoint digits (base : nat) (s : string) (count : nat) (acc : Z) : nat * Z * string :=
  match s with
  | String c s' =>
      match digit_value base c with
      | Some d => digits base s' (S count) (acc * Z.of_nat base + d)
      | None => (count, acc, s)
      end
  | EmptyString => (count, acc, s)
  end.

(** The exponent part of a float literal, when one follows. *)
Definition exponent (s : string) : option (Z * string) :=
  match s with
  | String c s' =>
      if ((code c =? 101) || (code c =? 69))%nat then
        let '(neg, s'') :=
          match s' with
          | String "+" t => (false, t)
          | String "-" t => (true, t)
          | _ => (false, s')
          end in
        match digits 10 s'' 0 0 with
        | (O, _, _) => None
        | (_, e, rest) => Some (if neg then - e else e, rest)
        end
      else None
  | EmptyString => None
  end.

(** A number in front of a text whose first character is a digit or a
    dot followed by a digit. *)
Definition number (s : string) : option (value * string) :=
  let prefixed (base : nat) (s' : string) :=
    match digits base s' 0 0 with
    | (O, _, _) => None
    | (_, n, rest) => Some (VInt n, rest)
    end in
  match s with
  | String "0" (String "x" s') | String "0" (String "X" s') => prefixed 16%nat s'
  | String "0" (String "o" s') | String "0" (String "O" s') => prefixed 8%nat s'
  | String "0" (String "b" s') | String "0" (String "B" s') => prefixed 2%nat s'
  | _ =>
      let '(_, n, rest) := digits 10 s 0 0 in
      let '(is_float, fcount, m, rest) :=
        match rest with
        | String "." t => let '(k, m, t') := digits 10 t 0 n in (true, k, m, t')
        | _ => (false, O, n, rest)
        end in
      let '(is_float, e, rest) :=
        match exponent rest with
        | Some (e, t) => (true, e, t)
        | None => (is_float, 0, rest)
        end in
      if is_float then Some (VFloat (pyfloat.of_decimal m (e - Z.of_nat fcount)), rest)
      else
        match s with
        | String "0" _ => if n =? 0 then Some (VInt 0, rest) else None
        | _ => Some (VInt n, rest)
        end
  end.

(** The identifier in front of a text. *)
Fixpoint name (s : string) : string * string :=
  match s with
  | String c s' =>
      if is_name_char c then let (n, rest) := name s' in (String c n, rest)
      else (EmptyString, s)
  | EmptyString => (EmptyString, s)
  end.

(** The body of a plain string literal up to the closing quote. *)
Fixpoint quoted (q : ascii) (s : string) : option (string * string) :=
  match s with
  | String c s' =>
      if Ascii.eqb c q then Some (EmptyString, s')
      else if ((code c =? 92) || (code c <? 32) || (127 <? code c))%nat then None
      else match quoted q s' with
           | Some (body, rest) => Some (String c body, rest)
           | None => None
           end
  | EmptyString => None
  end.

(** The operator or delimiter in front of a text, longest first. *)
Definition punct (s : string) : option (string * string) :=
  match s with
  | String "*" (String "*" t) => Some ("**", t)
  | String "/" (String "/" t) => Some ("//", t)
  | String "=" (String "=" t) => Some ("==", t)
  | String "!" (String "=" t) => Some ("!=", t)
  | String "<" (String "=" t) => Some ("<=", t)
  | String ">" (String "=" t) => Some (">=", t)
  | String "<" (String "<" t) => Some ("<<", t)
  | String ">" (String ">" t) => Some (">>", t)
  | String c t =>
      if existsb (Ascii.eqb c)
           ["+"; "-"; "*"; "/"; "%"; "("; ")"; "["; "]"; ","; "<"; ">";
            "."; ":"; "|"; "&"; "~"; "@"; "="; "^"]%char
      then Some (String c EmptyString, t) else None
  | EmptyString => None
  end.

Definition starts_with_digit (s : string) : bool :=
  match s with String c _ => is_digit c | EmptyString => false end.

(** the two quote characters *)
Definition is_quote (c : ascii) : bool := ((code c =? 39) || (code c =? 34))%nat.

Definition starts_with_quote (s : string) : bool :=
  match s with String c _ => is_quote c | EmptyString => false end.

Fixpoint tokenize (fuel : nat) (s : string) : option (list token) :=
  match fuel with
  | O => None
  | S fuel' =>
      match s with
      | EmptyString => Some []
      | String c s' =>
          let continue (t : token) (rest : string) :=
            match tokenize fuel' rest with
            | Some ts => Some (t :: ts)
            | None => None
            end in
          if is_blank c then tokenize fuel' s'
          else if is_digit c || (Ascii.eqb c "." && starts_with_digit s') then
            match number s with
            | Some (v, rest) =>
                match rest with
                | String "j" _ | String "J" _ | String "_" _ => None
                | _ => continue (TNum v) rest
                end
            | None => None
            end
          else if is_name_start c then
            let (n, rest) := name s in
            if starts_with_quote rest then None else continue (TName n) rest
          else if is_quote c then
            match quoted c s' with
            | Some (body, rest) =>
                match body, rest with
                | EmptyString, String c' _ =>
                    if Ascii.eqb c' c then None else continue (TStr body) rest
                | _, _ => continue (TStr body) rest
                end
            | None => None
            end
          else
            match punct s with
            | Some (p, rest) => continue (TOp p) rest
            | None => None
            end
      end
  end.

(** *** From tokens to trees *)

Definition result : Type := option (ast.node * list token).

Definition eat_op (p : string) (ts : list token) : option (list token) :=
  match ts with
  | TOp q :: ts' => if String.eqb p q then Some ts' else None
  | _ => None
  end.

Definition eat_name (n : string) (ts : list token) : option (list token) :=
  match ts with
  | TName m :: ts' => if String.eqb n m then Some ts' else None
  | _ => None
  end.

Definition keywords : list string :=
  ["False"; "None"; "True"; "and"; "as"; "assert"; "async"; "await"; "break";
   "class"; "continue"; "def"; "del"; "elif"; "else"; "except"; "finally";
   "for"; "from"; "global"; "if"; "import"; "in"; "is"; "lambda"; "nonlocal";
   "not"; "or"; "pass"; "raise"; "return"; "try"; "while"; "with"; "yield"].

Definition is_keyword (n : string) : bool := existsb (String.eqb n) keywords.

(** The precedence levels of the expression grammar, loosest first. *)
Inductive level : Type :=
| LTest | LOr | LAnd | LNot | LCmp | LBitOr | LBitXor | LBitAnd | LShift
| LArith | LTerm | LFactor | LPower | LPrimary.

Definition lookup_op (table : list (string * ast.operator)) (t : token)
  : option ast.operator :=
  match t with
  | TOp p =>
      match find (fun e => String.eqb p (fst e)) table with
      | Some e => Some (snd e)
      | None => None
      end
  | _ => None
  end.

(** The binary operators of a left-associative level. *)
Definition binary_ops (lv : level) : list (string * ast.operator) :=
  match lv with
  | LBitOr => [("|", ast.BitOr)]
  | LBitXor => [("^", ast.BitXor)]
  | LBitAnd => [("&", ast.BitAnd)]
  | LShift => [("<<", ast.LShift); (">>", ast.RShift)]
  | LArith => [("+", ast.Add); ("-", ast.Sub)]
  | LTerm => [("*", ast.Mult); ("/", ast.Div); ("//", ast.FloorDiv);
              ("%", ast.Mod); ("@", ast.MatMult)]
  | _ => []
  end.

(** [operand (OP operand)*], grouping to the left. *)
Definition binary_loop (operand : list token -> result)
    (table : list (string * ast.operator))
  : nat -> ast.node -> list token -> result :=
  fix loop n acc ts :=
    match n with
    | O => None
    | S n' =>
        match ts with
        | t :: ts' =>
            match lookup_op table t with
            | Some op =>
                match operand ts' with
                | Some (r, rest) => loop n' (ast.BinOp acc op r) rest
                | None => None
                end
            | None => Some (acc, ts)
            end
        | [] => Some (acc, ts)
        end
    end.

(** [operand (KEYWORD operand)*]: the operands of one [BoolOp]. *)
Definition bool_loop (operand : list token -> result) (kw : string)
  : nat -> list token -> option (list ast.node * list token) :=
  fix loop n ts :=
    match n with
    | O => None
    | S n' =>
        match eat_name kw ts with
        | Some ts' =>
            match operand ts' with
            | Some (v, rest) =>
                match loop n' rest with
                | Some (vs, rest') => Some (v :: vs, rest')
                | None => None
                end
            | None => None
            end
        | None => Some ([], ts)
        end
    end.

(** A comparison operator in front of the tokens. *)
Definition cmp_op (ts : list token) : option (ast.cmpop * list token) :=
  match ts with
  | TOp p :: ts' =>
      if String.eqb p "==" then Some (ast.Eq, ts')
      else if String.eqb p "!=" then Some (ast.NotEq, ts')
      else if String.eqb p "<" then Some (ast.Lt, ts')
      else if String.eqb p "<=" then Some (ast.LtE, ts')
      else if String.eqb p ">" then Some (ast.Gt, ts')
      else if String.eqb p ">=" then Some (ast.GtE, ts')
      else None
  | TName n :: ts' =>
      if String.eqb n "in" then Some (ast.In, ts')
      else if String.eqb n "is" then
        match eat_name "not" ts' with
        | Some ts'' => Some (ast.IsNot, ts'')
        | None => Some (ast.Is, ts')
        end
      else if String.eqb n "not" then
        match eat_name "in" ts' with
        | Some ts'' => Some (ast.NotIn, ts'')
        | None => None
        end
      else None
  | _ => None
  end.

(** [(CMPOP operand)*]: the operators and comparators of one [Compare]. *)
Definition cmp_loop (operand : list token -> result)
  : nat -> list token -> option (list ast.cmpop * list ast.node * list token) :=
  fix loop n ts :=
    match n with
    | O => None
    | S n' =>
        match cmp_op ts with
        | Some (op, ts') =>
            match operand ts' with
            | Some (c, rest) =>
                match loop n' rest with
                | Some (ops, cs, rest') => Some (op :: ops, c :: cs, rest')
                | None => None
                end
            | None => None
            end
        | None => Some ([], [], ts)
        end
    end.

(** [[item ("," item)* [","]] CLOSE]: the items, whether a comma ended
    them, and the tokens after the closing delimiter. *)
Definition items {A} (item : list token -> option (A * list token)) (close : string)
  : nat -> list token -> option (list A * bool * list token) :=
  fix loop n ts :=
    match n with
    | O => None
    | S n' =>
        match eat_op close ts with
        | Some rest => Some ([], true, rest)
        | None =>
            match item ts with
            | Some (x, ts1) =>
                match eat_op close ts1 with
                | Some rest => Some ([x], false, rest)
                | None =>
                    match eat_op "," ts1 with
                    | Some ts2 =>
                        match loop n' ts2 with
                        | Some (xs, trailing, rest) => Some (x :: xs, trailing, rest)
                        | None => None
                        end
                    | None => None
                    end
                end
            | None => None
            end
        end
    end.

(** An argument of a call. *)
Inductive argument : Type :=
| Positional (a : ast.node)
| Keyword (k : option string) (a : ast.node).

Definition argument_at (test : list token -> result) (ts : list token)
  : option (argument * list token) :=
  match ts with
  | TName n :: TOp p :: ts' =>
      if String.eqb p "=" && negb (is_keyword n) then
        match test ts' with
        | Some (a, rest) => Some (Keyword (Some n) a, rest)
        | None => None
        end
      else
        match test ts with
        | Some (a, rest) => Some (Positional a, rest)
        | None => None
        end
  | TOp p :: ts' =>
      if String.eqb p "**" then
        match test ts' with
        | Some (a, rest) => Some (Keyword None a, rest)
        | None => None
        end
      else if String.eqb p "*" then
        match test ts' with
        | Some (_, rest) => Some (Positional (ast.Other "Starred"), rest)
        | None => None
        end
      else
        match test ts with
        | Some (a, rest) => Some (Positional a, rest)
        | None => None
        end
  | _ =>
      match test ts with
      | Some (a, rest) => Some (Positional a, rest)
      | None => None
      end
  end.

(** Positional arguments come before keyword arguments. *)
Fixpoint split_arguments (l : list argument) (seen_keyword : bool)
  : option (list ast.node * list (option string * ast.node)) :=
  match l with
  | [] => Some ([], [])
  | Positional a :: l' =>
      match a, seen_keyword with
      | ast.Other _, _ | _, false =>
          match split_arguments l' seen_keyword with
          | Some (args, kws) => Some (a :: args, kws)
          | None => None
          end
      | _, true => None
      end
  | Keyword k a :: l' =>
      match split_arguments l' true with
      | Some (args, kws) => Some (args, (k, a) :: kws)
      | None => None
      end
  end.

(** The trailers of a primary: calls, subscripts and attribute accesses. *)
Definition trailers (test : list token -> result)
  : nat -> ast.node -> list token -> result :=
  fix loop n acc ts :=
    match n with
    | O => None
    | S n' =>
        match ts with
        | TOp p :: ts' =>
            if String.eqb p "(" then
              match items (argument_at test) ")" n' ts' with
              | Some (l, _, rest) =>
                  match split_arguments l false with
                  | Some (args, kws) => loop n' (ast.Call acc args kws) rest
                  | None => None
                  end
              | None => None
              end
            else if String.eqb p "[" then
              match items test "]" n' ts' with
              | Some (_ :: _, _, rest) => loop n' (ast.Other "Subscript") rest
              | _ => None
              end
            else if String.eqb p "." then
              match ts' with
              | TName a :: rest =>
                  if is_keyword a then None else loop n' (ast.Other "Attribute") rest
              | _ => None
              end
            else Some (acc, ts)
        | _ => Some (acc, ts)
        end
    end.

Definition atom (test : list token -> result) (n : nat) (ts : list token) : result :=
  match ts with
  | TNum v :: rest => Some (ast.Constant v, rest)
  | TStr s :: rest =>
      match rest with
      | TStr _ :: _ => None
      | _ => Some (ast.Constant (VStr s), rest)
      end
  | TName m :: rest =>
      if String.eqb m "True" then Some (ast.Constant (VBool true), rest)
      else if String.eqb m "False" then Some (ast.Constant (VBool false), rest)
      else if String.eqb m "None" then Some (ast.Constant VNone, rest)
      else if is_keyword m then None
      else Some (ast.Name m, rest)
  | TOp p :: ts' =>
      if String.eqb p "(" then
        match items test ")" n ts' with
        | Some ([e], false, rest) => Some (e, rest)
        | Some (es, _, rest) => Some (ast.Tuple es, rest)
        | None => None
        end
      else if String.eqb p "[" then
        match items test "]" n ts' with
        | Some (es, _, rest) => Some (ast.List es, rest)
        | None => None
        end
      else None
  | [] => None
  end.

Fixpoint parse (fuel : nat) (lv : level) (ts : list token) {struct fuel} : result :=
  match fuel with
  | O => None
  | S fuel' =>
      let sub := parse fuel' in
      match lv with
      | LTest =>
          match eat_name "lambda" ts with
          | Some ts' =>
              match eat_op ":" ts' with
              | Some ts'' =>
                  match sub LTest ts'' with
                  | Some (_, rest) => Some (ast.Other "Lambda", rest)
                  | None => None
                  end
              | None => None
              end
          | None =>
              match sub LOr ts with
              | Some (body, rest) =>
                  match eat_name "if" rest with
                  | Some ts1 =>
                      match sub LOr ts1 with
                      | Some (_, ts2) =>
                          match eat_name "else" ts2 with
                          | Some ts3 =>
                              match sub LTest ts3 with
                              | Some (_, rest') => Some (ast.Other "IfExp", rest')
                              | None => None
                              end
                          | None => None
                          end
                      | None => None
                      end
                  | None => Some (body, rest)
                  end
              | None => None
              end
          end
      | LOr | LAnd =>
          let '(next, kw, op) :=
            match lv with
            | LOr => (LAnd, "or", ast.Or)
            | _ => (LNot, "and", ast.And)
            end in
          match sub next ts with
          | Some (first, rest) =>
              match bool_loop (sub next) kw fuel' rest with
              | Some ([], rest') => Some (first, rest')
              | Some (others, rest') => Some (ast.BoolOp op (first :: others), rest')
              | None => None
              end
          | None => None
          end
      | LNot =>
          match eat_name "not" ts with
          | Some ts' =>
              match sub LNot ts' with
              | Some (operand, rest) => Some (ast.UnaryOp ast.Not operand, rest)
              | None => None
              end
          | None => sub LCmp ts
          end
      | LCmp =>
          match sub LBitOr ts with
          | Some (first, rest) =>
              match cmp_loop (sub LBitOr) fuel' rest with
              | Some ([], _, rest') => Some (first, rest')
              | Some (ops, cs, rest') => Some (ast.Compare first ops cs, rest')
              | None => None
              end
          | None => None
          end
      | LBitOr | LBitXor | LBitAnd | LShift | LArith | LTerm =>
          let next :=
            match lv with
            | LBitOr => LBitXor | LBitXor => LBitAnd | LBitAnd => LShift
            | LShift => LArith | LArith => LTerm | _ => LFactor
            end in
          match sub next ts with
          | Some (first, rest) => binary_loop (sub next) (binary_ops lv) fuel' first rest
          | None => None
          end
      | LFactor =>
          match ts with
          | TOp p :: ts' =>
              let unary op :=
                match sub LFactor ts' with
                | Some (operand, rest) => Some (ast.UnaryOp op operand, rest)
                | None => None
                end in
              if String.eqb p "+" then unary ast.UAdd
              else if String.eqb p "-" then unary ast.USub
              else if String.eqb p "~" then unary ast.Invert
              else sub LPower ts
          | _ => sub LPower ts
          end
      | LPower =>
          match sub LPrimary ts with
          | Some (base, rest) =>
              match eat_op "**" rest with
              | Some ts' =>
                  match sub LFactor ts' with
                  | Some (e, rest') => Some (ast.BinOp base ast.Pow e, rest')
                  | None => None
                  end
              | None => Some (base, rest)
              end
          | None => None
          end
      | LPrimary =>
          match atom (sub LTest) fuel' ts with
          | Some (a, rest) => trailers (sub LTest) fuel' a rest
          | None => None
          end
      end
  end.

Definition starts_blank (s : string) : bool :=
  match s with String c _ => is_blank c | EmptyString => false end.

(** The tokens of a text. *)
Definition tokens (text : string) : option (list token) :=
  tokenize (S (String.length text)) text.

(** [ast.parse(text, mode="eval")]: an expression, or several separated by
    commas (a tuple without parentheses), and nothing after it.  A text
    that begins with blank space is an indentation error. *)
Definition ast_parse (text : string) : option ast.node :=
  if starts_blank text then None
  else
    match tokens text with
    | Some ts =>
        let fuel := (16 * S (List.length ts))%nat in
        match parse fuel LTest ts with
        | Some (first, []) => Some (ast.Expression first)
        | Some (first, rest) =>
            match eat_op "," rest with
            | Some [] => Some (ast.Expression (ast.Tuple [first]))
            | Some rest' =>
                match items (parse fuel LTest) "" fuel (rest' ++ [TOp ""]) with
                | Some (others, _, []) => Some (ast.Expression (ast.Tuple (first :: others)))
                | _ => None
                end
            | None => None
            end
        | None => None
        end
    | None => None
    end.

End pyparse.

(** ** Objects, operators and comparisons

    Messages are those of CPython 3.11.  Object identity is not modelled:
    an exception object is equal to nothing. *)

Module py.

(** The double quote character, as a string. *)
Definition dq : string := String (ascii_of_nat 34) EmptyString.

Definition quote (s : string) : string := "'" +:+ s +:+ "'".

Definition type_name (v : value) : string :=
  match v with
  | VInt _ => "int"
  | VFloat _ => "float"
  | VBool _ => "bool"
  | VStr _ => "str"
  | VNone => "NoneType"
  | VList _ => "list"
  | VTuple _ => "tuple"
  | VExc _ => "EvalError"
  end.

Definition type_error {A} (msg : string) : res A := Raise (Exn TypeError msg).
Definition zero_division {A} (msg : string) : res A := Raise (Exn ZeroDivisionError msg).
(** ValueError, OverflowError, IndexError *)
Definition other_error {A} (msg : string) : res A := Raise (Exn OtherException msg).

Definition range_error {A} : res A :=
  other_error "(34, 'Numerical result out of range')".

(** *** Numbers *)

Inductive number : Type := NInt (z : Z) | NFloat (f : float).

(** [bool] is a subclass of [int]. *)
Definition as_number (v : value) : option number :=
  match v with
  | VInt z => Some (NInt z)
  | VBool b => Some (NInt (if b then 1 else 0))
  | VFloat f => Some (NFloat f)
  | _ => None
  end.

Definition float_of_int (z : Z) : res float :=
  let f := pyfloat.of_Z z in
  if pyfloat.is_finite f then Return f
  else other_error "int too large to convert to float".

Definition to_float (n : number) : res float :=
  match n with
  | NInt z => float_of_int z
  | NFloat f => Return f
  end.

(** The float a [math] function makes of its argument. *)
Definition real (v : value) : res float :=
  match as_number v with
  | Some n => to_float n
  | None => type_error ("must be real number, not " +:+ type_name v)
  end.

(** [float.__divmod__] for a divisor other than zero: the floored quotient
    and the remainder. *)
Definition float_divmod (vx wx : float) : float * float :=
  let mod_ := pyfloat.fmod vx wx in
  let div := ((vx - mod_) / wx)%float in
  let '(mod_, div) :=
    if negb (pyfloat.is_zero mod_) then
      if xorb (PrimFloat.ltb wx 0) (PrimFloat.ltb mod_ 0)
      then ((mod_ + wx)%float, (div - 1)%float) else (mod_, div)
    else (pyfloat.zero_like (pyfloat.sign wx), div) in
  let floordiv :=
    if negb (pyfloat.is_zero div) then
      let fl := pyfloat.floor div in
      if PrimFloat.ltb 0.5 (div - fl) then (fl + 1)%float else fl
    else pyfloat.zero_like (pyfloat.sign (vx / wx)%float) in
  (floordiv, mod_).

(** [float.__pow__]; [pow] is the C library's. *)
Definition float_pow (pow : float -> float -> float) (iv iw : float) : res value :=
  let ret f := Return (VFloat f) in
  if pyfloat.is_zero iw then ret 1%float
  else if PrimFloat.is_nan iv then ret iv
  else if PrimFloat.is_nan iw then ret (if PrimFloat.eqb iv 1 then 1%float else iw)
  else if negb (pyfloat.is_finite iw) then
    let av := PrimFloat.abs iv in
    if PrimFloat.eqb av 1 then ret 1%float
    else if Bool.eqb (PrimFloat.ltb 0 iw) (PrimFloat.ltb 1 av) then ret (PrimFloat.abs iw)
    else ret 0%float
  else if negb (pyfloat.is_finite iv) then
    let odd := pyfloat.is_odd_integer iw in
    if PrimFloat.ltb 0 iw then ret (if odd then iv else PrimFloat.abs iv)
    else ret (if odd then pyfloat.zero_like (pyfloat.sign iv) else 0%float)
  else if pyfloat.is_zero iv then
    if PrimFloat.ltb iw 0 then zero_division "0.0 cannot be raised to a negative power"
    else ret (if pyfloat.is_odd_integer iw then iv else 0%float)
  else if PrimFloat.ltb iv 0 && negb (pyfloat.is_integer iw) then
    other_error "complex result (outside the modelled values)"
  else
    let negate := PrimFloat.ltb iv 0 && pyfloat.is_odd_integer iw in
    let av := PrimFloat.abs iv in
    if PrimFloat.eqb av 1 then ret (if negate then (-1)%float else 1%float)
    else
      let ix := pow av iw in
      if pyfloat.is_finite ix then ret (if negate then (- ix)%float else ix)
      else range_error.

Definition operator_symbol (op : ast.operator) : string :=
  match op with
  | ast.Add => "+" | ast.Sub => "-" | ast.Mult => "*" | ast.Div => "/"
  | ast.FloorDiv => "//" | ast.Mod => "%" | ast.Pow => "** or pow()"
  | ast.MatMult => "@" | ast.LShift => "<<" | ast.RShift => ">>"
  | ast.BitOr => "|" | ast.BitXor => "^" | ast.BitAnd => "&"
  end.

Definition unsupported {A} (op : ast.operator) (a b : value) : res A :=
  type_error ("unsupported operand type(s) for " +:+ operator_symbol op +:+ ": "
              +:+ quote (type_name a) +:+ " and " +:+ quote (type_name b)).

Definition int_binop (pow : float -> float -> float) (op : ast.operator) (a b : Z)
  : res value :=
  match op with
  | ast.Add => Return (VInt (a + b))
  | ast.Sub => Return (VInt (a - b))
  | ast.Mult => Return (VInt (a * b))
  | ast.Div =>
      if b =? 0 then zero_division "division by zero"
      else
        let f := pyfloat.div_Z a b in
        if pyfloat.is_finite f then Return (VFloat f)
        else other_error "integer division result too large for a float"
  | ast.FloorDiv =>
      if b =? 0 then zero_division "integer division or modulo by zero"
      else Return (VInt (a / b))
  | ast.Mod =>
      if b =? 0 then zero_division "integer modulo by zero"
      else Return (VInt (a mod b))
  | ast.Pow =>
      if 0 <=? b then Return (VInt (a ^ b))
      else
        match float_of_int a, float_of_int b with
        | Return fa, Return fb => float_pow pow fa fb
        | Raise e, _ | _, Raise e => Raise e
        end
  | ast.LShift =>
      if b <? 0 then other_error "negative shift count" else Return (VInt (Z.shiftl a b))
  | ast.RShift =>
      if b <? 0 then other_error "negative shift count" else Return (VInt (Z.shiftr a b))
  | ast.BitOr => Return (VInt (Z.lor a b))
  | ast.BitXor => Return (VInt (Z.lxor a b))
  | ast.BitAnd => Return (VInt (Z.land a b))
  | ast.MatMult => unsupported op (VInt a) (VInt b)
  end.

Definition float_binop (pow : float -> float -> float) (op : ast.operator) (a b : float)
  : option (res value) :=
  match op with
  | ast.Add => Some (Return (VFloat (a + b)))
  | ast.Sub => Some (Return (VFloat (a - b)))
  | ast.Mult => Some (Return (VFloat (a * b)))
  | ast.Div =>
      Some (if pyfloat.is_zero b then zero_division "float division by zero"
            else Return (VFloat (a / b)))
  | ast.FloorDiv =>
      Some (if pyfloat.is_zero b then zero_division "float floor division by zero"
            else Return (VFloat (fst (float_divmod a b))))
  | ast.Mod =>
      Some (if pyfloat.is_zero b then zero_division "float modulo"
            else Return (VFloat (snd (float_divmod a b))))
  | ast.Pow => Some (float_pow pow a b)
  | _ => None
  end.

(** [s * n] for a sequence *)
Definition repeat_list {A} (l : list A) (n : Z) : list A :=
  List.concat (List.repeat l (Z.to_nat n)).

Fixpoint repeat_string (s : string) (n : nat) : string :=
  match n with
  | O => EmptyString
  | S n' => s +:+ repeat_string s n'
  end.

Fixpoint has_percent (s : string) : bool :=
  match s with
  | String c s' => Ascii.eqb c "%" || has_percent s'
  | EmptyString => false
  end.

Definition concat_error {A} (a b : value) : res A :=
  type_error ("can only concatenate " +:+ type_name a +:+ " (not " +:+ dq
              +:+ type_name b +:+ dq +:+ ") to " +:+ type_name a).

(** Whether a value is an integer (a boolean included), and which. *)
Definition as_int (v : value) : option Z :=
  match as_number v with
  | Some (NInt z) => Some z
  | _ => None
  end.

Definition repeat_value (seq : value) (n : Z) : value :=
  match seq with
  | VList l => VList (repeat_list l n)
  | VTuple l => VTuple (repeat_list l n)
  | VStr s => VStr (repeat_string s (Z.to_nat n))
  | _ => seq
  end.

Definition is_seq (v : value) : bool :=
  match v with
  | VList _ | VTuple _ | VStr _ => true
  | _ => false
  end.

(** The operators on sequences and strings; printf-style formatting of a
    string that holds a conversion is outside the model. *)
Definition seq_binop (op : ast.operator) (a b : value) : res value :=
  match op, a, b with
  | ast.Add, VList x, VList y => Return (VList (x ++ y))
  | ast.Add, VTuple x, VTuple y => Return (VTuple (x ++ y))
  | ast.Add, VStr x, VStr y => Return (VStr (x +:+ y))
  | ast.Add, (VList _ | VTuple _ | VStr _), _ => concat_error a b
  | ast.Mult, _, _ =>
      if is_seq a then
        match as_int b with
        | Some n => Return (repeat_value a n)
        | None =>
            type_error ("can't multiply sequence by non-int of type "
                        +:+ quote (type_name b))
        end
      else if is_seq b then
        match as_int a with
        | Some n => Return (repeat_value b n)
        | None =>
            type_error ("can't multiply sequence by non-int of type "
                        +:+ quote (type_name a))
        end
      else unsupported op a b
  | ast.Mod, VStr x, _ =>
      if has_percent x then other_error "string formatting (outside the model)"
      else match b with
           | VTuple [] => Return a
           | _ => type_error "not all arguments converted during string formatting"
           end
  | _, _, _ => unsupported op a b
  end.

(** [operator.add(a, b)] and the like *)
Definition binop (pow : float -> float -> float) (op : ast.operator) (a b : value)
  : res value :=
  match as_number a, as_number b with
  | Some (NInt x), Some (NInt y) => int_binop pow op x y
  | Some x, Some y =>
      match to_float x, to_float y with
      | Return fx, Return fy =>
          match float_binop pow op fx fy with
          | Some r => r
          | None => unsupported op a b
          end
      | Raise e, _ | _, Raise e =>
          match float_binop pow op 0 0 with
          | Some _ => Raise e
          | None => unsupported op a b
          end
      end
  | _, _ => seq_binop op a b
  end.

Definition bad_operand {A} (what : string) (v : value) : res A :=
  type_error ("bad operand type for " +:+ what +:+ ": " +:+ quote (type_name v)).

(** [+v] *)
Definition pos (v : value) : res value :=
  match as_number v with
  | Some (NInt z) => Return (VInt z)
  | Some (NFloat f) => Return (VFloat f)
  | None => bad_operand "unary +" v
  end.

(** [-v] *)
Definition neg (v : value) : res value :=
  match as_number v with
  | Some (NInt z) => Return (VInt (- z))
  | Some (NFloat f) => Return (VFloat (- f))
  | None => bad_operand "unary -" v
  end.

(** *** Comparisons *)

(** The order of two numbers; none when a NaN is involved. *)
Definition compare_numbers (a b : number) : option comparison :=
  match a, b with
  | NInt x, NInt y => Some (x ?= y)
  | NInt x, NFloat g => pyfloat.compare_Z x g
  | NFloat f, NInt y => option_map CompOpp (pyfloat.compare_Z y f)
  | NFloat f, NFloat g =>
      match PrimFloat.compare f g with
      | FEq => Some Eq
      | FLt => Some Lt
      | FGt => Some Gt
      | FNotComparable => None
      end
  end.

(** What a comparison operator makes of an order. *)
Definition holds (op : ast.cmpop) (c : option comparison) : bool :=
  match op, c with
  | ast.Eq, Some Eq => true
  | ast.NotEq, Some Eq => false
  | ast.NotEq, _ => true
  | ast.Lt, Some Lt => true
  | ast.LtE, Some (Lt | Eq) => true
  | ast.Gt, Some Gt => true
  | ast.GtE, Some (Gt | Eq) => true
  | _, _ => false
  end.

(** [a == b] *)
Fixpoint equal (a b : value) {struct a} : bool :=
  match a, b with
  | VList xs, VList ys | VTuple xs, VTuple ys =>
      (fix go (xs ys : list value) : bool :=
         match xs, ys with
         | [], [] => true
         | x :: xs', y :: ys' => equal x y && go xs' ys'
         | _, _ => false
         end) xs ys
  | VStr s, VStr t => String.eqb s t
  | VNone, VNone => true
  | _, _ =>
      match as_number a, as_number b with
      | Some x, Some y => holds ast.Eq (compare_numbers x y)
      | _, _ => false
      end
  end.

Definition cmpop_symbol (op : ast.cmpop) : string :=
  match op with
  | ast.Eq => "==" | ast.NotEq => "!=" | ast.Lt => "<" | ast.LtE => "<="
  | ast.Gt => ">" | ast.GtE => ">=" | ast.Is => "is" | ast.IsNot => "is not"
  | ast.In => "in" | ast.NotIn => "not in"
  end.

Definition not_supported {A} (op : ast.cmpop) (a b : value) : res A :=
  type_error (quote (cmpop_symbol op) +:+ " not supported between instances of "
              +:+ quote (type_name a) +:+ " and " +:+ quote (type_name b)).

(** [a < b], [a <= b], [a > b], [a >= b]: sequences are ordered by their
    first differing items. *)
Fixpoint order (op : ast.cmpop) (a b : value) {struct a} : res bool :=
  let sequences :=
    fix go (xs ys : list value) : res bool :=
      match xs, ys with
      | x :: xs', y :: ys' => if equal x y then go xs' ys' else order op x y
      | _, _ => Return (holds op (Some (Nat.compare (length xs) (length ys))))
      end in
  match a, b with
  | VList xs, VList ys | VTuple xs, VTuple ys => sequences xs ys
  | VStr s, VStr t => Return (holds op (Some (String.compare s t)))
  | _, _ =>
      match as_number a, as_number b with
      | Some x, Some y => Return (holds op (compare_numbers x y))
      | _, _ => not_supported op a b
      end
  end.

(** The comparison operators; identity tests compare by value here, which
    is all the model has. *)
Definition compare (op : ast.cmpop) (a b : value) : res bool :=
  match op with
  | ast.Eq | ast.Is => Return (equal a b)
  | ast.NotEq | ast.IsNot => Return (negb (equal a b))
  | ast.Lt | ast.LtE | ast.Gt | ast.GtE => order op a b
  | ast.In | ast.NotIn =>
      match b with
      | VList items | VTuple items =>
          Return (Bool.eqb (existsb (equal a) items)
                    match op with ast.In => true | _ => false end)
      | _ => type_error ("argument of type " +:+ quote (type_name b) +:+ " is not iterable")
      end
  end.

End py.

(** ** The library: [math], [statistics], [random] and the builtins *)

(** The transcendental functions of the C library. *)
Record libm : Type := {
  lm_sin : float -> float;
  lm_cos : float -> float;
  lm_tan : float -> float;
  lm_log : float -> float;
  lm_log10 : float -> float;
  lm_pow : float -> float -> float;
}.

(** A self-contained C library: argument reduction and truncated power
    series in binary64.  It follows the system library to within a few units
    in the last place on moderate arguments, and is not identical to it bit
    for bit; what is stated for every [libm] does not depend on it. *)
Module series.

Local Open Scope float_scope.

(** The integer nearest to a finite float. *)
Definition nearest (f : float) : Z :=
  let (n, d) := pyfloat.to_frac f in ((2 * n + d) / (2 * d))%Z.

(** [sum_k c_k * y^k] for the coefficients [1 / d_k], innermost last. *)
Fixpoint horner (y : float) (divisors : list float) : float :=
  match divisors with
  | [] => 0
  | d :: rest => 1 / d + y * horner y rest
  end.

(** [pi / 2] in two pieces, for the reduction. *)
Definition pio2_hi : float := 0x1.921fb54442d18p+0.
Definition pio2_lo : float := 0x1.1a62633145c07p-54.

(** sin and cos on [-pi/4, pi/4] *)
Definition sin_poly (r : float) : float :=
  r * horner (r * r)
        [1; -6; 120; -5040; 362880; -39916800; 6227020800; -1307674368000;
         355687428096000].

Definition cos_poly (r : float) : float :=
  horner (r * r)
    [1; -2; 24; -720; 40320; -3628800; 479001600; -87178291200;
     20922789888000; -6402373705728000].

(** The quadrant of an argument and what is left of it. *)
Definition reduce (x : float) : Z * float :=
  let k := nearest (x / pio2_hi) in
  let fk := pyfloat.of_Z k in
  ((k mod 4)%Z, x - fk * pio2_hi - fk * pio2_lo).

Definition sin (x : float) : float :=
  if negb (pyfloat.is_finite x) then nan
  else
    let (q, r) := reduce x in
    if (q =? 0)%Z then sin_poly r
    else if (q =? 1)%Z then cos_poly r
    else if (q =? 2)%Z then - sin_poly r
    else - cos_poly r.

Definition cos (x : float) : float :=
  if negb (pyfloat.is_finite x) then nan
  else
    let (q, r) := reduce x in
    if (q =? 0)%Z then cos_poly r
    else if (q =? 1)%Z then - sin_poly r
    else if (q =? 2)%Z then - cos_poly r
    else sin_poly r.

Definition tan (x : float) : float := sin x / cos x.

Definition ln2 : float := 0x1.62e42fefa39efp-1.
Definition ln10 : float := 0x1.26bb1bbb55516p+1.

(** The natural logarithm of a positive finite float. *)
Definition log (x : float) : float :=
  let (m, e) := Z.frexp x in
  let '(m, e) := if m <? 0x1.6a09e667f3bcdp-1 then (2 * m, (e - 1)%Z) else (m, e) in
  let t := (m - 1) / (m + 1) in
  pyfloat.of_Z e * ln2
  + 2 * t * horner (t * t) [1; 3; 5; 7; 9; 11; 13; 15; 17; 19; 21; 23; 25].

Definition log10 (x : float) : float := log x / ln10.

Definition exp (z : float) : float :=
  if negb (pyfloat.is_finite z) then (if z <? 0 then 0 else z)
  else
    let k := nearest (z / ln2) in
    let r := z - pyfloat.of_Z k * ln2 in
    Z.ldexp
      (horner r [1; 1; 2; 6; 24; 120; 720; 5040; 40320; 362880; 3628800; 39916800;
                 479001600; 6227020800; 87178291200; 1307674368000;
                 20922789888000; 355687428096000])
      k.

(** [x^n] by repeated squaring *)
Fixpoint power (x : float) (n : positive) : float :=
  match n with
  | xH => x
  | xO n' => let y := power x n' in y * y
  | xI n' => let y := power x n' in x * (y * y)
  end.

(** [pow] for a positive finite base and a finite exponent *)
Definition pow (x y : float) : float :=
  if pyfloat.is_integer y && (abs y <? 1024) then
    match pyfloat.trunc y with
    | Z0 => 1
    | Zpos n => power x n
    | Zneg n => 1 / power x n
    end
  else exp (y * log x).

Definition lib : libm := {|
  lm_sin := sin; lm_cos := cos; lm_tan := tan;
  lm_log := log; lm_log10 := log10; lm_pow := pow;
|}.

End series.

(** The state of the random number generator: the integers it is going to
    produce, and how many have been taken. *)
Record rng : Type := { draws : nat -> Z; cursor : nat }.

Module pylib.

Import py.

Definition domain_error {A} : res A := other_error "math domain error".

(** The wrapper the [math] module puts around a C function of one
    argument that cannot overflow. *)
Definition math_1 (func : float -> float) (v : value) : res value :=
  match real v with
  | Return x =>
      let r := func x in
      if PrimFloat.is_nan r && negb (PrimFloat.is_nan x) then domain_error
      else if negb (pyfloat.is_finite r) && pyfloat.is_finite x then domain_error
      else Return (VFloat r)
  | Raise e => Raise e
  end.

(** [math.radians]: multiplication by [pi / 180]. *)
Definition radians (v : value) : res value :=
  match real v with
  | Return x => Return (VFloat (x * (math_pi / 180))%float)
  | Raise e => Raise e
  end.

Definition exactly_one (name : string) (args : list value) (f : value -> res value)
  : res value :=
  match args with
  | [v] => f v
  | _ => type_error (name +:+ "() takes exactly one argument ("
                     +:+ pretty (length args) +:+ " given)")
  end.

Definition sqrt (args : list value) : res value :=
  exactly_one "math.sqrt" args (math_1 PrimFloat.sqrt).

(** The logarithm of an object: integers too large for a float are scaled
    first. *)
Definition loghelper (func : float -> float) (v : value) : res float :=
  match as_number v with
  | Some (NInt z) =>
      if z <=? 0 then domain_error
      else
        let f := pyfloat.of_Z z in
        if pyfloat.is_finite f then Return (func f)
        else
          let e := Z.log2 z + 1 in
          Return (func (pyfloat.div_Z z (2 ^ e)) + func 2 * pyfloat.of_Z e)%float
  | Some (NFloat f) =>
      if PrimFloat.is_nan f then Return f
      else if PrimFloat.ltb 0 f then
        if pyfloat.is_finite f then Return (func f) else Return f
      else domain_error
  | None => type_error ("must be real number, not " +:+ type_name v)
  end.

Definition log10 (lm : libm) (v : value) : res value :=
  match loghelper (lm_log10 lm) v with
  | Return f => Return (VFloat f)
  | Raise e => Raise e
  end.

Definition log (lm : libm) (args : list value) : res value :=
  match args with
  | [x] =>
      match loghelper (lm_log lm) x with
      | Return f => Return (VFloat f)
      | Raise e => Raise e
      end
  | [x; base] =>
      match loghelper (lm_log lm) x with
      | Return num =>
          match loghelper (lm_log lm) base with
          | Return den => binop (lm_pow lm) ast.Div (VFloat num) (VFloat den)
          | Raise e => Raise e
          end
      | Raise e => Raise e
      end
  | _ => type_error "math.log requires 1 to 2 arguments"
  end.

(** [n!] for a natural number *)
Fixpoint fact (n : nat) : Z :=
  match n with
  | O => 1
  | S n' => Z.of_nat n * fact n'
  end.

Definition factorial (v : value) : res value :=
  match v with
  | VFloat _ => type_error "'float' object cannot be interpreted as an integer"
  | _ =>
      match as_int v with
      | Some z =>
          if z <? 0 then other_error "factorial() not defined for negative values"
          else Return (VInt (fact (Z.to_nat z)))
      | None =>
          type_error (quote (type_name v) +:+ " object cannot be interpreted as an integer")
      end
  end.

(** The integer a float rounds or truncates to. *)
Definition float_to_int (f : float) (whole : float -> Z) : res value :=
  if PrimFloat.is_nan f then other_error "cannot convert float NaN to integer"
  else if negb (pyfloat.is_finite f) then
    other_error "cannot convert float infinity to integer"
  else Return (VInt (whole f)).

(** A decimal integer literal with an optional sign, as [int(str)] reads
    it (blank padding and digit separators are outside the model). *)
Definition int_of_string (s : string) : option Z :=
  let '(negative, body) :=
    match s with
    | String "-" t => (true, t)
    | String "+" t => (false, t)
    | _ => (false, s)
    end in
  match pyparse.digits 10 body 0 0 with
  | (S _, n, EmptyString) => Some (if negative then - n else n)
  | _ => None
  end.

(** [int(v)] *)
Definition int (v : value) : res value :=
  match v with
  | VFloat f => float_to_int f pyfloat.trunc
  | VStr s =>
      match int_of_string s with
      | Some z => Return (VInt z)
      | None => other_error ("invalid literal for int() with base 10: " +:+ quote s)
      end
  | _ =>
      match as_int v with
      | Some z => Return (VInt z)
      | None =>
          type_error ("int() argument must be a string, a bytes-like object or a "
                      +:+ "real number, not " +:+ quote (type_name v))
      end
  end.

Definition abs (args : list value) : res value :=
  exactly_one "abs" args
    (fun v => match as_number v with
              | Some (NInt z) => Return (VInt (Z.abs z))
              | Some (NFloat f) => Return (VFloat (PrimFloat.abs f))
              | None => bad_operand "abs()" v
              end).

(** The integer nearest to [n / d] for [d > 0], ties to even. *)
Definition round_half_even (n d : Z) : Z :=
  let q := n / d in
  let r := n mod d in
  match 2 * r ?= d with
  | Lt => q
  | Gt => q + 1
  | Eq => if Z.even q then q else q + 1
  end.

(** [round(x, ndigits)] for a finite float: the float nearest to the
    decimal rounding of its exact value. *)
Definition round_float (f : float) (ndigits : Z) : res value :=
  if negb (pyfloat.is_finite f) || pyfloat.is_zero f || (323 <? ndigits)
  then Return (VFloat f)
  else if ndigits <? -308 then Return (VFloat (pyfloat.zero_like (pyfloat.sign f)))
  else
    let (n, d) := pyfloat.to_frac f in
    let r :=
      if 0 <=? ndigits then
        let k := 10 ^ ndigits in
        let m := round_half_even (n * k) d in
        if m =? 0 then pyfloat.zero_like (pyfloat.sign f) else pyfloat.div_Z m k
      else
        let k := 10 ^ (- ndigits) in
        let m := round_half_even n (d * k) in
        if m =? 0 then pyfloat.zero_like (pyfloat.sign f) else pyfloat.of_Z (m * k) in
    if pyfloat.is_finite r then Return (VFloat r)
    else other_error "rounded value too large to represent".

Definition round (args : list value) : res value :=
  let whole (v : value) :=
    match as_number v with
    | Some (NInt z) => Return (VInt z)
    | Some (NFloat f) => float_to_int f (fun f => let (n, d) := pyfloat.to_frac f in
                                                  round_half_even n d)
    | None => type_error ("type " +:+ type_name v +:+ " doesn't define __round__ method")
    end in
  match args with
  | [] => type_error "round() missing required argument 'number' (pos 1)"
  | [v] | [v; VNone] => whole v
  | [v; nd] =>
      match as_number v with
      | None => type_error ("type " +:+ type_name v +:+ " doesn't define __round__ method")
      | Some x =>
          match nd, as_int nd with
          | VFloat _, _ | _, None =>
              type_error (quote (type_name nd) +:+ " object cannot be interpreted as an integer")
          | _, Some k =>
              match x with
              | NInt z =>
                  if 0 <=? k then Return (VInt z)
                  else Return (VInt (round_half_even z (10 ^ (- k)) * 10 ^ (- k)))
              | NFloat f => round_float f k
              end
          end
      end
  | _ => type_error ("round() takes at most 2 arguments (" +:+ pretty (length args)
                     +:+ " given)")
  end.

(** [min(seq)] and [max(seq)]: the first item that no later item beats. *)
Definition extremum (name : string) (op : ast.cmpop) (items : list value) : res value :=
  match items with
  | [] => other_error (name +:+ "() arg is an empty sequence")
  | first :: rest =>
      fold_left
        (fun best item =>
           match best with
           | Return b =>
               match order op item b with
               | Return true => Return item
               | Return false => Return b
               | Raise e => Raise e
               end
           | Raise e => Raise e
           end)
        rest (Return first)
  end.

End pylib.

(** ** [statistics] (as of CPython 3.11) and [random] *)

Module pystat.

Import py.

Definition statistics_error {A} (msg : string) : res A := Raise (Exn StatisticsError msg).

(** [_exact_ratio]: a number as a fraction; a float that is not finite is
    kept as it is. *)
Inductive ratio : Type :=
| Exact (n d : Z)
| Special (f : float).

Definition exact_ratio (v : value) : res ratio :=
  match as_number v with
  | Some (NInt z) => Return (Exact z 1)
  | Some (NFloat f) =>
      if pyfloat.is_finite f then let (n, d) := pyfloat.to_frac f in Return (Exact n d)
      else Return (Special f)
  | None =>
      type_error ("can't convert type " +:+ quote (type_name v)
                  +:+ " to numerator/denominator")
  end.

Fixpoint ratios (data : list value) : res (list ratio) :=
  match data with
  | [] => Return []
  | v :: data' =>
      match exact_ratio v, ratios data' with
      | Return r, Return rs => Return (r :: rs)
      | Raise e, _ | _, Raise e => Raise e
      end
  end.

(** The type the result is converted to: [float] as soon as one item is a
    float, [int] otherwise. *)
Definition is_float (v : value) : bool :=
  match v with VFloat _ => true | _ => false end.

(** The sum of the special items, when there is one. *)
Definition special_sum (rs : list ratio) : option float :=
  fold_left (fun acc r =>
               match r, acc with
               | Special f, Some g => Some (g + f)%float
               | Special f, None => Some f
               | Exact _ _, _ => acc
               end) rs None.

(** The exact sums of [x] and of [x * x] over a common denominator:
    [(sx, sxx, d)] stands for [sx / d] and [sxx / (d * d)]. *)
Definition sums (rs : list ratio) : Z * Z * Z :=
  fold_left (fun '(sx, sxx, d) r =>
               match r with
               | Exact n e => (sx * e + n * d, sxx * (e * e) + n * n * (d * d), d * e)
               | Special _ => (sx, sxx, d)
               end) rs (0, 0, 1).

(** [_convert(Fraction(n, d), T)] for [d > 0] *)
Definition convert (n d : Z) (float_type : bool) : res value :=
  if negb float_type && (n mod d =? 0) then Return (VInt (n / d))
  else
    let f := pyfloat.div_Z n d in
    if pyfloat.is_finite f then Return (VFloat f)
    else other_error "integer division result too large for a float".

Definition mean (data : list value) : res value :=
  match ratios data with
  | Raise e => Raise e
  | Return rs =>
      let count := Z.of_nat (length rs) in
      if count <? 1 then statistics_error "mean requires at least one data point"
      else
        match special_sum rs with
        | Some total => Return (VFloat (total / pyfloat.of_Z count))
        | None =>
            let '(sx, _, d) := sums rs in
            convert sx (d * count) (existsb is_float data)
        end
  end.

Definition variance (data : list value) : res value :=
  match ratios data with
  | Raise e => Raise e
  | Return rs =>
      let count := Z.of_nat (length rs) in
      if count <? 2 then statistics_error "variance requires at least two data points"
      else
        match special_sum rs with
        | Some total => Return (VFloat (total / pyfloat.of_Z (count - 1)))
        | None =>
            let '(sx, sxx, d) := sums rs in
            convert (count * sxx - sx * sx) (d * d * count * (count - 1))
              (existsb is_float data)
        end
  end.

(** [_integer_sqrt_of_frac_rto]: the square root of [n / m] rounded down
    to an integer, made odd when inexact. *)
Definition integer_sqrt_of_frac_rto (n m : Z) : Z :=
  let a := Z.sqrt (n / m) in
  Z.lor a (if a * a * m =? n then 0 else 1).

Definition bit_length (z : Z) : Z := if z =? 0 then 0 else Z.log2 (Z.abs z) + 1.

(** [_float_sqrt_of_frac]: the float nearest to the square root of
    [n / m]. *)
Definition float_sqrt_of_frac (n m : Z) : res value :=
  let q := (bit_length n - bit_length m - 109) / 2 in
  let '(numerator, denominator) :=
    if 0 <=? q then (Z.shiftl (integer_sqrt_of_frac_rto n (Z.shiftl m (2 * q))) q, 1)
    else (integer_sqrt_of_frac_rto (Z.shiftl n (-2 * q)) m, Z.shiftl 1 (- q)) in
  binop (fun x _ => x) ast.Div (VInt numerator) (VInt denominator).

Definition stdev (data : list value) : res value :=
  match ratios data with
  | Raise e => Raise e
  | Return rs =>
      let count := Z.of_nat (length rs) in
      if count <? 2 then statistics_error "stdev requires at least two data points"
      else
        match special_sum rs with
        | Some _ => other_error "'float' object has no attribute 'numerator'"
        | None =>
            let '(sx, sxx, d) := sums rs in
            let n := count * sxx - sx * sx in
            let m := d * d * count * (count - 1) in
            let g := Z.gcd n m in
            float_sqrt_of_frac (n / g) (m / g)
        end
  end.

(** [sorted(data)]: a stable sort that only asks [<]. *)
Fixpoint insert (x : value) (sorted : list value) : res (list value) :=
  match sorted with
  | [] => Return [x]
  | y :: sorted' =>
      match order ast.Lt x y with
      | Return true => Return (x :: sorted)
      | Return false =>
          match insert x sorted' with
          | Return l => Return (y :: l)
          | Raise e => Raise e
          end
      | Raise e => Raise e
      end
  end.

(** An item goes behind the items it is not less than, so equal items
    keep their order. *)
Definition sorted (data : list value) : res (list value) :=
  fold_left (fun acc x =>
               match acc with
               | Return l => insert x l
               | Raise e => Raise e
               end) data (Return []).

Definition median (pow : float -> float -> float) (data : list value) : res value :=
  match sorted data with
  | Raise e => Raise e
  | Return l =>
      let n := length l in
      if (n =? 0)%nat then statistics_error "no median for empty data"
      else if Nat.odd n then
        match nth_error l (n / 2) with
        | Some v => Return v
        | None => other_error "list index out of range"
        end
      else
        match nth_error l (n / 2 - 1), nth_error l (n / 2) with
        | Some a, Some b =>
            match binop pow ast.Add a b with
            | Return s => binop pow ast.Div s (VInt 2)
            | Raise e => Raise e
            end
        | _, _ => other_error "list index out of range"
        end
  end.

(** Whether an object can be a dictionary key. *)
Fixpoint hashable (v : value) : option string :=
  match v with
  | VList _ => Some "list"
  | VTuple items =>
      (fix go (l : list value) : option string :=
         match l with
         | [] => None
         | x :: l' => match hashable x with Some t => Some t | None => go l' end
         end) items
  | _ => None
  end.

(** [Counter(data)]: the distinct items in order of first appearance, with
    their multiplicities. *)
Fixpoint count (x : value) (counter : list (value * nat)) : list (value * nat) :=
  match counter with
  | [] => [(x, 1%nat)]
  | (k, n) :: counter' =>
      if equal k x then (k, S n) :: counter' else (k, n) :: count x counter'
  end.

(** [most_common(1)]: the first item of greatest multiplicity. *)
Definition most_common (counter : list (value * nat)) : option value :=
  match counter with
  | [] => None
  | first :: rest =>
      Some (fst (fold_left (fun best kn => if (snd best <? snd kn)%nat then kn else best)
                   rest first))
  end.

(** [statistics.mode]: since Python 3.8 several modes are not an error,
    the first one met is returned. *)
Definition mode (data : list value) : res value :=
  match
    fold_left (fun acc x =>
                 match acc with
                 | Return counter =>
                     match hashable x with
                     | Some t => type_error ("unhashable type: " +:+ quote t)
                     | None => Return (count x counter)
                     end
                 | Raise e => Raise e
                 end) data (Return [])
  with
  | Raise e => Raise e
  | Return counter =>
      match most_common counter with
      | Some v => Return v
      | None => statistics_error "no mode for empty data"
      end
  end.

(** [statistics.mode] as it was up to Python 3.7: several equally common
    values are an error. *)
Definition mode_before_38 (data : list value) : res value :=
  match
    fold_left (fun acc x =>
                 match acc with
                 | Return counter =>
                     match hashable x with
                     | Some t => type_error ("unhashable type: " +:+ quote t)
                     | None => Return (count x counter)
                     end
                 | Raise e => Raise e
                 end) data (Return [])
  with
  | Raise e => Raise e
  | Return counter =>
      let maxfreq := fold_left (fun m kn => Nat.max m (snd kn)) counter O in
      match filter (fun kn => (snd kn =? maxfreq)%nat) counter with
      | [] => statistics_error "no mode for empty data"
      | [(v, _)] => Return v
      | table =>
          statistics_error ("no unique mode; found " +:+ pretty (length table)
                            +:+ " equally common values")
      end
  end.

(** [random.random()]: 53 random bits as a fraction. *)
Definition random (w : rng) : float * rng :=
  (pyfloat.div_Z (draws w (cursor w) mod 2 ^ 53) (2 ^ 53),
   {| draws := draws w; cursor := S (cursor w) |}).

(** [random.choice(seq)]; the index is read off one draw. *)
Definition choice (items : list value) (w : rng) : res value * rng :=
  match items with
  | [] => (other_error "Cannot choose from an empty sequence", w)
  | _ =>
      let i := draws w (cursor w) mod Z.of_nat (length items) in
      (match nth_error items (Z.to_nat i) with
       | Some v => Return v
       | None => other_error "list index out of range"
       end,
       {| draws := draws w; cursor := S (cursor w) |})
  end.

End pystat.

(** ** The host *)

Module pyhost.

(** The TypeError text for a call with the wrong number of positional
    arguments. *)
Fixpoint name_list (names : list string) : string :=
  match names with
  | [] => ""
  | [a] => py.quote a
  | [a; b] => py.quote a +:+ " and " +:+ py.quote b
  | a :: rest =>
      py.quote a +:+ ", " +:+
      match rest with
      | [b; c] => py.quote b +:+ ", and " +:+ py.quote c
      | _ => name_list rest
      end
  end.

Definition arity_msg (qualname : string) (params : list string) (given : nat) : string :=
  let n := length params in
  if (given <? n)%nat then
    let missing := (n - given)%nat in
    qualname +:+ "() missing " +:+ pretty missing +:+ " required positional argument"
    +:+ (if (missing =? 1)%nat then "" else "s") +:+ ": "
    +:+ name_list (skipn given params)
  else
    qualname +:+ "() takes " +:+ pretty n +:+ " positional argument"
    +:+ (if (n =? 1)%nat then "" else "s") +:+ " but " +:+ pretty given
    +:+ (if (given =? 1)%nat then " was" else " were") +:+ " given".

(** The text of an operator object; the address is the host's business. *)
Definition op_str (class_name : string) : string :=
  "<ast." +:+ class_name +:+ " object at 0x7f0000000000>".

End pyhost.

(** The reference host, for a given [statistics.mode] and C library. *)
Definition host_with (mode_ : list value -> res value) (lm : libm) : Host rng := {|
  ast_parse := pyparse.ast_parse;
  op_str := pyhost.op_str;
  py_pos := py.pos;
  py_neg := py.neg;
  py_binop := py.binop (lm_pow lm);
  py_compare := py.compare;
  arity_msg := pyhost.arity_msg;
  math_sin := pylib.math_1 (lm_sin lm);
  math_cos := pylib.math_1 (lm_cos lm);
  math_tan := pylib.math_1 (lm_tan lm);
  math_radians := pylib.radians;
  math_log10 := pylib.log10 lm;
  math_factorial := pylib.factorial;
  builtin_int := pylib.int;
  math_sqrt := pylib.sqrt;
  math_log := pylib.log lm;
  builtin_abs := pylib.abs;
  builtin_round := pylib.round;
  statistics_mean := pystat.mean;
  statistics_median := pystat.median (lm_pow lm);
  statistics_mode := mode_;
  statistics_stdev := pystat.stdev;
  statistics_variance := pystat.variance;
  builtin_min := pylib.extremum "min" ast.Lt;
  builtin_max := pylib.extremum "max" ast.Gt;
  random_random := pystat.random;
  random_choice := pystat.choice;
|}.

(** CPython as of 3.8 and later. *)
Definition cpython (lm : libm) : Host rng := host_with pystat.mode lm.

(** The same host with the [statistics.mode] of Python 3.7 and earlier. *)
Definition cpython_before_38 (lm : libm) : Host rng :=
  host_with pystat.mode_before_38 lm.

(** ** [str], [repr] and [str.strip]

    Texts are UTF-8; characters outside ASCII are taken to be printable. *)

Module pystr.

Fixpoint digits_go (fuel : nat) (n : Z) (acc : string) : string :=
  match fuel with
  | O => acc
  | S fuel' =>
      let acc' := String (ascii_of_nat (48 + Z.to_nat (n mod 10))) acc in
      if n <? 10 then acc' else digits_go fuel' (n / 10) acc'
  end.

(** The decimal digits of a natural number. *)
Definition digits (n : Z) : string := digits_go (S (Z.to_nat (Z.log2 n))) n "".

(** [sys.get_int_max_str_digits()] *)
Definition int_max_str_digits : Z := 4300.

(** [str(z)] for an integer: refused beyond the digit limit. *)
Definition int_str (z : Z) : res string :=
  if 10 ^ int_max_str_digits <=? Z.abs z then
    py.other_error
      ("Exceeds the limit (4300 digits) for integer string conversion; "
       +:+ "use sys.set_int_max_str_digits() to increase the limit")
  else Return ((if z <? 0 then "-" else "") +:+ digits (Z.abs z)).

Fixpoint count_digits (fuel : nat) (q : Z) : Z :=
  match fuel with
  | O => 1
  | S fuel' => if q <? 10 then 1 else 1 + count_digits fuel' (q / 10)
  end.

(** The least [k >= 1] with [n * 10^k >= d]. *)
Fixpoint scale_up (fuel : nat) (n d k : Z) : Z :=
  match fuel with
  | O => k
  | S fuel' => if d <=? n * 10 then k else scale_up fuel' (n * 10) d (k + 1)
  end.

(** The decimal point of a positive fraction: the [p] with
    [10^(p-1) <= n/d < 10^p]. *)
Definition decimal_point (n d : Z) : Z :=
  if d <=? n then count_digits 400 (n / d) else 1 - scale_up 400 n d 1.

(** The decimal [m * 10^e] with [i] digits that reads back as [f], the
    nearer to [f] of the two neighbours when both do. *)
Definition candidate (f : float) (n d p i : Z) : option (Z * Z) :=
  let s := i - p in
  let num := if 0 <=? s then n * 10 ^ s else n in
  let den := if 0 <=? s then d else d * 10 ^ (- s) in
  let lo := num / den in
  let rem := num mod den in
  let hi := lo + 1 in
  let ok m := PrimFloat.eqb (pyfloat.of_decimal m (- s)) f in
  match ok lo, ok hi with
  | true, true =>
      Some (if (2 * rem <? den) || ((2 * rem =? den) && Z.even lo) then lo else hi, - s)
  | true, false => Some (lo, - s)
  | false, true => Some (hi, - s)
  | false, false => None
  end.

Fixpoint shortest_go (fuel : nat) (f : float) (n d p i : Z) : Z * Z :=
  match fuel with
  | O => (0, 0)
  | S fuel' =>
      match candidate f n d p i with
      | Some r => r
      | None => shortest_go fuel' f n d p (i + 1)
      end
  end.

Fixpoint strip_zeros (fuel : nat) (m e : Z) : Z * Z :=
  match fuel with
  | O => (m, e)
  | S fuel' => if (m mod 10 =? 0) && negb (m =? 0) then strip_zeros fuel' (m / 10) (e + 1)
               else (m, e)
  end.

(** The shortest decimal that reads back as a positive finite float. *)
Definition shortest (f : float) : Z * Z :=
  let (n, d) := pyfloat.to_frac f in
  let (m, e) := shortest_go 17 f n d (decimal_point n d) 1 in
  strip_zeros 20 m e.

Definition zeros (k : Z) : string := py.repeat_string "0" (Z.to_nat k).

Definition sub (start len : Z) (s : string) : string :=
  String.substring (Z.to_nat start) (Z.to_nat len) s.

(** [repr(f)] for a float *)
Definition float_repr (f : float) : string :=
  match Prim2SF f with
  | S754_nan => "nan"
  | S754_infinity s => if s then "-inf" else "inf"
  | S754_zero s => if s then "-0.0" else "0.0"
  | S754_finite s _ _ =>
      let (m, e) := shortest (PrimFloat.abs f) in
      let ds := digits m in
      let nd := Z.of_nat (String.length ds) in
      let decpt := nd + e in
      let body :=
        if (decpt <=? -4) || (16 <? decpt) then
          let x := decpt - 1 in
          sub 0 1 ds +:+ (if 1 <? nd then "." +:+ sub 1 (nd - 1) ds else "")
          +:+ "e" +:+ (if x <? 0 then "-" else "+")
          +:+ (if Z.abs x <? 10 then "0" else "") +:+ digits (Z.abs x)
        else if decpt <=? 0 then "0." +:+ zeros (- decpt) +:+ ds
        else if nd <=? decpt then ds +:+ zeros (decpt - nd) +:+ ".0"
        else sub 0 decpt ds +:+ "." +:+ sub decpt (nd - decpt) ds in
      (if s then "-" else "") +:+ body
  end.

Definition hex_digit (n : nat) : string :=
  String (ascii_of_nat (if (n <? 10)%nat then 48 + n else 87 + n)) "".

Definition backslash : ascii := ascii_of_nat 92.

Definition escape (quote : ascii) (c : ascii) : string :=
  let n := nat_of_ascii c in
  if Ascii.eqb c quote || Ascii.eqb c backslash then String backslash (String c "")
  else if (n =? 9)%nat then String backslash "t"
  else if (n =? 10)%nat then String backslash "n"
  else if (n =? 13)%nat then String backslash "r"
  else if ((n <? 32) || (n =? 127))%nat then
    String backslash "x" +:+ hex_digit (n / 16) +:+ hex_digit (n mod 16)
  else String c "".

Fixpoint escaped (quote : ascii) (s : string) : string :=
  match s with
  | EmptyString => EmptyString
  | String c s' => escape quote c +:+ escaped quote s'
  end.

Fixpoint has (c : ascii) (s : string) : bool :=
  match s with
  | EmptyString => false
  | String c' s' => Ascii.eqb c' c || has c s'
  end.

(** [repr(s)] for a string: in single quotes, unless it holds a single
    quote and no double one. *)
Definition string_repr (s : string) : string :=
  let single := ascii_of_nat 39 in
  let double := ascii_of_nat 34 in
  let quote := if has single s && negb (has double s) then double else single in
  String quote (escaped quote s) +:+ String quote "".

(** [repr(v)] *)
Fixpoint repr (v : value) : res string :=
  let joined :=
    fix go (items : list value) : res string :=
      match items with
      | [] => Return ""
      | [x] => repr x
      | x :: rest =>
          match repr x with
          | Return s =>
              match go rest with
              | Return t => Return (s +:+ ", " +:+ t)
              | Raise e => Raise e
              end
          | Raise e => Raise e
          end
      end in
  match v with
  | VInt z => int_str z
  | VFloat f => Return (float_repr f)
  | VBool b => Return (if b then "True" else "False")
  | VStr s => Return (string_repr s)
  | VNone => Return "None"
  | VList items =>
      match joined items with
      | Return s => Return ("[" +:+ s +:+ "]")
      | Raise e => Raise e
      end
  | VTuple items =>
      match joined items with
      | Return s => Return ("(" +:+ s +:+ (match items with [_] => "," | _ => "" end) +:+ ")")
      | Raise e => Raise e
      end
  | VExc e => Return ("EvalError(" +:+ string_repr (exn_msg e) +:+ ")")
  end.

(** [str(v)] *)
Definition str (v : value) : res string :=
  match v with
  | VStr s => Return s
  | VExc e => Return (exn_msg e)
  | _ => repr v
  end.

Definition bytes (codes : list nat) : string :=
  fold_right (fun n s => String (ascii_of_nat n) s) "" codes.

(** The characters [str.isspace] holds of, in UTF-8. *)
Definition whitespace : list string :=
  map bytes
    [[9]; [10]; [11]; [12]; [13]; [28]; [29]; [30]; [31]; [32];
     [194; 133]; [194; 160]; [225; 154; 128];
     [226; 128; 128]; [226; 128; 129]; [226; 128; 130]; [226; 128; 131];
     [226; 128; 132]; [226; 128; 133]; [226; 128; 134]; [226; 128; 135];
     [226; 128; 136]; [226; 128; 137]; [226; 128; 138];
     [226; 128; 168]; [226; 128; 169]; [226; 128; 175]; [226; 129; 159];
     [227; 128; 128]]%nat.

(** The text after a given prefix. *)
Fixpoint after (p s : string) : option string :=
  match p, s with
  | EmptyString, _ => Some s
  | String a p', String b s' => if Ascii.eqb a b then after p' s' else None
  | _, _ => None
  end.

Fixpoint after_any (ps : list string) (s : string) : option string :=
  match ps with
  | [] => None
  | p :: ps' => match after p s with Some s' => Some s' | None => after_any ps' s end
  end.

Fixpoint lstrip_go (fuel : nat) (spaces : list string) (s : string) : string :=
  match fuel with
  | O => s
  | S fuel' =>
      match after_any spaces s with
      | Some s' => lstrip_go fuel' spaces s'
      | None => s
      end
  end.

Definition lstrip (s : string) : string := lstrip_go (String.length s) whitespace s.

Definition rstrip (s : string) : string :=
  String.rev (lstrip_go (String.length s) (map String.rev whitespace) (String.rev s)).

(** [s.strip()] *)
Definition strip (s : string) : string := rstrip (lstrip s).

(** A run of decimal digits with single underscores between them in front
    of a text: how many digits there are, their value, and the rest. *)
Fixpoint digit_run (s : string) (count : nat) (acc : Z) : nat * Z * string :=
  match s with
  | String c s' =>
      match pyparse.digit_value 10 c with
      | Some d => digit_run s' (S count) (acc * 10 + d)
      | None =>
          let digit_next :=
            match s' with
            | String c' _ => pyparse.is_digit c'
            | EmptyString => false
            end in
          if Ascii.eqb c "_" && negb (count =? 0)%nat && digit_next
          then digit_run s' count acc
          else (count, acc, s)
      end
  | EmptyString => (count, acc, s)
  end.

Definition signed (s : string) : bool * string :=
  match s with
  | String "-" t => (true, t)
  | String "+" t => (false, t)
  | _ => (false, s)
  end.

(** [int(text)] *)
Definition int_of_text (s : string) : res Z :=
  let (negative, body) := signed (strip s) in
  match digit_run body 0 0 with
  | (S k, n, EmptyString) =>
      if (4300 <? S k)%nat then
        py.other_error
          ("Exceeds the limit (4300 digits) for integer string conversion: value has "
           +:+ digits (Z.of_nat (S k))
           +:+ " digits; use sys.set_int_max_str_digits() to increase the limit")
      else Return (if negative then - n else n)
  | _ => py.other_error ("invalid literal for int() with base 10: " +:+ string_repr s)
  end.

(** The float nearest to [m * 10^e], for a natural number [m] of at most
    [k] digits. *)
Definition decimal (k : nat) (m e : Z) : float :=
  if m =? 0 then 0%float
  else if 400 <? e then infinity
  else if e + Z.of_nat k <? -400 then 0%float
  else pyfloat.of_decimal m e.

(** [float(text)], for a text whose digits are ASCII. *)
Definition float_of_text (s : string) : res float :=
  let invalid := py.other_error ("could not convert string to float: " +:+ string_repr s) in
  let (negative, body) := signed (strip s) in
  let ret (f : float) := Return (if negative then (- f)%float else f) in
  let word := lower body in
  if String.eqb word "inf" || String.eqb word "infinity" then ret infinity
  else if String.eqb word "nan" then Return nan
  else
    let '(k1, n, rest) := digit_run body 0 0 in
    let '(k2, m, rest) :=
      match rest with
      | String "." t => digit_run t 0 n
      | _ => (O, n, rest)
      end in
    if (k1 + k2 =? 0)%nat then invalid
    else
      match rest with
      | EmptyString => ret (decimal (k1 + k2) m (- Z.of_nat k2))
      | String c t =>
          if Ascii.eqb c "e" || Ascii.eqb c "E" then
            let (negative_exponent, t) := signed t in
            match digit_run t 0 0 with
            | (S _, e, EmptyString) =>
                ret (decimal (k1 + k2) m
                       ((if negative_exponent then - e else e) - Z.of_nat k2))
            | _ => invalid
            end
          else invalid
      end.

(** [float(v)] *)
Definition float_of_value (v : value) : res float :=
  match v with
  | VStr s => float_of_text s
  | _ =>
      match py.as_number v with
      | Some n => py.to_float n
      | None =>
          py.type_error ("float() argument must be a string or a real number, not "
                         +:+ py.quote (py.type_name v))
      end
  end.

(** [np.linspace(start, stop, num)] for [num > 1]: the multiples of the
    step from [start], the last point being [stop] itself. *)
Definition linspace (start stop : float) (num : Z) : res (list float) :=
  let div := pyfloat.of_Z (num - 1) in
  let delta := (stop - start)%float in
  let step := (delta / div)%float in
  let point (i : nat) : float :=
    let y := pyfloat.of_Z (Z.of_nat i) in
    if PrimFloat.eqb step 0 then (y / div * delta + start)%float
    else (y * step + start)%float in
  Return (map point (seq 0 (Z.to_nat (num - 1))) ++ [stop])%list.

End pystr.

(** * The keypad, the history and the plot (frontend/gui.py)

    The part of [CalculatorGUI] that drives the engine: the state the
    handlers read and write, and the handlers themselves.  Widgets are
    reduced to the texts they hold; what Tk reports to a handler (the widget
    that has the focus, the line selected in a listbox) is an argument of
    the handler; message boxes and the drawing of the figure are left out.
    The handlers that edit an entry at the caret ([_insert_with_autoclose],
    [_backspace_button], [_on_backspace_key]) and the user's own typing are
    covered by one event that replaces the text of an entry. *)

(** What the interface gets from the interpreter and its libraries besides
    the engine's host. *)
Record Builtins : Type := {
  (** [str(obj)] *)
  builtin_str : value -> res string;
  (** [text.strip()] *)
  str_strip : string -> string;
  (** [float(obj)] for an object the engine returned *)
  builtin_float : value -> res float;
  (** [float(text)] and [int(text)] *)
  float_of_text : string -> res float;
  int_of_text : string -> res Z;
  (** [np.linspace(start, stop, num)] *)
  np_linspace : float -> float -> Z -> res (list float);
  (** [matplotlib.rcParams['axes.prop_cycle'].by_key()['color']] *)
  prop_cycle : list string;
}.

(** [text.count(c)] for a one-character pattern. *)
Fixpoint count (c : ascii) (s : string) : Z :=
  match s with
  | EmptyString => 0
  | String c' s' => (if Ascii.eqb c' c then 1 else 0) + count c s'
  end.

(** [text.startswith(p)] *)
Fixpoint startswith (s p : string) {struct p} : bool :=
  match p, s with
  | EmptyString, _ => true
  | String a p', String b s' => Ascii.eqb a b && startswith s' p'
  | _, _ => false
  end.

(** [text.split(sep)[0]]: the text before the first occurrence of [sep]
    (a separator that is not empty), the whole text when there is none. *)
Fixpoint before (sep s : string) : string :=
  match s with
  | EmptyString => EmptyString
  | String c s' => if startswith s sep then EmptyString else String c (before sep s')
  end.

(** [l[-n:]] *)
Definition last_items {A} (n : nat) (l : list A) : list A :=
  skipn (length l - n) l.

Module gui.

(** The two entries the keypad writes to: [self.entry], bound to
    [expr_var], and [self.fx_entry], bound to [fx_var]. *)
Inductive entry : Type := Entry | FxEntry.

Record GraphTrace : Type := {
  expr : string;
  xs : list float;
  ys : list float;
  color : string;
}.

Record CalculatorGUI : Type := {
  engine : CalculatorEngine;
  is_rad : bool;
  history : list (string * string);
  mode : string;
  expr_var : string;
  display_var : string;
  fx_var : string;
  xmin_var : string;
  xmax_var : string;
  samples_var : string;
  color_cycle : list string;
  traces : list GraphTrace;
}.

(** The state [__init__] sets up. *)
Definition new_gui (builtins : Builtins) : CalculatorGUI := {|
  engine := set_mode new_engine "deg";
  is_rad := false;
  history := [];
  mode := "scientific";
  expr_var := "";
  display_var := "";
  fx_var := "sin(x)";
  xmin_var := "-10";
  xmax_var := "10";
  samples_var := "400";
  color_cycle := prop_cycle builtins;
  traces := [];
|}.

Definition with_engine (self : CalculatorGUI) (e : CalculatorEngine) : CalculatorGUI :=
  {| engine := e; is_rad := is_rad self; history := history self; mode := mode self;
     expr_var := expr_var self; display_var := display_var self;
     fx_var := fx_var self; xmin_var := xmin_var self; xmax_var := xmax_var self;
     samples_var := samples_var self; color_cycle := color_cycle self;
     traces := traces self |}.

Definition with_history (self : CalculatorGUI) (h : list (string * string)) : CalculatorGUI :=
  {| engine := engine self; is_rad := is_rad self; history := h; mode := mode self;
     expr_var := expr_var self; display_var := display_var self;
     fx_var := fx_var self; xmin_var := xmin_var self; xmax_var := xmax_var self;
     samples_var := samples_var self; color_cycle := color_cycle self;
     traces := traces self |}.

Definition with_mode (self : CalculatorGUI) (m : string) : CalculatorGUI :=
  {| engine := engine self; is_rad := is_rad self; history := history self;
     mode := m; expr_var := expr_var self; display_var := display_var self;
     fx_var := fx_var self; xmin_var := xmin_var self; xmax_var := xmax_var self;
     samples_var := samples_var self; color_cycle := color_cycle self;
     traces := traces self |}.

Definition with_expr (self : CalculatorGUI) (s : string) : CalculatorGUI :=
  {| engine := engine self; is_rad := is_rad self; history := history self;
     mode := mode self; expr_var := s; display_var := display_var self;
     fx_var := fx_var self; xmin_var := xmin_var self; xmax_var := xmax_var self;
     samples_var := samples_var self; color_cycle := color_cycle self;
     traces := traces self |}.

Definition with_display (self : CalculatorGUI) (s : string) : CalculatorGUI :=
  {| engine := engine self; is_rad := is_rad self; history := history self;
     mode := mode self; expr_var := expr_var self; display_var := s;
     fx_var := fx_var self; xmin_var := xmin_var self; xmax_var := xmax_var self;
     samples_var := samples_var self; color_cycle := color_cycle self;
     traces := traces self |}.

Definition with_fx (self : CalculatorGUI) (s : string) : CalculatorGUI :=
  {| engine := engine self; is_rad := is_rad self; history := history self;
     mode := mode self; expr_var := expr_var self; display_var := display_var self;
     fx_var := s; xmin_var := xmin_var self; xmax_var := xmax_var self;
     samples_var := samples_var self; color_cycle := color_cycle self;
     traces := traces self |}.

Definition with_cycle (self : CalculatorGUI) (c : list string) : CalculatorGUI :=
  {| engine := engine self; is_rad := is_rad self; history := history self;
     mode := mode self; expr_var := expr_var self; display_var := display_var self;
     fx_var := fx_var self; xmin_var := xmin_var self; xmax_var := xmax_var self;
     samples_var := samples_var self; color_cycle := c; traces := traces self |}.

Definition with_traces (self : CalculatorGUI) (t : list GraphTrace) : CalculatorGUI :=
  {| engine := engine self; is_rad := is_rad self; history := history self;
     mode := mode self; expr_var := expr_var self; display_var := display_var self;
     fx_var := fx_var self; xmin_var := xmin_var self; xmax_var := xmax_var self;
     samples_var := samples_var self; color_cycle := color_cycle self; traces := t |}.

Definition with_range (self : CalculatorGUI) (xmin xmax samples : string)
  : CalculatorGUI :=
  {| engine := engine self; is_rad := is_rad self; history := history self;
     mode := mode self; expr_var := expr_var self; display_var := display_var self;
     fx_var := fx_var self; xmin_var := xmin; xmax_var := xmax;
     samples_var := samples; color_cycle := color_cycle self;
     traces := traces self |}.

(** [target.get()] and the effect of an edit of [target] on its variable. *)
Definition get (self : CalculatorGUI) (target : entry) : string :=
  match target with Entry => expr_var self | FxEntry => fx_var self end.

Definition set (self : CalculatorGUI) (target : entry) (text : string) : CalculatorGUI :=
  match target with Entry => with_expr self text | FxEntry => with_fx self text end.

(** [focused] is the one of the two entries that has the focus, if any. *)
Definition _get_active_entry (self : CalculatorGUI) (focused : option entry) : entry :=
  match focused with
  | Some target => target
  | None => if String.eqb (mode self) "scientific" then Entry else FxEntry
  end.

Definition _switch_to_mode (self : CalculatorGUI) (mode_ : string) : CalculatorGUI :=
  with_mode self mode_.

(** [target.insert(tk.END, txt)] *)
Definition _insert_text (self : CalculatorGUI) (focused : option entry) (txt : string)
  : CalculatorGUI :=
  let target := _get_active_entry self focused in
  set self target (get self target +:+ txt).

Definition _insert_last_answer (self : CalculatorGUI) (focused : option entry)
  : CalculatorGUI :=
  match last (history self) with
  | Some (_, answer) =>
      let tgt := _get_active_entry self focused in
      set self tgt (get self tgt +:+ answer)
  | None => self
  end.

Definition _clear_entry (self : CalculatorGUI) : CalculatorGUI :=
  with_display (with_expr self "") "".

(** [target.delete(0)] on a text that starts with ["-"], and
    [target.insert(0, "-")] *)
Definition _toggle_sign (self : CalculatorGUI) (focused : option entry) : CalculatorGUI :=
  let target := _get_active_entry self focused in
  let cur := get self target in
  match cur with
  | EmptyString => self
  | String c rest =>
      if startswith cur "-" then set self target rest
      else set self target ("-" +:+ cur)
  end.

(** The lines [toggle_history] fills the listbox with. *)
Definition history_lines (self : CalculatorGUI) : list string :=
  map (fun '(expr, res) => expr +:+ " = " +:+ res) (last_items 200 (history self)).

(** [sel] is [listbox.curselection()], [listbox] the lines of the listbox. *)
Definition _on_history_double (self : CalculatorGUI) (sel : list nat)
    (listbox : list string) : CalculatorGUI :=
  match sel with
  | [] => self
  | i :: _ =>
      let item := nth i listbox "" in
      let expr := before " = " item in
      if String.eqb (mode self) "scientific" then with_expr self expr
      else with_fx self expr
  end.

Definition _clear_plot (self : CalculatorGUI) : CalculatorGUI := with_traces self [].

Section Handlers.

Context {W : Type} (host : Host W) (builtins : Builtins).

(** A handler that can raise returns the exception, if any, with the state
    as the handler had it by then. *)
Definition handler : Type := W -> res unit * CalculatorGUI * W.

Definition _evaluate (self : CalculatorGUI) : handler := fun w =>
  let expr := str_strip builtins (expr_var self) in
  if String.eqb expr "" then (Return tt, self, w)
  else
    let extra := count "(" expr - count ")" expr in
    let expr :=
      if 0 <? extra then expr +:+ py.repeat_string ")" (Z.to_nat extra) else expr in
    let self := with_engine self (set_mode (engine self) (if is_rad self then "rad" else "deg")) in
    match try_except (calculate host (engine self) expr)
            (fun e => ret (VStr ("Error: " +:+ exn_msg e))) w with
    | (Raise e, w') => (Raise e, self, w')
    | (Return result, w') =>
        match builtin_str builtins result with
        | Raise e => (Raise e, self, w')
        | Return shown =>
            let self := with_display self shown in
            match builtin_str builtins result with
            | Raise e => (Raise e, self, w')
            | Return kept =>
                (Return tt, with_history self (history self ++ [(expr, kept)]), w')
            end
        end
    end.

(** The loop of [_plot_expression] over the abscissas, with the ordinates
    and [has_valid] so far. *)
Fixpoint sampling (engine_ : CalculatorEngine) (expr_ : string) (xs_ : list float)
    (ys_ : list float) (has_valid : bool) : M W (list float * bool) :=
  match xs_ with
  | [] => ret (ys_, has_valid)
  | xv :: rest =>
      v <- try_except (evaluate_for_x host engine_ expr_ (VFloat xv))
             (fun _ => ret VNone) ;;
      match v with
      | VNone => sampling engine_ expr_ rest (ys_ ++ [nan]) has_valid
      | _ =>
          match builtin_float builtins v with
          | Return y => sampling engine_ expr_ rest (ys_ ++ [y]) true
          | Raise _ => sampling engine_ expr_ rest (ys_ ++ [nan]) has_valid
          end
      end
  end.

(** The [try] block that validates the range. *)
Definition x_range (self : CalculatorGUI) : res (float * float) :=
  match float_of_text builtins (xmin_var self) with
  | Raise e => Raise e
  | Return xmin =>
      match float_of_text builtins (xmax_var self) with
      | Raise e => Raise e
      | Return xmax =>
          if PrimFloat.leb xmax xmin
          then Raise (Exn OtherException "x-min must be < x-max")
          else Return (xmin, xmax)
      end
  end.

(** The number of points: at least ten, four hundred when the text is not
    an integer. *)
Definition sample_count (self : CalculatorGUI) : Z :=
  match int_of_text builtins (samples_var self) with
  | Return samples => if samples <? 10 then 10 else samples
  | Raise _ => 400
  end.

(** [next(self.color_cycle)], started again from the colours of the style
    when it is exhausted. *)
Definition next_color (self : CalculatorGUI) : res string * CalculatorGUI :=
  match color_cycle self with
  | c :: rest => (Return c, with_cycle self rest)
  | [] =>
      match prop_cycle builtins with
      | c :: rest => (Return c, with_cycle self rest)
      | [] => (Raise (Exn OtherException ""), with_cycle self [])
      end
  end.

Definition _plot_expression (self : CalculatorGUI) (add : bool) : handler := fun w =>
  let expr_ := str_strip builtins (fx_var self) in
  if String.eqb expr_ "" then (Return tt, self, w)
  else
    match x_range self with
    | Raise _ => (Return tt, self, w)
    | Return (xmin, xmax) =>
        let samples := sample_count self in
        match np_linspace builtins xmin xmax samples with
        | Raise e => (Raise e, self, w)
        | Return xs_ =>
            let self :=
              with_engine self
                (set_mode (engine self) (if is_rad self then "rad" else "deg")) in
            match sampling (engine self) expr_ xs_ [] false w with
            | (Raise e, w') => (Raise e, self, w')
            | (Return (ys_, has_valid), w') =>
                if negb has_valid then (Return tt, self, w')
                else
                  match next_color self with
                  | (Raise e, self) => (Raise e, self, w')
                  | (Return color_, self) =>
                      let trace :=
                        {| expr := expr_; xs := xs_; ys := ys_; color := color_ |} in
                      (Return tt,
                       with_traces self (if add then traces self ++ [trace] else [trace]),
                       w')
                  end
            end
        end
    end.

Definition _run_plot (self : CalculatorGUI) : handler :=
  _plot_expression (with_traces self []) false.

Definition _add_plot (self : CalculatorGUI) : handler := _plot_expression self true.

(** What can happen to the interface. *)
Inductive event : Type :=
| Edit (target : entry) (text : string)
| EditRange (xmin xmax samples : string)
| KeyInsert (focused : option entry) (txt : string)
| KeyAns (focused : option entry)
| KeyClear
| KeySign (focused : option entry)
| KeyEquals
| Switch (mode_ : string)
| HistoryDouble (sel : list nat) (listbox : list string)
| RunPlot
| AddPlot
| ClearPlot.

(** The main loop on one event; an exception in a handler is reported and
    the loop goes on. *)
Definition handle (ev : event) (self : CalculatorGUI) (w : W) : CalculatorGUI * W :=
  let run (h : handler) := let '(_, self', w') := h w in (self', w') in
  match ev with
  | Edit target text => (set self target text, w)
  | EditRange xmin xmax samples => (with_range self xmin xmax samples, w)
  | KeyInsert focused txt => (_insert_text self focused txt, w)
  | KeyAns focused => (_insert_last_answer self focused, w)
  | KeyClear => (_clear_entry self, w)
  | KeySign focused => (_toggle_sign self focused, w)
  | KeyEquals => run (_evaluate self)
  | Switch mode_ => (_switch_to_mode self mode_, w)
  | HistoryDouble sel listbox => (_on_history_double self sel listbox, w)
  | RunPlot => run (_run_plot self)
  | AddPlot => run (_add_plot self)
  | ClearPlot => (_clear_plot self, w)
  end.

Definition mainloop (events : list event) (self : CalculatorGUI) (w : W)
  : CalculatorGUI * W :=
  fold_left (fun s ev => handle ev (fst s) (snd s)) events (self, w).

End Handlers.

End gui.

(** The builtins of the reference host; the colours are those of
    matplotlib's default style. *)
Definition cpython_builtins : Builtins := {|
  builtin_str := pystr.str;
  str_strip := pystr.strip;
  builtin_float := pystr.float_of_value;
  float_of_text := pystr.float_of_text;
  int_of_text := pystr.int_of_text;
  np_linspace := pystr.linspace;
  prop_cycle := ["#1f77b4"; "#ff7f0e"; "#2ca02c"; "#d62728"; "#9467bd";
                 "#8c564b"; "#e377c2"; "#7f7f7f"; "#bcbd22"; "#17becf"];
|}.

(** * Notions used in the statements *)

(** The Value type of the specification: numbers, booleans, strings, and
    sequences and tuples of Values. *)
Fixpoint is_Value (v : value) : bool :=
  match v with
  | VInt _ | VFloat _ | VBool _ | VStr _ => true
  | VList items | VTuple items => forallb is_Value items
  | VNone | VExc _ => false
  end.

Definition is_string (v : value) : bool :=
  match v with VStr _ => true | _ => false end.

(** A generator state for closed examples. *)
Definition rng0 : rng := {| draws := fun n => Z.of_nat n; cursor := 0 |}.

(** The tab character, as a string. *)
Definition tab : string := String (ascii_of_nat 9) EmptyString.

(** The two engines the interface can set up. *)
Definition degrees : CalculatorEngine := set_mode new_engine "deg".
Definition radians : CalculatorEngine := set_mode new_engine "rad".

(** Whether a result is a float within [eps] of [target]. *)
Definition close_to (target eps : float) (r : res value) : bool :=
  match r with
  | Return (VFloat f) => PrimFloat.ltb (PrimFloat.abs (f - target)) eps
  | _ => false
  end.


(** The generator after one more draw. *)
Definition advance (w : rng) : rng := {| draws := draws w; cursor := S (cursor w) |}.

(** What [calculate] makes of the outcome of the evaluation. *)
Definition report (r : res value) : value :=
  match r with
  | Return v => v
  | Raise e =>
      match exn_class e with
      | EvalError => VStr ("Error: " +:+ exn_msg e)
      | ZeroDivisionError => VStr "Division by zero"
      | _ => VStr "Error"
      end
  end.

(** What [evaluate_for_x] makes of the outcome of the evaluation. *)
Definition value_or_none (r : res value) : value :=
  match r with
  | Return v => v
  | Raise _ => VNone
  end.

(** The EvalError [visit_BinOp] raises for a division by zero. *)
Definition DivisionByZero : exn := Exn EvalError "Division by zero".

(** The comparison operators [visit_Compare] knows. *)
Definition supported (op : ast.cmpop) : bool :=
  match op with
  | ast.Eq | ast.NotEq | ast.Lt | ast.LtE | ast.Gt | ast.GtE => true
  | _ => false
  end.

Section Traversals.

Context {W A B : Type}.

(** [f] maps the items of [l] to [ys] one after the other, taking the
    state from [w] to [w']. *)
Inductive evals_seq (f : A -> M W B) : list A -> W -> list B -> W -> Prop :=
| evals_nil w : evals_seq f [] w [] w
| evals_cons x l y ys w w1 w' :
    f x w = (Return y, w1) ->
    evals_seq f l w1 ys w' ->
    evals_seq f (x :: l) w (y :: ys) w'.

End Traversals.

Section Evaluations.

Context {W : Type} (host : Host W) (self : SafeEvaluator (W := W)).



(** The adjacent pairwise comparisons of a chain [left OP1 r1 OP2 r2 ...],
    when every one of them is defined. *)
Fixpoint pairwise (ops : list ast.cmpop) (left_ : value) (rights : list value)
  : option (list bool) :=
  match ops, rights with
  | op :: ops', r :: rights' =>
      if supported op then
        match py_compare host op left_ r with
        | Return b => option_map (cons b) (pairwise ops' r rights')
        | Raise _ => None
        end
      else None
  | _, _ => Some []
  end.

End Evaluations.

(** Whether a character occurs in a text. *)
Fixpoint occurs (c : ascii) (s : string) : bool :=
  match s with
  | EmptyString => false
  | String c' s' => Ascii.eqb c' c || occurs c s'
  end.

(** The keys of the function table, in the order of the source. *)
Definition function_names : list string :=
  ["sin"; "cos"; "tan"; "sec"; "csc"; "cot"; "sqrt"; "log"; "ln";
   "mean"; "median"; "mode"; "std"; "stdev"; "variance"; "min"; "max";
   "abs"; "round"; "factorial"; "mod"; "rand"; "choice"].

(** The binding a caller's dictionary gives a (lower-case) name: the last
    item whose key is that name up to case. *)
Definition binding (items : list (string * value)) (k : string) : option value :=
  option_map snd (find (fun kv => String.eqb (lower (fst kv)) k) (rev items)).

(** The names a tree looks up in [names] when it is evaluated, in lower
    case.  The callee of a call is not among them: [visit_Call] reads its
    [id] without visiting it, and visits no argument of a computed callee. *)
Fixpoint free_names (node : ast.node) : list string :=
  match node with
  | ast.Expression body => free_names body
  | ast.UnaryOp _ operand => free_names operand
  | ast.BinOp l _ r => free_names l ++ free_names r
  | ast.BoolOp _ values => flat_map free_names values
  | ast.Compare l _ comparators => free_names l ++ flat_map free_names comparators
  | ast.Call (ast.Name _) args _ => flat_map free_names args
  | ast.Name id => [lower id]
  | ast.List elts | ast.Tuple elts => flat_map free_names elts
  | ast.Call _ _ _ | ast.Constant _ | ast.Num _ | ast.Other _ => []
  end%list.

(** The names a tree looks up in [funcs], in lower case. *)
Fixpoint called (node : ast.node) : list string :=
  match node with
  | ast.Expression body => called body
  | ast.UnaryOp _ operand => called operand
  | ast.BinOp l _ r => called l ++ called r
  | ast.BoolOp _ values => flat_map called values
  | ast.Compare l _ comparators => called l ++ flat_map called comparators
  | ast.Call (ast.Name id) args _ => lower id :: flat_map called args
  | ast.List elts | ast.Tuple elts => flat_map called elts
  | ast.Call _ _ _ | ast.Name _ | ast.Constant _ | ast.Num _ | ast.Other _ => []
  end%list.

(** The entries of the function table built with [_angle_wrapper]. *)
Definition trig_names : list string := ["sin"; "cos"; "tan"; "sec"; "csc"; "cot"].

(** An exception the host raises on a comparison the evaluator knows. *)
Definition from_compare {W} (host : Host W) (e : exn) : Prop :=
  exists op a b, supported op = true /\ py_compare host op a b = Raise e.

(** An exception the host raises on a unary plus or minus. *)
Definition from_unaryop {W} (host : Host W) (e : exn) : Prop :=
  exists v, py_pos host v = Raise e \/ py_neg host v = Raise e.

(** Where an exception comes from that leaves the evaluator. *)
Definition leaves {W} (host : Host W) (e : exn) : Prop :=
  exn_class e = EvalError \/ from_unaryop host e \/ from_compare host e.

(** The entries of the function table that are lambdas with fixed
    parameters, with the method each lambda is written in and its
    parameters. *)
Definition fixed_arity : list (string * (string * list string)) :=
  [("sin", ("_angle_wrapper", ["x"]));
   ("cos", ("_angle_wrapper", ["x"]));
   ("tan", ("_angle_wrapper", ["x"]));
   ("sec", ("_prepare_functions", ["x"]));
   ("csc", ("_prepare_functions", ["x"]));
   ("cot", ("_prepare_functions", ["x"]));
   ("factorial", ("_prepare_functions", ["n"]));
   ("mod", ("_prepare_functions", ["a"; "b"]));
   ("rand", ("_prepare_functions", []))].

(** The entries guarded by [len(a) > 1], with the word their message ends
    in. *)
Definition needs_two_values : list (string * string) :=
  [("std", "stdev"); ("stdev", "stdev"); ("variance", "variance")].

(** The reciprocal entries and the entries they divide by. *)
Definition reciprocals : list (string * string) :=
  [("sec", "cos"); ("csc", "sin"); ("cot", "tan")].

(** The EvalError [visit_Call] makes of what a table function raises. *)
Definition call_error (e : exn) : exn :=
  match exn_class e with
  | TypeError => Exn EvalError ("Function call error: " +:+ exn_msg e)
  | _ => Exn EvalError (exn_msg e)
  end.

(** The EvalError [visit_BinOp] makes of what an operator raises. *)
Definition binop_error (e : exn) : exn :=
  match exn_class e with
  | ZeroDivisionError => DivisionByZero
  | _ => Exn EvalError (exn_msg e)
  end.

(** A host result with its exception converted. *)
Definition converted {W A} (convert : exn -> exn) (r : res A) : M W A :=
  fun w => match r with
           | Return a => (Return a, w)
           | Raise e => (Raise (convert e), w)
           end.

(** A computation that neither reads nor writes the host's state: it gives
    the same result in every state and leaves the state as it is. *)
Definition stateless {W A} (c : M W A) : Prop :=
  exists r, forall w, c w = (r, w).

(** The entries of the function table that use the generator. *)
Definition random_names : list string := ["rand"; "choice"].

(** The text [_evaluate] hands to the engine for a stripped entry text:
    the text with its missing closing parentheses. *)
Definition closed (expr : string) : string :=
  expr +:+ py.repeat_string ")" (Z.to_nat (count "(" expr - count ")" expr)).

(** Whether [sep] occurs in a text. *)
Fixpoint contains (sep s : string) : bool :=
  match s with
  | EmptyString => startswith EmptyString sep
  | String c s' => startswith s sep || contains sep s'
  end.

(** The engine in the mode the interface asks for. *)
Definition engine_for (is_rad : bool) : CalculatorEngine :=
  if is_rad then radians else degrees.

(** A history line that records an evaluation in degrees: an expression
    that is not empty and leaves no parenthesis open, with the text of what
    the engine returned for it in some state of the generator. *)
Definition recorded {W} (host : Host W) (builtins : Builtins) (line : string * string)
  : Prop :=
  fst line <> ""
  /\ count "(" (fst line) <= count ")" (fst line)
  /\ exists w v w',
       calculate host degrees (fst line) w = (Return v, w')
       /\ builtin_str builtins v = Return (snd line).

(** The variable [_on_history_double] writes to. *)
Definition picked (self : gui.CalculatorGUI) : string :=
  if String.eqb (gui.mode self) "scientific" then gui.expr_var self else gui.fx_var self.

(** The ordinate the plot makes of what [evaluate_for_x] returned, and
    whether it counts as a valid point. *)
Definition ordinate (builtins : Builtins) (v : value) : float * bool :=
  match v with
  | VNone => (nan, false)
  | _ =>
      match builtin_float builtins v with
      | Return y => (y, true)
      | Raise _ => (nan, false)
      end
  end.

(** A trace that can be drawn: it has a name and one ordinate for each
    abscissa. *)
Definition drawable (t : gui.GraphTrace) : Prop :=
  gui.expr t <> "" /\ length (gui.ys t) = length (gui.xs t).

(** What the main loop preserves: the flag is never set, the engine stays
    in degrees, every history line records an evaluation, the display is
    blank or shows the result of the last line, and every trace can be
    drawn. *)
Definition Invariant {W} (host : Host W) (builtins : Builtins)
    (self : gui.CalculatorGUI) : Prop :=
  gui.is_rad self = false
  /\ gui.engine self = degrees
  /\ Forall (recorded host builtins) (gui.history self)
  /\ (gui.display_var self = ""
      \/ exists expr, last (gui.history self) = Some (expr, gui.display_var self))
  /\ Forall drawable (gui.traces self).

(** * Properties *)

(** ** Sequencing *)

Section Sequencing.

Context {W A B : Type}.

Lemma mapM_evals (f : A -> M W B) l w ys w' :
  evals_seq f l w ys w' -> mapM f l w = (Return ys, w').
Proof.
  induction 1 as [|x l y ys w w1 w' Hx _ IH]; [reflexivity|].
  cbn. unfold bind at 1. rewrite Hx. unfold bind at 1. rewrite IH. reflexivity.
Qed.

(** The first item that raises ends the traversal, whatever came before. *)
Lemma mapM_raise (f : A -> M W B) pre x post w ys w1 e w2 :
  evals_seq f pre w ys w1 ->
  f x w1 = (Raise e, w2) ->
  mapM f (pre ++ x :: post)%list w = (Raise e, w2).
Proof.
  induction 1 as [|x' l y ys w w1 w' Hx _ IH]; intros Hraise.
  - cbn. unfold bind at 1. rewrite Hraise. reflexivity.
  - cbn. unfold bind at 1. rewrite Hx. unfold bind at 1. rewrite (IH Hraise).
    reflexivity.
Qed.

Lemma evals_seq_length (f : A -> M W B) l w ys w' :
  evals_seq f l w ys w' -> length ys = length l.
Proof. induction 1; cbn; congruence. Qed.

(** A traversal either maps every item or stops at the first that raises. *)
Lemma mapM_cases (f : A -> M W B) l w :
  (exists ys w', evals_seq f l w ys w') \/
  (exists pre x post ys w1 e w2,
      l = (pre ++ x :: post)%list /\ evals_seq f pre w ys w1 /\ f x w1 = (Raise e, w2)).
Proof.
  revert w. induction l as [|x l IH]; intros w.
  - left. exists [], w. constructor.
  - destruct (f x w) as [[y|e] w1] eqn:Hx.
    + destruct (IH w1) as [(ys & w' & H)|(pre & x' & post & ys & w2 & e & w3 & -> & H & Hr)].
      * left. exists (y :: ys), w'. econstructor; eauto.
      * right. exists (x :: pre), x', post, (y :: ys), w2, e, w3.
        split; [reflexivity|]. split; [econstructor; eauto|assumption].
    + right. exists [], x, l, [], w, e, w1. repeat split; [constructor|assumption].
Qed.

End Sequencing.

(** ** The facade never raises *)

Section Facade.

Context {W : Type} (host : Host W).

(** [calculate] always returns: an exception of whatever class is turned
    into a string. *)
Lemma calculate_returns self text w :
  exists v w', calculate host self text w = (Return v, w').
Proof.
  unfold calculate, try_except.
  destruct (evaluate host self None text w) as [[v|e] w']; [eauto|].
  destruct (exn_class e); cbn; eauto.
Qed.

Lemma calculate_report self text w :
  calculate host self text w =
  (Return (report (fst (evaluate host self None text w))),
   snd (evaluate host self None text w)).
Proof.
  unfold calculate, try_except.
  destruct (evaluate host self None text w) as [[v|e] w']; [reflexivity|].
  cbn. destruct (exn_class e); reflexivity.
Qed.

(** When the text parses, the evaluation is the visit of the tree. *)
Lemma evaluate_parsed self extra text node w :
  ast_parse host (prepare_text text) = Some node ->
  evaluate host self extra text w =
  visit host {| funcs := _prepare_functions host self;
                names := _prepare_names extra |} node w.
Proof. intros H. unfold evaluate. rewrite H. reflexivity. Qed.

End Facade.

(** C1: calculate never lets an exception escape and returns a Value or an
    error string, also for a call with too few arguments such as mean().
    The first half holds for every host and text.  The code breaks the
    second at mean(): the lambda builds the EvalError instead of raising it,
    so calculate returns the exception object itself, which is neither a
    Value nor a string. *)
Theorem C1_mean_returns_exception_object :
  (forall W (host : Host W) self text w,
      exists v w', calculate host self text w = (Return v, w'))
  /\ (forall lm self w,
         calculate (cpython lm) self "mean()" w
         = (Return (VExc (Exn EvalError "mean() needs args")), w))
  /\ is_Value (VExc (Exn EvalError "mean() needs args")) = false
  /\ is_string (VExc (Exn EvalError "mean() needs args")) = false.
Proof.
  split; [|repeat split].
  intros. apply calculate_returns.
Qed.

(** ** What the evaluator rejects, and what it lets through *)

Section Rejection.

Context {W : Type} (host : Host W) (self : SafeEvaluator (W := W)).

(** A node of a class without a visitor method is refused by
    [generic_visit]. *)
Lemma visit_other cls w :
  visit host self (ast.Other cls) w
  = (Raise (Exn EvalError ("Unsupported expression: " +:+ cls)), w).
Proof. reflexivity. Qed.

(** A call is refused unless the callee is a plain name. *)
Lemma visit_call_indirect func args kws w :
  (forall id, func <> ast.Name id) ->
  visit host self (ast.Call func args kws) w
  = (Raise (Exn EvalError "Only direct function calls allowed"), w).
Proof. intros H. destruct func; try reflexivity. destruct (H id eq_refl). Qed.

(** A call to a name outside the function table is refused before any
    argument is evaluated. *)
Lemma visit_call_unknown id args kws w :
  funcs self !! lower id = None ->
  visit host self (ast.Call (ast.Name id) args kws) w
  = (Raise (Exn EvalError ("Unknown function: " +:+ lower id)), w).
Proof. intros H. cbn. rewrite H. reflexivity. Qed.

(** [visit_Constant] returns the constant whatever its type. *)
Lemma visit_constant v w :
  visit host self (ast.Constant v) w = (Return v, w).
Proof. reflexivity. Qed.

(** [visit_Call] never looks at the keyword arguments. *)
Lemma visit_call_keywords func args kws w :
  visit host self (ast.Call func args kws) w
  = visit host self (ast.Call func args []) w.
Proof. reflexivity. Qed.

End Rejection.

(** C2: an input whose parse holds a construct outside the grammar (a string
    literal, an attribute access, a subscript, a lambda, a computed callee,
    a call with keyword arguments) is rejected with an EvalError and never
    evaluated silently.  Nodes of a class without a visitor method and calls
    through a computed callee are rejected.  The code breaks the claim
    twice: a string literal is a Constant node and is returned as it is,
    and the keyword arguments of a call are dropped without a word, so that
    abs(1, x=2) evaluates to 1. *)
Theorem C2_string_literals_and_keywords_are_evaluated :
  (forall W (host : Host W) self cls w,
      visit host self (ast.Other cls) w
      = (Raise (Exn EvalError ("Unsupported expression: " +:+ cls)), w))
  /\ (forall W (host : Host W) self func args kws w,
         (forall id, func <> ast.Name id) ->
         visit host self (ast.Call func args kws) w
         = (Raise (Exn EvalError "Only direct function calls allowed"), w))
  /\ (forall lm self w,
         calculate (cpython lm) self "a.b" w
         = (Return (VStr "Error: Unsupported expression: Attribute"), w)
         /\ calculate (cpython lm) self "a[0]" w
            = (Return (VStr "Error: Unsupported expression: Subscript"), w)
         /\ calculate (cpython lm) self "lambda:1" w
            = (Return (VStr "Error: Unsupported expression: Lambda"), w)
         /\ calculate (cpython lm) self "abs(1)(2)" w
            = (Return (VStr "Error: Only direct function calls allowed"), w))
  /\ (forall W (host : Host W) self s w,
         visit host self (ast.Constant (VStr s)) w = (Return (VStr s), w))
  /\ (forall W (host : Host W) self func args kws w,
         visit host self (ast.Call func args kws) w
         = visit host self (ast.Call func args []) w)
  /\ (forall lm self w,
         pyparse.ast_parse "'a'" = Some (ast.Expression (ast.Constant (VStr "a")))
         /\ calculate (cpython lm) self "'a'" w = (Return (VStr "a"), w))
  /\ (forall lm self w,
         pyparse.ast_parse "abs(1,x=2)"
         = Some (ast.Expression
                   (ast.Call (ast.Name "abs") [ast.Constant (VInt 1)]
                      [(Some "x", ast.Constant (VInt 2))]))
         /\ calculate (cpython lm) self "abs(1, x=2)" w = (Return (VInt 1), w)).
Proof.
  split; [|split; [|split; [|split; [|split; [|split]]]]].
  - intros. apply visit_other.
  - intros W host self func args kws w H. apply visit_call_indirect, H.
  - intros. repeat split.
  - intros. apply visit_constant.
  - intros. apply visit_call_keywords.
  - intros. split; reflexivity.
  - intros. split; reflexivity.
Qed.

(** ** Division by zero *)

Section DivisionByZero.

Context {W : Type} (host : Host W) (self : SafeEvaluator (W := W)).



End DivisionByZero.




(** ** The text the parser receives *)


(** Texts that are equal once their spaces are deleted are the same text to
    the parser. *)
Lemma prepare_text_spaces s t :
  replace " " "" s = replace " " "" t -> prepare_text s = prepare_text t.
Proof. unfold prepare_text. intros ->. reflexivity. Qed.

Section Texts.

Context {W : Type} (host : Host W).

Lemma evaluate_same_text self extra s t w :
  prepare_text s = prepare_text t ->
  evaluate host self extra s w = evaluate host self extra t w.
Proof. unfold evaluate. intros ->. reflexivity. Qed.

Lemma calculate_same_text self s t w :
  prepare_text s = prepare_text t ->
  calculate host self s w = calculate host self t w.
Proof.
  intros H. unfold calculate, try_except.
  rewrite (evaluate_same_text self None s t w H). reflexivity.
Qed.

Lemma evaluate_for_x_same_text self s t x w :
  prepare_text s = prepare_text t ->
  evaluate_for_x host self s x w = evaluate_for_x host self t x w.
Proof.
  intros H. unfold evaluate_for_x, try_except.
  rewrite (evaluate_same_text self _ s t w H). reflexivity.
Qed.

End Texts.

(** ** Integer power on the reference host *)




(** ** Angle modes *)

(** C5: sin, cos and tan convert their argument from degrees to radians in
    Degrees mode and pass it through in Radians mode, so that the
    degrees-mode function at x is the radians-mode function at radians(x):
    in the table, for the wrapper on every argument, and through the facade
    for every float x.  calculate("sin(30)") in Degrees mode is the sine of
    the float nearest 30*pi/180, about 0.5, and calculate("sin(pi/2)") in
    Radians mode is about 1.0. *)
Theorem C5_degrees_mode_is_radians_mode_after_conversion :
  (forall W (host : Host W) self,
      _prepare_functions host self !! "sin" = Some (_angle_wrapper host self (math_sin host))
      /\ _prepare_functions host self !! "cos" = Some (_angle_wrapper host self (math_cos host))
      /\ _prepare_functions host self !! "tan" = Some (_angle_wrapper host self (math_tan host)))
  /\ (forall W (host : Host W) trig_fn x w,
         _angle_wrapper host radians trig_fn [x] w = (trig_fn x, w)
         /\ _angle_wrapper host degrees trig_fn [x] w
            = match math_radians host x with
              | Return r => _angle_wrapper host radians trig_fn [r] w
              | Raise e => (Raise e, w)
              end)
  /\ (forall lm (x : float) w,
         evaluate_for_x (cpython lm) degrees "sin(x)" (VFloat x) w
         = evaluate_for_x (cpython lm) radians "sin(x)" (VFloat (x * (math_pi / 180))) w
         /\ evaluate_for_x (cpython lm) degrees "cos(x)" (VFloat x) w
            = evaluate_for_x (cpython lm) radians "cos(x)" (VFloat (x * (math_pi / 180))) w
         /\ evaluate_for_x (cpython lm) degrees "tan(x)" (VFloat x) w
            = evaluate_for_x (cpython lm) radians "tan(x)" (VFloat (x * (math_pi / 180))) w)
  /\ (forall lm w,
         calculate (cpython lm) degrees "sin(30)" w
         = calculate (cpython lm) radians "sin(0.5235987755982988)" w)
  /\ (forall w,
         calculate (cpython series.lib) degrees "sin(30)" w
         = (Return (VFloat 0x1.fffffffffffffp-2), w)
         /\ close_to 0.5 0x1p-50
              (fst (calculate (cpython series.lib) degrees "sin(30)" w)) = true
         /\ calculate (cpython series.lib) radians "sin(pi/2)" w
            = (Return (VFloat 1), w)
         /\ close_to 1 0x1p-50
              (fst (calculate (cpython series.lib) radians "sin(pi/2)" w)) = true).
Proof.
  split; [|split; [|split; [|split]]].
  - intros. repeat split.
  - intros. split; [reflexivity|].
    unfold degrees, _angle_wrapper, lambda1, bind, lift. cbn.
    destruct (math_radians host x); reflexivity.
  - intros. repeat split.
  - intros. reflexivity.
  - intros. repeat split.
Qed.

(** ** Chained comparisons and boolean operators *)

Section Chains.

Context {W : Type} (host : Host W) (self : SafeEvaluator (W := W)).

(** The loop evaluates every comparator once, in order, and its result is
    the conjunction of the result so far and the pairwise comparisons. *)
Lemma compare_loop_all comparators w vs w' :
  evals_seq (visit host self) comparators w vs w' ->
  forall ops left_ result bs,
    length ops = length comparators ->
    pairwise host ops left_ vs = Some bs ->
    compare_loop host (visit host self) ops comparators left_ result w
    = (Return (VBool (result && forallb id bs)), w').
Proof.
  induction 1 as [w|c cs y ys w w1 w' Hc _ IH]; intros ops left_ result bs Hlen Hpairs.
  - destruct ops; [|discriminate]. cbn in Hpairs. injection Hpairs as <-.
    cbn. rewrite andb_true_r. reflexivity.
  - destruct ops as [|op ops]; [discriminate|].
    cbn in Hpairs. destruct (supported op) eqn:Hop; [|discriminate].
    destruct (py_compare host op left_ y) as [b|] eqn:Hcmp; [|discriminate].
    destruct (pairwise host ops y ys) as [bs'|] eqn:Hrest; [|discriminate].
    injection Hpairs as <-.
    cbn. unfold bind at 1. rewrite Hc. unfold bind at 1.
    assert (Hstep : compare_step host op result left_ y w1
                    = (Return (result && b), w1)).
    { unfold compare_step. destruct op; try discriminate;
        destruct result; cbn; unfold lift; rewrite ?Hcmp; reflexivity. }
    rewrite Hstep.
    rewrite (IH ops y (result && b) bs'); [|now injection Hlen|assumption].
    cbn. rewrite andb_assoc. reflexivity.
Qed.

(** A comparator that raises ends the loop with its exception, whatever the
    comparisons before it gave. *)
Lemma compare_loop_raise pre w vs w1 :
  evals_seq (visit host self) pre w vs w1 ->
  forall ops1 op ops2 c post left_ result bs e w2,
    length ops1 = length pre ->
    pairwise host ops1 left_ vs = Some bs ->
    visit host self c w1 = (Raise e, w2) ->
    compare_loop host (visit host self) (ops1 ++ op :: ops2)%list
      (pre ++ c :: post)%list left_ result w
    = (Raise e, w2).
Proof.
  induction 1 as [w|c' cs y ys w w1 w' Hc _ IH];
    intros ops1 op ops2 c post left_ result bs e w2 Hlen Hpairs Hraise.
  - destruct ops1; [|discriminate]. cbn. unfold bind at 1. rewrite Hraise. reflexivity.
  - destruct ops1 as [|op1 ops1]; [discriminate|].
    cbn in Hpairs. destruct (supported op1) eqn:Hop; [|discriminate].
    destruct (py_compare host op1 left_ y) as [b|] eqn:Hcmp; [|discriminate].
    destruct (pairwise host ops1 y ys) as [bs'|] eqn:Hrest; [|discriminate].
    cbn. unfold bind at 1. rewrite Hc. unfold bind at 1.
    assert (Hstep : compare_step host op1 result left_ y w1
                    = (Return (result && b), w1)).
    { unfold compare_step. destruct op1; try discriminate;
        destruct result; cbn; unfold lift; rewrite ?Hcmp; reflexivity. }
    rewrite Hstep.
    apply (IH ops1 op ops2 c post y (result && b) bs' e w2);
      [now injection Hlen|assumption|assumption].
Qed.

(** [visit_BoolOp] evaluates every operand, in order, before it looks at any
    of the values. *)
Lemma visit_boolop_all op values w vs w' :
  evals_seq (visit host self) values w vs w' ->
  visit host self (ast.BoolOp op values) w = (Return (apply_boolop op vs), w').
Proof.
  intros H. cbn. unfold bind. rewrite (mapM_evals _ _ _ _ _ H). reflexivity.
Qed.

(** An operand that raises ends the evaluation with its exception, whatever
    the operands before it evaluated to. *)
Lemma visit_boolop_raise op pre x post w vs w1 e w2 :
  evals_seq (visit host self) pre w vs w1 ->
  visit host self x w1 = (Raise e, w2) ->
  visit host self (ast.BoolOp op (pre ++ x :: post)%list) w = (Raise e, w2).
Proof.
  intros Hpre Hx. cbn. unfold bind.
  rewrite (mapM_raise _ _ _ _ _ _ _ _ _ Hpre Hx). reflexivity.
Qed.

End Chains.

(** C6: a chained comparison is the conjunction of its adjacent pairwise
    comparisons; the first operand and every comparator are evaluated once
    each, in order, also when an early pair already fails (the state after
    the chain is the state after all comparators, and a comparator that
    raises makes the chain raise).  calculate("1<2<3") is true and
    calculate("3<2<1") is false. *)
Theorem C6_chained_comparison :
  (forall W (host : Host W) self l ops comparators w v0 w1 vs w' bs,
      length ops = length comparators ->
      visit host self l w = (Return v0, w1) ->
      evals_seq (visit host self) comparators w1 vs w' ->
      pairwise host ops v0 vs = Some bs ->
      visit host self (ast.Compare l ops comparators) w
      = (Return (VBool (forallb id bs)), w'))
  /\ (forall W (host : Host W) self l ops1 op ops2 pre c post w v0 w1 vs w2 bs e w3,
         length ops1 = length pre ->
         visit host self l w = (Return v0, w1) ->
         evals_seq (visit host self) pre w1 vs w2 ->
         pairwise host ops1 v0 vs = Some bs ->
         visit host self c w2 = (Raise e, w3) ->
         visit host self
           (ast.Compare l (ops1 ++ op :: ops2)%list (pre ++ c :: post)%list) w
         = (Raise e, w3))
  /\ (forall lm self w,
         calculate (cpython lm) self "1<2<3" w = (Return (VBool true), w)
         /\ calculate (cpython lm) self "3<2<1" w = (Return (VBool false), w)
         /\ calculate (cpython lm) self "1<2>3" w = (Return (VBool false), w)
         /\ calculate (cpython lm) self "3<2<1/0" w
            = (Return (VStr "Error: Division by zero"), w)
         /\ calculate (cpython lm) self "3<2<rand()" w
            = (Return (VBool false), advance w)).
Proof.
  split; [|split].
  - intros W host self l ops comparators w v0 w1 vs w' bs Hlen Hl Hcs Hpairs.
    cbn. unfold bind at 1. rewrite Hl.
    rewrite (compare_loop_all host self comparators w1 vs w' Hcs ops v0 true bs Hlen Hpairs).
    reflexivity.
  - intros W host self l ops1 op ops2 pre c post w v0 w1 vs w2 bs e w3 Hlen Hl Hpre Hpairs Hc.
    cbn. unfold bind at 1. rewrite Hl.
    apply (compare_loop_raise host self pre w1 vs w2 Hpre ops1 op ops2 c post v0 true bs e w3
             Hlen Hpairs Hc).
  - intros. repeat split.
Qed.

(** The theorem at the tree of "1<2<3" on the reference host. *)
Lemma C6_witness :
  visit (cpython series.lib)
    {| funcs := _prepare_functions (cpython series.lib) new_engine;
       names := _prepare_names None |}
    (ast.Compare (ast.Constant (VInt 1)) [ast.Lt; ast.Lt]
       [ast.Constant (VInt 2); ast.Constant (VInt 3)]) rng0
  = (Return (VBool true), rng0).
Proof.
  apply (proj1 C6_chained_comparison rng (cpython series.lib) _ _ _ _ rng0 (VInt 1) rng0
           [VInt 2; VInt 3] rng0 [true; true]).
  - reflexivity.
  - reflexivity.
  - repeat econstructor.
  - reflexivity.
Defined.

(** C7: a boolean expression evaluates every operand, in order and without
    short-circuit, and then takes the conjunction (and) or disjunction (or)
    of their truth values; an operand that raises makes the expression raise
    even when an earlier operand already decides the outcome.  The tree of
    "0 and 1/0" fails with division by zero instead of yielding false. *)
Theorem C7_boolean_operators_are_eager :
  (forall W (host : Host W) self op values w vs w',
      evals_seq (visit host self) values w vs w' ->
      visit host self (ast.BoolOp op values) w
      = (Return (VBool match op with
                       | ast.And => forallb truthy vs
                       | ast.Or => existsb truthy vs
                       end), w'))
  /\ (forall W (host : Host W) self op pre x post w vs w1 e w2,
         evals_seq (visit host self) pre w vs w1 ->
         visit host self x w1 = (Raise e, w2) ->
         visit host self (ast.BoolOp op (pre ++ x :: post)%list) w = (Raise e, w2))
  /\ (forall lm self w,
         pyparse.ast_parse "0 and 1/0"
         = Some (ast.Expression
                   (ast.BoolOp ast.And
                      [ast.Constant (VInt 0);
                       ast.BinOp (ast.Constant (VInt 1)) ast.Div (ast.Constant (VInt 0))]))
         /\ visit (cpython lm) self
              (ast.BoolOp ast.And
                 [ast.Constant (VInt 0);
                  ast.BinOp (ast.Constant (VInt 1)) ast.Div (ast.Constant (VInt 0))]) w
            = (Raise (Exn EvalError "Division by zero"), w))
  /\ (forall lm self w,
         calculate (cpython lm) self "0 and (1/0)" w
         = (Return (VStr "Error: Division by zero"), w)
         /\ calculate (cpython lm) self "1 or (1/0)" w
            = (Return (VStr "Error: Division by zero"), w)
         /\ calculate (cpython lm) self "0 and (1)" w = (Return (VBool false), w)
         /\ calculate (cpython lm) self "(0) or (2)" w = (Return (VBool true), w)
         /\ calculate (cpython lm) self "0 and (rand())" w
            = (Return (VBool false), advance w)
         /\ calculate (cpython lm) self "1 or (rand())" w
            = (Return (VBool true), advance w)).
Proof.
  split; [|split; [|split]].
  - intros W host self op values w vs w' H.
    rewrite (visit_boolop_all host self op values w vs w' H). destruct op; reflexivity.
  - intros W host self op pre x post w vs w1 e w2 Hpre Hx.
    exact (visit_boolop_raise host self op pre x post w vs w1 e w2 Hpre Hx).
  - intros. split; reflexivity.
  - intros. repeat split.
Qed.

(** The theorem at the tree of "0 and 1/0" on the reference host: the second
    operand raises after the first evaluated to 0. *)
Lemma C7_witness :
  visit (cpython series.lib)
    {| funcs := _prepare_functions (cpython series.lib) new_engine;
       names := _prepare_names None |}
    (ast.BoolOp ast.And
       [ast.Constant (VInt 0);
        ast.BinOp (ast.Constant (VInt 1)) ast.Div (ast.Constant (VInt 0))]) rng0
  = (Raise (Exn EvalError "Division by zero"), rng0).
Proof.
  apply (proj1 (proj2 C7_boolean_operators_are_eager) rng (cpython series.lib) _ ast.And
           [ast.Constant (VInt 0)]
           (ast.BinOp (ast.Constant (VInt 1)) ast.Div (ast.Constant (VInt 0)))
           [] rng0 [VInt 0] rng0 _ rng0).
  - repeat econstructor.
  - reflexivity.
Defined.

(** ** Spaces *)

(** C8, as the code has it: the space character is insignificant and
    discarded.  Two texts that are equal once every space is deleted give the
    same result, from calculate and from evaluate_for_x, in the same mode and
    generator state. *)
Theorem C8_spaces_are_discarded
    {W : Type} (host : Host W) (self : CalculatorEngine) (s t : string)
    (x : value) (w : W) :
  replace " " "" s = replace " " "" t ->
  calculate host self s w = calculate host self t w
  /\ evaluate_for_x host self s x w = evaluate_for_x host self t x w.
Proof.
  intros H. apply prepare_text_spaces in H. split.
  - apply calculate_same_text, H.
  - apply evaluate_for_x_same_text, H.
Qed.

(** The theorem at "1 + 2" and "1+2" on the reference host. *)
Lemma C8_witness :
  calculate (cpython series.lib) new_engine "1 + 2" rng0
  = calculate (cpython series.lib) new_engine "1+2" rng0
  /\ evaluate_for_x (cpython series.lib) new_engine "1 + 2" (VInt 0) rng0
     = evaluate_for_x (cpython series.lib) new_engine "1+2" (VInt 0) rng0.
Proof.
  apply (C8_spaces_are_discarded (cpython series.lib) new_engine "1 + 2" "1+2" (VInt 0) rng0).
  reflexivity.
Defined.

(** C8 as stated fails for whitespace other than the space character, which
    the code leaves to the parser.  "not 1" and "not<TAB>1" are the same two
    tokens with different blank space between them; the first loses its space
    and is the unknown name not1, the second is the negation of 1.  Likewise
    "1 2" is the number 12 and "1<TAB>2" a syntax error. *)
Lemma C8_counterexample :
  pyparse.tokens "not 1" = pyparse.tokens ("not" +:+ tab +:+ "1")
  /\ fst (calculate (cpython series.lib) new_engine "not 1" rng0)
     = Return (VStr "Error: Unknown name: not1")
  /\ fst (calculate (cpython series.lib) new_engine ("not" +:+ tab +:+ "1") rng0)
     = Return (VBool false)
  /\ calculate (cpython series.lib) new_engine "not 1" rng0
     <> calculate (cpython series.lib) new_engine ("not" +:+ tab +:+ "1") rng0
  /\ pyparse.tokens "1 2" = pyparse.tokens ("1" +:+ tab +:+ "2")
  /\ fst (calculate (cpython series.lib) new_engine "1 2" rng0) = Return (VInt 12)
  /\ fst (calculate (cpython series.lib) new_engine ("1" +:+ tab +:+ "2") rng0)
     = Return (VStr "Error").
Proof. repeat split; discriminate. Qed.

(** ** Evaluation at a point *)

(** C9: evaluate_for_x never raises.  Whatever fails - the parse, a name or
    function lookup, an operator, a library function, a division by zero -
    it returns None and nothing else; otherwise it returns the value of the
    expression with x bound to the given value, next to pi and e. *)
Theorem C9_evaluate_for_x_returns_value_or_none :
  (forall W (host : Host W) self text x w,
      evaluate_for_x host self text x w
      = (Return (value_or_none (fst (evaluate host self (Some [("x", x)]) text w))),
         snd (evaluate host self (Some [("x", x)]) text w)))
  /\ (forall W (host : Host W) self text x w,
         ast_parse host (prepare_text text) = None ->
         evaluate_for_x host self text x w = (Return VNone, w))
  /\ (forall x,
         _prepare_names (Some [("x", x)]) !! "x" = Some x
         /\ _prepare_names (Some [("x", x)]) !! "pi" = Some (VFloat math_pi)
         /\ _prepare_names (Some [("x", x)]) !! "e" = Some (VFloat math_e))
  /\ (forall lm self x w,
         evaluate_for_x (cpython lm) self "x" x w = (Return x, w))
  /\ (forall lm self w,
         evaluate_for_x (cpython lm) self "1/x" (VFloat 0) w = (Return VNone, w)
         /\ evaluate_for_x (cpython lm) self "1/x" (VInt 0) w = (Return VNone, w)
         /\ evaluate_for_x (cpython lm) self "1/x" (VFloat 4) w
            = (Return (VFloat 0.25), w)
         /\ evaluate_for_x (cpython lm) self "2*(x+" (VFloat 4) w = (Return VNone, w)
         /\ evaluate_for_x (cpython lm) self "foo(x)" (VFloat 4) w = (Return VNone, w)
         /\ evaluate_for_x (cpython lm) self "x+y" (VFloat 4) w = (Return VNone, w)
         /\ evaluate_for_x (cpython lm) self "x+[1]" (VFloat 4) w = (Return VNone, w)
         /\ evaluate_for_x (cpython lm) self "-[x]" (VFloat 4) w = (Return VNone, w)
         /\ evaluate_for_x (cpython lm) self "sqrt(x)" (VFloat (-4)) w
            = (Return VNone, w)).
Proof.
  split; [|split; [|split; [|split]]].
  - intros. unfold evaluate_for_x, try_except.
    destruct (evaluate host self (Some [("x", x)]) text w) as [[v|e] w'];
      [reflexivity|]. cbn. destruct (exn_class e); reflexivity.
  - intros W host self text x w H. unfold evaluate_for_x, try_except, evaluate.
    rewrite H. reflexivity.
  - intros. repeat split.
  - intros. reflexivity.
  - intros. repeat split.
Qed.

(** The second part of the theorem at a text the reference host cannot
    parse. *)
Lemma C9_witness :
  evaluate_for_x (cpython series.lib) new_engine "2*(x+" (VFloat 4) rng0
  = (Return VNone, rng0).
Proof.
  apply (proj1 (proj2 C9_evaluate_for_x_returns_value_or_none)).
  reflexivity.
Defined.

(** ** The mode *)

(** [_safe_mode] answers with its sentinel when the host's [statistics.mode]
    raises StatisticsError. *)
Lemma safe_mode_sentinel {W : Type} (host : Host W) args e (w : W) :
  statistics_mode host args = Raise e ->
  exn_class e = StatisticsError ->
  _safe_mode host args w = (Return (VStr "No unique mode"), w).
Proof.
  intros H Hc. unfold _safe_mode, try_except, lift. rewrite H, Hc. reflexivity.
Qed.

(** C10: mode(1,1,2,2) returns the sentinel string "No unique mode".  The
    code returns the sentinel exactly when the host's statistics.mode raises
    StatisticsError.  That was so for several modes up to Python 3.7; since
    Python 3.8 statistics.mode returns the first of several modes, the
    handler of _safe_mode is not reached and calculate returns 1.  There the
    sentinel is what mode() without arguments returns. *)
Theorem C10_mode_of_two_modes_is_the_first :
  (forall W (host : Host W) args e w,
      statistics_mode host args = Raise e ->
      exn_class e = StatisticsError ->
      _safe_mode host args w = (Return (VStr "No unique mode"), w))
  /\ (forall lm self w,
         pystat.mode [VInt 1; VInt 1; VInt 2; VInt 2] = Return (VInt 1)
         /\ calculate (cpython lm) self "mode(1,1,2,2)" w = (Return (VInt 1), w)
         /\ calculate (cpython lm) self "mode()" w
            = (Return (VStr "No unique mode"), w))
  /\ (forall lm self w,
         calculate (cpython_before_38 lm) self "mode(1,1,2,2)" w
         = (Return (VStr "No unique mode"), w)
         /\ calculate (cpython_before_38 lm) self "mode(1,1,2)" w
            = (Return (VInt 1), w)).
Proof.
  split; [|split].
  - intros W host args e w H Hc. exact (safe_mode_sentinel host args e w H Hc).
  - intros. repeat split.
  - intros. repeat split.
Qed.

(** * Further properties of the engine *)

(** ** The mode setter *)

(** X1: after any sequence of calls of set_mode the mode is the last
    recognised value that was passed ("deg" or "rad"), or the mode the engine
    had when none was; unrecognised values leave no trace. *)
Theorem X1_mode_is_the_last_recognised_value (ms : list string) (self : CalculatorEngine) :
  mode (fold_left set_mode ms self)
  = match find (fun m => String.eqb m "deg" || String.eqb m "rad") (rev ms) with
    | Some m => m
    | None => mode self
    end
  /\ (mode (fold_left set_mode ms new_engine) = "deg"
      \/ mode (fold_left set_mode ms new_engine) = "rad").
Proof.
  assert (H : forall ms self,
             mode (fold_left set_mode ms self)
             = match find (fun m => String.eqb m "deg" || String.eqb m "rad") (rev ms) with
               | Some m => m
               | None => mode self
               end).
  { clear. intros ms. induction ms as [|m ms IH] using rev_ind; intros self; [reflexivity|].
    rewrite fold_left_app, rev_app_distr. cbn. unfold set_mode at 1.
    destruct (String.eqb m "deg" || String.eqb m "rad"); [reflexivity|]. apply IH. }
  split; [apply H|].
  rewrite H.
  destruct (find _ (rev ms)) as [m|] eqn:E; [|left; reflexivity].
  apply find_some in E. destruct E as [_ E].
  apply orb_true_iff in E. destruct E as [E|E]; apply String.eqb_eq in E; auto.
Qed.

(** ** Induction on syntax trees *)

Section NodeInduction.

Variable P : ast.node -> Prop.

Hypothesis HExpression : forall body, P body -> P (ast.Expression body).
Hypothesis HConstant : forall v, P (ast.Constant v).
Hypothesis HNum : forall n, P (ast.Num n).
Hypothesis HUnaryOp : forall op operand, P operand -> P (ast.UnaryOp op operand).
Hypothesis HBinOp : forall l op r, P l -> P r -> P (ast.BinOp l op r).
Hypothesis HBoolOp : forall op values, Forall P values -> P (ast.BoolOp op values).
Hypothesis HCompare :
  forall l ops comparators, P l -> Forall P comparators -> P (ast.Compare l ops comparators).
Hypothesis HCall :
  forall func args kws, P func -> Forall P args -> P (ast.Call func args kws).
Hypothesis HName : forall id, P (ast.Name id).
Hypothesis HList : forall elts, Forall P elts -> P (ast.List elts).
Hypothesis HTuple : forall elts, Forall P elts -> P (ast.Tuple elts).
Hypothesis HOther : forall cls, P (ast.Other cls).

(** Structural induction with the induction hypothesis on every item of the
    node lists (keyword arguments apart: the evaluator never visits them). *)
Lemma node_induction : forall node, P node.
Proof.
  fix IH 1. intros node.
  assert (IHs : forall l, Forall P l).
  { intros l. induction l as [|x l IHl]; constructor; [apply IH|exact IHl]. }
  destruct node.
  - apply HExpression, IH.
  - apply HConstant.
  - apply HNum.
  - apply HUnaryOp, IH.
  - apply HBinOp; apply IH.
  - apply HBoolOp, IHs.
  - apply HCompare; [apply IH|apply IHs].
  - apply HCall; [apply IH|apply IHs].
  - apply HName.
  - apply HList, IHs.
  - apply HTuple, IHs.
  - apply HOther.
Qed.

End NodeInduction.

(** ** Texts and names *)

Lemma occurs_app c s t : occurs c (s +:+ t) = occurs c s || occurs c t.
Proof.
  induction s as [|c' s IH]; [reflexivity|].
  change (Ascii.eqb c' c || occurs c (s +:+ t)
          = Ascii.eqb c' c || occurs c s || occurs c t).
  rewrite IH. apply orb_assoc.
Qed.

Lemma replace_absent c new s : occurs c s = false -> replace c new s = s.
Proof.
  induction s as [|c' s IH]; [reflexivity|].
  cbn. intros H. apply orb_false_iff in H. destruct H as [Hc Hs].
  rewrite Hc, (IH Hs). reflexivity.
Qed.

Lemma occurs_replace_same c new s :
  occurs c new = false -> occurs c (replace c new s) = false.
Proof.
  intros Hnew. induction s as [|c' s IH]; [reflexivity|].
  cbn [replace]. destruct (Ascii.eqb c' c) eqn:E.
  - rewrite occurs_app, Hnew, IH. reflexivity.
  - cbn [occurs]. rewrite E, IH. reflexivity.
Qed.

Lemma occurs_replace_other c d new s :
  occurs c s = false -> occurs c new = false -> occurs c (replace d new s) = false.
Proof.
  intros Hs Hnew. induction s as [|c' s IH]; [reflexivity|].
  cbn in Hs. apply orb_false_iff in Hs. destruct Hs as [Hc Hs].
  cbn [replace]. destruct (Ascii.eqb c' d).
  - rewrite occurs_app, Hnew, (IH Hs). reflexivity.
  - cbn [occurs]. rewrite Hc, (IH Hs). reflexivity.
Qed.

Lemma prepare_text_no_space s : occurs " " (prepare_text s) = false.
Proof.
  unfold prepare_text. apply occurs_replace_other; [|reflexivity].
  apply occurs_replace_same. reflexivity.
Qed.

Lemma prepare_text_no_caret s : occurs "^" (prepare_text s) = false.
Proof. unfold prepare_text. apply occurs_replace_same. reflexivity. Qed.

Lemma prepare_text_idempotent s : prepare_text (prepare_text s) = prepare_text s.
Proof.
  unfold prepare_text at 1.
  rewrite (replace_absent " "); [|apply prepare_text_no_space].
  apply replace_absent, prepare_text_no_caret.
Qed.

(** X2: the text handed to the parser holds no space and no caret, and
    preparing a prepared text changes nothing; so calculate and
    evaluate_for_x give the same result on a text and on its prepared form. *)
Theorem X2_prepared_text_is_a_fixed_point :
  (forall s, occurs " " (prepare_text s) = false
             /\ occurs "^" (prepare_text s) = false
             /\ prepare_text (prepare_text s) = prepare_text s)
  /\ (forall W (host : Host W) self s w,
         calculate host self (prepare_text s) w = calculate host self s w)
  /\ (forall W (host : Host W) self s x w,
         evaluate_for_x host self (prepare_text s) x w = evaluate_for_x host self s x w).
Proof.
  split; [|split].
  - intros s. split; [apply prepare_text_no_space|].
    split; [apply prepare_text_no_caret|apply prepare_text_idempotent].
  - intros. unfold calculate, try_except, evaluate.
    rewrite prepare_text_idempotent. reflexivity.
  - intros. unfold evaluate_for_x, try_except, evaluate.
    rewrite prepare_text_idempotent. reflexivity.
Qed.

(** [lower] beyond ASCII: a Latin-1 letter, the final sigma, the one
    character that becomes two, and a caller's binding and an unknown
    function spelt with a capital outside ASCII. *)
Lemma lower_examples :
  lower "SIN" = "sin"
  /\ lower "Ä" = "ä"
  /\ lower "ΌΔΟΣ" = "όδος"
  /\ lower "Σ" = "σ"
  /\ lower "İ" = String "i" "̇"
  /\ _prepare_names (Some [("Ä", VInt 1)]) !! "ä" = Some (VInt 1)
  /\ _prepare_names (Some [("Ä", VInt 1)]) !! "Ä" = None
  /\ (forall W (host : Host W) (self : SafeEvaluator) args kws w,
        funcs self !! "ä" = None ->
        visit host self (ast.Call (ast.Name "Ä") args kws) w
        = (Raise (Exn EvalError "Unknown function: ä"), w)).
Proof.
  repeat split; try reflexivity.
  intros W host self args kws w H.
  exact (visit_call_unknown host self "Ä" args kws w H).
Qed.

(** X3: names are matched without regard to case.  A call evaluates the same
    under any spelling of the function's name; a name evaluates to the same
    object under any spelling, and when it is unknown the error message
    carries the spelling of the text (whereas for an unknown function it
    carries the lower-case form). *)
Theorem X3_names_are_case_insensitive :
  forall W (host : Host W) (self : SafeEvaluator) id id',
    lower id = lower id' ->
    (forall args kws kws' w,
        visit host self (ast.Call (ast.Name id) args kws) w
        = visit host self (ast.Call (ast.Name id') args kws') w)
    /\ (forall w,
          match names self !! lower id with
          | Some v => visit host self (ast.Name id) w = (Return v, w)
                      /\ visit host self (ast.Name id') w = (Return v, w)
          | None =>
              visit host self (ast.Name id) w
              = (Raise (Exn EvalError ("Unknown name: " +:+ id)), w)
              /\ visit host self (ast.Name id') w
                 = (Raise (Exn EvalError ("Unknown name: " +:+ id')), w)
          end)
    /\ (forall args kws w,
          funcs self !! lower id = None ->
          visit host self (ast.Call (ast.Name id') args kws) w
          = (Raise (Exn EvalError ("Unknown function: " +:+ lower id)), w)).
Proof.
  intros W host self id id' H. split; [|split].
  - intros. cbn. rewrite H. reflexivity.
  - intros w. cbn. rewrite <- H.
    destruct (names self !! lower id); split; reflexivity.
  - intros args kws w Hnone. cbn. rewrite <- H, Hnone. reflexivity.
Qed.

Lemma X3_witness :
  lower "SIN" = lower "sin"
  /\ forall lm (self : CalculatorEngine) args kws kws' w,
       visit (cpython lm)
         {| funcs := _prepare_functions (cpython lm) self; names := _prepare_names None |}
         (ast.Call (ast.Name "SIN") args kws) w
       = visit (cpython lm)
           {| funcs := _prepare_functions (cpython lm) self; names := _prepare_names None |}
           (ast.Call (ast.Name "sin") args kws') w.
Proof.
  split; [reflexivity|].
  intros lm self args kws kws' w.
  apply (X3_names_are_case_insensitive rng (cpython lm) _ "SIN" "sin" eq_refl).
Defined.

(** ** The two tables *)

(** X4: the names the evaluator knows are pi, e and the caller's bindings
    under their lower-case keys; a caller's binding overrides the constants,
    and of two bindings whose keys agree up to case the later one wins. *)
Theorem X4_caller_bindings_override_constants (items : list (string * value)) (k : string) :
  _prepare_names (Some items) !! k
  = match binding items k with
    | Some v => Some v
    | None => _prepare_names None !! k
    end.
Proof.
  unfold _prepare_names, binding.
  generalize (list_to_map [("pi", VFloat math_pi); ("e", VFloat math_e)]
              : gmap string value) as base.
  induction items as [|kv items IH] using rev_ind; intros base; [reflexivity|].
  rewrite fold_left_app, rev_app_distr. cbn [fold_left rev app find].
  destruct (String.eqb (lower (fst kv)) k) eqn:E.
  - apply String.eqb_eq in E. subst k. cbn. apply lookup_insert_eq.
  - apply String.eqb_neq in E. rewrite lookup_insert_ne by exact E. apply IH.
Qed.

Lemma function_table_domain {W} (host : Host W) self f :
  is_Some (_prepare_functions host self !! f) <-> In f function_names.
Proof.
  unfold _prepare_functions.
  match goal with |- is_Some (list_to_map ?l !! _) <-> _ => set (table := l) end.
  change function_names with (table.*1).
  rewrite <- list_elem_of_In.
  destruct (list_to_map table !! f) as [fn|] eqn:E.
  - split; [intros _|eauto].
    destruct (decide (f ∈ table.*1)) as [Hin|Hout]; [exact Hin|].
    apply (not_elem_of_list_to_map_1 (M := gmap string)) in Hout.
    unfold native in *. congruence.
  - split; [intros [x Hx]; discriminate|intros Hin].
    apply (not_elem_of_list_to_map_2 (M := gmap string)) in E. contradiction.
Qed.

(** X5: the function table has the same twenty-three keys on every host and
    in both modes, and a call to any other name is refused with its
    lower-case spelling before a single argument is evaluated: nothing is
    drawn from the generator, whatever the arguments are. *)
Theorem X5_unknown_functions_are_refused_untouched :
  forall W (host : Host W) (self : CalculatorEngine) names id,
    (is_Some (_prepare_functions host self !! lower id) <-> In (lower id) function_names)
    /\ (~ In (lower id) function_names ->
        forall args kws w,
          visit host {| funcs := _prepare_functions host self; names := names |}
            (ast.Call (ast.Name id) args kws) w
          = (Raise (Exn EvalError ("Unknown function: " +:+ lower id)), w)).
Proof.
  intros W host self names id. split; [apply function_table_domain|].
  intros Hout args kws w. apply visit_call_unknown. cbn [funcs].
  destruct (_prepare_functions host self !! lower id) as [fn|] eqn:E; [|reflexivity].
  destruct Hout. apply (function_table_domain host self). eauto.
Qed.

(** ** What an evaluation depends on *)

Lemma mapM_ext {W A B} (f g : A -> M W B) l :
  Forall (fun x => forall w, f x w = g x w) l ->
  forall w, mapM f l w = mapM g l w.
Proof.
  induction 1 as [|x l Hx _ IH]; intros w; [reflexivity|].
  cbn. unfold bind at 1 3. rewrite Hx.
  destruct (g x w) as [[y|e] w1]; [|reflexivity].
  unfold bind at 1 2. rewrite IH. reflexivity.
Qed.

Lemma compare_loop_ext {W} (host : Host W) (f g : ast.node -> M W value) comparators :
  Forall (fun x => forall w, f x w = g x w) comparators ->
  forall ops left_ result w,
    compare_loop host f ops comparators left_ result w
    = compare_loop host g ops comparators left_ result w.
Proof.
  induction 1 as [|c cs Hc _ IH]; intros ops left_ result w; [reflexivity|].
  destruct ops as [|op ops]; [reflexivity|].
  cbn. unfold bind at 1 3. rewrite Hc.
  destruct (g c w) as [[right_|e] w1]; [|reflexivity].
  unfold bind at 1 2.
  destruct (compare_step host op result left_ right_ w1) as [[result'|e] w2];
    [|reflexivity].
  apply IH.
Qed.

Lemma Forall_flat_map_in {A} (f : A -> list string) (Q : string -> Prop) l :
  (forall k, In k (flat_map f l) -> Q k) ->
  Forall (fun x => forall k, In k (f x) -> Q k) l.
Proof.
  induction l as [|x l IH]; intros H; constructor.
  - intros k Hk. apply H. cbn. apply in_or_app. left. exact Hk.
  - apply IH. intros k Hk. apply H. cbn. apply in_or_app. right. exact Hk.
Qed.

(** Two evaluators that agree on the names and on the functions a tree
    mentions evaluate it alike. *)
Lemma visit_ext {W} (host : Host W) (self self' : SafeEvaluator) node :
  (forall k, In k (free_names node) -> names self !! k = names self' !! k) ->
  (forall k, In k (called node) -> funcs self !! k = funcs self' !! k) ->
  forall w, visit host self node w = visit host self' node w.
Proof.
  induction node using node_induction; intros Hn Hf w.
  - apply IHnode; assumption.
  - reflexivity.
  - reflexivity.
  - cbn. unfold bind. rewrite IHnode by assumption. reflexivity.
  - cbn in Hn, Hf. cbn. unfold bind at 1 3.
    rewrite IHnode1
      by (intros k Hk; first [apply Hn|apply Hf]; apply in_or_app; left; exact Hk).
    destruct (visit host self' node1 w) as [[a|e] w1]; [|reflexivity].
    unfold bind at 1 2.
    rewrite IHnode2
      by (intros k Hk; first [apply Hn|apply Hf]; apply in_or_app; right; exact Hk).
    reflexivity.
  - cbn in Hn, Hf. cbn. unfold bind.
    rewrite (mapM_ext (visit host self) (visit host self')); [reflexivity|].
    apply Forall_flat_map_in in Hn. apply Forall_flat_map_in in Hf.
    clear -H Hn Hf. induction H; constructor; inversion Hn; inversion Hf; subst; auto.
  - cbn in Hn, Hf. cbn. unfold bind at 1 2.
    rewrite IHnode
      by (intros k Hk; first [apply Hn|apply Hf]; apply in_or_app; left; exact Hk).
    destruct (visit host self' node w) as [[a|e] w1]; [|reflexivity].
    apply compare_loop_ext.
    assert (Hn' : forall k, In k (flat_map free_names comparators) ->
                            names self !! k = names self' !! k)
      by (intros k Hk; apply Hn, in_or_app; right; exact Hk).
    assert (Hf' : forall k, In k (flat_map called comparators) ->
                            funcs self !! k = funcs self' !! k)
      by (intros k Hk; apply Hf, in_or_app; right; exact Hk).
    apply Forall_flat_map_in in Hn'. apply Forall_flat_map_in in Hf'.
    clear -H Hn' Hf'. induction H; constructor; inversion Hn'; inversion Hf'; subst; auto.
  - destruct node; try reflexivity.
    cbn in Hn, Hf. cbn.
    rewrite <- (Hf (lower id)) by (left; reflexivity).
    destruct (funcs self !! lower id) as [fn|]; [|reflexivity].
    unfold bind.
    rewrite (mapM_ext (visit host self) (visit host self')); [reflexivity|].
    assert (Hf' : forall k, In k (flat_map called args) ->
                            funcs self !! k = funcs self' !! k)
      by (intros k Hk; apply Hf; right; exact Hk).
    apply Forall_flat_map_in in Hn. apply Forall_flat_map_in in Hf'.
    clear -H Hn Hf'. induction H; constructor; inversion Hn; inversion Hf'; subst; auto.
  - cbn. rewrite <- (Hn (lower id)) by (left; reflexivity). reflexivity.
  - cbn in Hn, Hf. cbn. unfold bind.
    rewrite (mapM_ext (visit host self) (visit host self')); [reflexivity|].
    apply Forall_flat_map_in in Hn. apply Forall_flat_map_in in Hf.
    clear -H Hn Hf. induction H; constructor; inversion Hn; inversion Hf; subst; auto.
  - cbn in Hn, Hf. cbn. unfold bind.
    rewrite (mapM_ext (visit host self) (visit host self')); [reflexivity|].
    apply Forall_flat_map_in in Hn. apply Forall_flat_map_in in Hf.
    clear -H Hn Hf. induction H; constructor; inversion Hn; inversion Hf; subst; auto.
  - reflexivity.
Qed.

(** Only the six trigonometric entries of the table are built from the
    engine's mode. *)
Lemma function_table_mode {W} (host : Host W) self self' k :
  ~ In k trig_names ->
  _prepare_functions host self !! k = _prepare_functions host self' !! k.
Proof.
  intros H. unfold _prepare_functions. cbn [list_to_map foldr uncurry].
  unfold trig_names in H. cbn [In] in H.
  do 6 (rewrite lookup_insert_ne by (intros <-; tauto)).
  symmetry.
  do 6 (rewrite lookup_insert_ne by (intros <-; tauto)).
  reflexivity.
Qed.

(** X6: the angle mode matters only to a text that calls one of sin, cos,
    tan, sec, csc and cot: on any other text two engines return the same
    result and leave the generator in the same state, whatever their
    modes. *)
Theorem X6_mode_matters_only_to_trigonometry :
  forall W (host : Host W) (self self' : CalculatorEngine) text node,
    ast_parse host (prepare_text text) = Some node ->
    (forall k, In k (called node) -> ~ In k trig_names) ->
    (forall w, calculate host self text w = calculate host self' text w)
    /\ (forall x w, evaluate_for_x host self text x w = evaluate_for_x host self' text x w).
Proof.
  intros W host self self' text node Hparse Hfree.
  assert (H : forall extra w,
             evaluate host self extra text w = evaluate host self' extra text w).
  { intros extra w. rewrite !(evaluate_parsed host _ extra text node w Hparse).
    apply visit_ext; [reflexivity|].
    intros k Hk. cbn [funcs]. apply function_table_mode, Hfree, Hk. }
  split.
  - intros w. unfold calculate, try_except. rewrite H. reflexivity.
  - intros x w. unfold evaluate_for_x, try_except. rewrite H. reflexivity.
Qed.

Lemma X6_witness :
  calculate (cpython series.lib) degrees "log(100) + 2^10" rng0
  = calculate (cpython series.lib) radians "log(100) + 2^10" rng0.
Proof.
  refine (proj1 (X6_mode_matters_only_to_trigonometry rng (cpython series.lib) degrees radians
                   "log(100) + 2^10"
                   (ast.Expression
                      (ast.BinOp
                         (ast.Call (ast.Name "log") [ast.Constant (VInt 100)] [])
                         ast.Add
                         (ast.BinOp (ast.Constant (VInt 2)) ast.Pow
                            (ast.Constant (VInt 10)))))
                   eq_refl _) rng0).
  intros k Hk Hin. cbn in Hk, Hin.
  destruct Hk as [<-|[]].
  repeat (destruct Hin as [Hin|Hin]; [discriminate Hin|]). exact Hin.
Defined.

(** X7: the value bound to x reaches the result only through the name x
    (in either case).  On a text that does not mention it, evaluate_for_x
    returns at every x what the evaluation behind calculate returns, and None
    when that raises; the generator ends in the same state. *)
Theorem X7_x_is_read_only_through_its_name :
  forall W (host : Host W) (self : CalculatorEngine) text node,
    ast_parse host (prepare_text text) = Some node ->
    ~ In "x" (free_names node) ->
    forall x w,
      evaluate_for_x host self text x w
      = (Return (value_or_none (fst (evaluate host self None text w))),
         snd (evaluate host self None text w)).
Proof.
  intros W host self text node Hparse Hfree x w.
  assert (H : evaluate host self (Some [("x", x)]) text w = evaluate host self None text w).
  { rewrite !(evaluate_parsed host self _ text node w Hparse).
    apply visit_ext; [|reflexivity].
    intros k Hk. cbn [names].
    change (_prepare_names (Some [("x", x)])) with (<["x" := x]> (_prepare_names None)).
    apply lookup_insert_ne. intros <-. contradiction. }
  unfold evaluate_for_x, try_except. rewrite H.
  destruct (evaluate host self None text w) as [[v|e] w']; [reflexivity|].
  cbn. destruct (exn_class e); reflexivity.
Qed.

Lemma X7_witness :
  evaluate_for_x (cpython series.lib) degrees "2*3 + 1" (VFloat 0.5) rng0
  = (Return (VInt 7), rng0).
Proof.
  refine (X7_x_is_read_only_through_its_name rng (cpython series.lib) degrees "2*3 + 1"
            (ast.Expression
               (ast.BinOp
                  (ast.BinOp (ast.Constant (VInt 2)) ast.Mult (ast.Constant (VInt 3)))
                  ast.Add (ast.Constant (VInt 1))))
            eq_refl _ (VFloat 0.5) rng0).
  cbn. tauto.
Defined.

(** ** The exceptions that leave the evaluator *)

Section Exceptions.

Context {W : Type} (host : Host W).

Lemma mapM_raise_inv {A B} (f : A -> M W B) l w e w' :
  mapM f l w = (Raise e, w') -> Exists (fun x => exists w1, f x w1 = (Raise e, w')) l.
Proof.
  revert w. induction l as [|x l IH]; intros w; [discriminate|].
  cbn. unfold bind at 1.
  destruct (f x w) as [[y|e1] w1] eqn:Hx.
  - unfold bind at 1. destruct (mapM f l w1) as [[ys|e2] w2] eqn:Hl.
    + discriminate.
    + intros H. injection H as -> ->. apply Exists_cons_tl. eapply IH, Hl.
  - intros H. injection H as -> ->. apply Exists_cons_hd. eauto.
Qed.

Lemma compare_step_raises op result left_ right_ w e w' :
  compare_step host op result left_ right_ w = (Raise e, w') ->
  exn_class e = EvalError \/ from_compare host e.
Proof.
  unfold compare_step, from_compare.
  destruct op; cbn;
    try (destruct result; cbn; unfold lift;
         [intros H; injection H as H0 _; right; do 3 eexists;
          split; [|exact H0]; reflexivity|discriminate]);
    intros H; injection H as <- _; left; reflexivity.
Qed.

Lemma compare_loop_raise_inv (f : ast.node -> M W value) comparators :
  forall ops left_ result w e w',
    compare_loop host f ops comparators left_ result w = (Raise e, w') ->
    Exists (fun x => exists w1, f x w1 = (Raise e, w')) comparators
    \/ exn_class e = EvalError \/ from_compare host e.
Proof.
  induction comparators as [|c cs IH]; intros ops left_ result w e w'.
  - destruct ops; discriminate.
  - destruct ops as [|op ops]; [discriminate|].
    cbn. unfold bind at 1.
    destruct (f c w) as [[right_|e1] w1] eqn:Hc.
    + unfold bind at 1.
      destruct (compare_step host op result left_ right_ w1) as [[result'|e2] w2] eqn:Hs.
      * intros H. apply IH in H. destruct H as [H|H]; [left|right; exact H].
        apply Exists_cons_tl, H.
      * intros H. injection H as -> ->. right. eapply compare_step_raises, Hs.
    + intros H. injection H as -> ->. left. apply Exists_cons_hd. eauto.
Qed.

Lemma apply_binop_raises op a b w e w' :
  apply_binop host op a b w = (Raise e, w') -> exn_class e = EvalError.
Proof.
  unfold apply_binop. destruct (in_ops op).
  - destruct (py_binop host op a b) as [v|e1]; [discriminate|].
    destruct (exn_class e1); intros H; injection H as <- _; reflexivity.
  - intros H; injection H as <- _; reflexivity.
Qed.

Lemma apply_unaryop_raises op v w e w' :
  apply_unaryop host op v w = (Raise e, w') ->
  exn_class e = EvalError \/ from_unaryop host e.
Proof.
  unfold apply_unaryop, from_unaryop, lift. destruct op.
  - intros H. injection H as H0 _. right. eauto.
  - intros H. injection H as H0 _. right. eauto.
  - discriminate.
  - intros H. injection H as <- _. left. reflexivity.
Qed.

Lemma call_native_raises (fn : list value -> M W value) args w e w' :
  call_native fn args w = (Raise e, w') -> exn_class e = EvalError.
Proof.
  unfold call_native, try_except.
  destruct (fn args w) as [[v|e1] w1]; [discriminate|].
  destruct (exn_class e1); intros H; injection H as <- _; reflexivity.
Qed.

(** Where an exception comes from that leaves the evaluator. *)
Lemma visit_raises_cases (self : SafeEvaluator) node :
  forall w e w', visit host self node w = (Raise e, w') -> leaves host e.
Proof.
  assert (Hlist : forall l w e w',
             Forall (fun node => forall w e w',
                         visit host self node w = (Raise e, w') -> leaves host e) l ->
             mapM (visit host self) l w = (Raise e, w') -> leaves host e).
  { intros l w e w' HF H. apply mapM_raise_inv in H.
    rewrite Forall_forall in HF. apply Exists_exists in H.
    destruct H as (x & Hin & w1 & Hx). eapply HF; eauto. }
  assert (Heval : forall e, exn_class e = EvalError -> leaves host e) by (intros; left; assumption).
  induction node using node_induction; intros w e w'.
  - apply IHnode.
  - discriminate.
  - discriminate.
  - cbn. unfold bind.
    destruct (visit host self node w) as [[v|e1] w1] eqn:Hv.
    + intros H. apply apply_unaryop_raises in H. unfold leaves. tauto.
    + intros H. injection H as -> ->. eapply IHnode, Hv.
  - cbn. unfold bind at 1.
    destruct (visit host self node1 w) as [[a|e1] w1] eqn:Ha.
    + unfold bind at 1.
      destruct (visit host self node2 w1) as [[b|e2] w2] eqn:Hb.
      * intros H. eapply Heval, apply_binop_raises, H.
      * intros H. injection H as -> ->. eapply IHnode2, Hb.
    + intros H. injection H as -> ->. eapply IHnode1, Ha.
  - cbn. unfold bind.
    destruct (mapM (visit host self) values w) as [[vs|e1] w1] eqn:Hvs; [discriminate|].
    intros Heq. injection Heq as -> ->. eapply Hlist; eauto.
  - cbn. unfold bind at 1.
    destruct (visit host self node w) as [[a|e1] w1] eqn:Ha.
    + intros Hl. apply compare_loop_raise_inv in Hl.
      destruct Hl as [Hl|Hl]; [|unfold leaves; tauto].
      rewrite Forall_forall in H. apply Exists_exists in Hl.
      destruct Hl as (x & Hin & w2 & Hx). eapply H; eauto.
    + intros Heq. injection Heq as -> ->. eapply IHnode, Ha.
  - destruct node; try (intros Heq; injection Heq as <- _; apply Heval; reflexivity).
    cbn. destruct (funcs self !! lower id) as [fn|].
    + unfold bind.
      destruct (mapM (visit host self) args w) as [[vs|e1] w1] eqn:Hvs.
      * intros Hc. eapply Heval, call_native_raises, Hc.
      * intros Heq. injection Heq as -> ->. eapply Hlist; eauto.
    + intros Heq; injection Heq as <- _; apply Heval; reflexivity.
  - cbn. destruct (names self !! lower id); [discriminate|].
    intros Heq; injection Heq as <- _; apply Heval; reflexivity.
  - cbn. unfold bind.
    destruct (mapM (visit host self) elts w) as [[vs|e1] w1] eqn:Hvs; [discriminate|].
    intros Heq. injection Heq as -> ->. eapply Hlist; eauto.
  - cbn. unfold bind.
    destruct (mapM (visit host self) elts w) as [[vs|e1] w1] eqn:Hvs; [discriminate|].
    intros Heq. injection Heq as -> ->. eapply Hlist; eauto.
  - intros Heq; injection Heq as <- _; apply Heval; reflexivity.
Qed.

End Exceptions.



(** On the reference host a unary operator or a comparison raises nothing
    but TypeError. *)
Lemma order_raises op : forall a b e, py.order op a b = Raise e -> exn_class e = TypeError.
Proof.
  fix IH 1. intros a b e.
  destruct a; destruct b; cbn;
    try discriminate; try (intros H; injection H as <-; reflexivity).
  - revert items0. induction items as [|x xs IHxs]; intros ys.
    + destruct ys; discriminate.
    + destruct ys as [|y ys]; [discriminate|].
      destruct (py.equal x y); [apply IHxs|apply IH].
  - revert items0. induction items as [|x xs IHxs]; intros ys.
    + destruct ys; discriminate.
    + destruct ys as [|y ys]; [discriminate|].
      destruct (py.equal x y); [apply IHxs|apply IH].
Qed.

Lemma cpython_from_unaryop lm e : from_unaryop (cpython lm) e -> exn_class e = TypeError.
Proof.
  intros [v [H|H]]; cbn in H; unfold py.pos, py.neg in H;
    destruct (py.as_number v) as [[z|f]|]; try discriminate;
    injection H as <-; reflexivity.
Qed.

Lemma cpython_from_compare lm e : from_compare (cpython lm) e -> exn_class e = TypeError.
Proof.
  intros (op & a & b & Hop & H). cbn in H. unfold py.compare in H.
  destruct op; try discriminate; eapply order_raises, H.
Qed.

Lemma cpython_unaryop_no_zero_division lm e :
  from_unaryop (cpython lm) e -> exn_class e <> ZeroDivisionError.
Proof. intros H. rewrite (cpython_from_unaryop lm e H). discriminate. Qed.

Lemma cpython_compare_no_zero_division lm e :
  from_compare (cpython lm) e -> exn_class e <> ZeroDivisionError.
Proof. intros H. rewrite (cpython_from_compare lm e H). discriminate. Qed.

(** X9: where the host's unary operators and comparisons raise no
    ZeroDivisionError (as on numbers, strings and sequences), the handler of
    ZeroDivisionError in calculate is never entered: a failed evaluation is
    reported as 'Error: ' and the message when an EvalError was raised, and
    as the bare 'Error' otherwise. *)
Theorem X9_zero_division_handler_is_never_entered :
  forall W (host : Host W),
    (forall e, from_unaryop host e -> exn_class e <> ZeroDivisionError) ->
    (forall e, from_compare host e -> exn_class e <> ZeroDivisionError) ->
    forall self text w e w',
      evaluate host self None text w = (Raise e, w') ->
      calculate host self text w
      = (Return (VStr match exn_class e with
                      | EvalError => "Error: " +:+ exn_msg e
                      | _ => "Error"
                      end), w').
Proof.
  intros W host Hu Hc self text w e w' He. unfold calculate, try_except. rewrite He.
  assert (Hcls : exn_class e <> ZeroDivisionError).
  { unfold evaluate in He.
    destruct (ast_parse host (prepare_text text)) as [node|].
    - apply visit_raises_cases in He. destruct He as [He|[He|He]]; [congruence|auto|auto].
    - injection He as <- _. discriminate. }
  destruct (exn_class e); try reflexivity. contradiction.
Qed.

Lemma X9_witness :
  calculate (cpython series.lib) new_engine "-[] + 1/0" rng0
  = (Return (VStr "Error"), rng0).
Proof.
  apply (X9_zero_division_handler_is_never_entered rng (cpython series.lib)
           (cpython_unaryop_no_zero_division series.lib)
           (cpython_compare_no_zero_division series.lib)
           new_engine "-[] + 1/0" rng0
           (Exn TypeError "bad operand type for unary -: 'list'") rng0).
  reflexivity.
Defined.

(** ** The function table at work *)

Section Calls.

Context {W : Type} (host : Host W).

(** A call whose arguments evaluate is the table entry applied to their
    values, under the two handlers of [visit_Call]. *)
Lemma visit_call_evaluated (self : SafeEvaluator) id fn args kws vs w w1 :
  funcs self !! lower id = Some fn ->
  evals_seq (visit host self) args w vs w1 ->
  visit host self (ast.Call (ast.Name id) args kws) w = call_native fn vs w1.
Proof.
  intros Hfn Hargs. cbn. rewrite Hfn. unfold bind.
  rewrite (mapM_evals _ _ _ _ _ Hargs). reflexivity.
Qed.

Lemma call_native_lift (r : res value) (fn : native) vs (w : W) :
  fn vs w = (r, w) -> call_native fn vs w = converted call_error r w.
Proof.
  intros H. unfold call_native, try_except, converted, call_error. rewrite H.
  destruct r as [v|e]; [reflexivity|]. destruct (exn_class e); reflexivity.
Qed.

Lemma visit_call_one (self : SafeEvaluator) id fn a kws w :
  funcs self !! lower id = Some fn ->
  visit host self (ast.Call (ast.Name id) [a] kws) w
  = match visit host self a w with
    | (Return x, w1) => call_native fn [x] w1
    | (Raise e, w1) => (Raise e, w1)
    end.
Proof.
  intros Hfn. cbn. rewrite Hfn. unfold bind, ret.
  destruct (visit host self a w) as [[x|e] w1]; reflexivity.
Qed.

Lemma visit_binop_constant (self : SafeEvaluator) c op r w :
  visit host self (ast.BinOp (ast.Constant c) op r) w
  = match visit host self r w with
    | (Return y, w1) => apply_binop host op c y w1
    | (Raise e, w1) => (Raise e, w1)
    end.
Proof. reflexivity. Qed.

End Calls.

(** X10: sin, cos, tan, sec, csc, cot, factorial, mod and rand take exactly
    one, one, one, one, one, one, one, two and no argument.  Called with any
    other number of arguments, the call fails once the arguments are
    evaluated, with 'Function call error: ' and the interpreter's message
    for the lambda; neither the library function nor the generator is
    consulted. *)
Theorem X10_fixed_arity_functions_reject_other_argument_counts :
  forall W (host : Host W) (self : CalculatorEngine) names name scope params
         args kws vs w w1,
    In (name, (scope, params)) fixed_arity ->
    evals_seq
      (visit host {| funcs := _prepare_functions host self; names := names |})
      args w vs w1 ->
    length args <> length params ->
    visit host {| funcs := _prepare_functions host self; names := names |}
      (ast.Call (ast.Name name) args kws) w
    = (Raise (Exn EvalError
                ("Function call error: "
                 +:+ arity_msg host (qualname scope) params (length args))), w1).
Proof.
  intros W host self names name scope params args kws vs w w1 Hin Hargs Hlen.
  rewrite <- (evals_seq_length _ _ _ _ _ Hargs) in *.
  unfold fixed_arity in Hin. cbn [In] in Hin.
  repeat (destruct Hin as [Hin|Hin];
          [injection Hin as <- <- <-;
           erewrite visit_call_evaluated by (try reflexivity; exact Hargs);
           unfold _angle_wrapper, reciprocal;
           try destruct (String.eqb (mode self) "rad");
           destruct vs as [|v1 [|v2 [|v3 vs]]]; try (exfalso; apply Hlen; reflexivity);
           reflexivity|]).
  destruct Hin.
Qed.

Lemma X10_witness :
  visit (cpython series.lib)
    {| funcs := _prepare_functions (cpython series.lib) new_engine;
       names := _prepare_names None |}
    (ast.Call (ast.Name "mod") [ast.Constant (VInt 7)] []) rng0
  = (Raise (Exn EvalError
              ("Function call error: CalculatorEngine._prepare_functions.<locals>.<lambda>() "
               +:+ "missing 1 required positional argument: 'b'")), rng0).
Proof.
  refine (X10_fixed_arity_functions_reject_other_argument_counts rng (cpython series.lib)
            new_engine (_prepare_names None)
            "mod" "_prepare_functions" ["a"; "b"] [ast.Constant (VInt 7)] [] [VInt 7]
            rng0 rng0 _ _ _).
  - cbn. tauto.
  - econstructor; [reflexivity|constructor].
  - discriminate.
Defined.

(** X11: std, stdev and variance need two values.  With fewer, the call
    fails once the arguments are evaluated with 'Need ≥2 values for stdev'
    (also for std) or 'Need ≥2 values for variance', and the statistics
    library is not consulted. *)
Theorem X11_deviation_needs_two_values :
  forall W (host : Host W) (self : CalculatorEngine) names name what args kws vs w w1,
    In (name, what) needs_two_values ->
    evals_seq
      (visit host {| funcs := _prepare_functions host self; names := names |})
      args w vs w1 ->
    (length args < 2)%nat ->
    visit host {| funcs := _prepare_functions host self; names := names |}
      (ast.Call (ast.Name name) args kws) w
    = (Raise (Exn EvalError ("Need ≥2 values for " +:+ what)), w1).
Proof.
  intros W host self names name what args kws vs w w1 Hin Hargs Hlen.
  rewrite <- (evals_seq_length _ _ _ _ _ Hargs) in *.
  unfold needs_two_values in Hin. cbn [In] in Hin.
  repeat (destruct Hin as [Hin|Hin];
          [injection Hin as <- <-;
           erewrite visit_call_evaluated by (try reflexivity; exact Hargs);
           destruct vs as [|v1 [|v2 vs]]; [reflexivity|reflexivity|cbn in Hlen; lia]|]).
  destruct Hin.
Qed.

Lemma X11_witness :
  calculate (cpython series.lib) new_engine "std(4)" rng0
  = (Return (VStr "Error: Need ≥2 values for stdev"), rng0).
Proof.
  unfold calculate, try_except.
  rewrite (evaluate_parsed (cpython series.lib) new_engine None "std(4)"
             (ast.Expression (ast.Call (ast.Name "std") [ast.Constant (VInt 4)] []))
             rng0 eq_refl).
  change (visit (cpython series.lib) ?ev (ast.Expression ?body) rng0)
    with (visit (cpython series.lib) ev body rng0).
  rewrite (X11_deviation_needs_two_values rng (cpython series.lib) new_engine
             (_prepare_names None)
             "std" "stdev" [ast.Constant (VInt 4)] [] [VInt 4] rng0 rng0).
  - reflexivity.
  - cbn. tauto.
  - econstructor; [reflexivity|constructor].
  - cbn. lia.
Defined.

(** X12: sec, csc and cot are one over cos, sin and tan in either mode.
    When the call of the underlying function fails, the reciprocal fails with
    the same error; otherwise it is the host's division of 1 by the result.
    The operator form 1/cos(a) gives the same value, and differs only in the
    message of a failed division: the call reports the host's message
    (behind 'Function call error: ' for a TypeError), the operator reports
    'Division by zero' for a ZeroDivisionError. *)
Theorem X12_reciprocals_divide_one_by_the_function :
  forall W (host : Host W) (self : CalculatorEngine) names r t a kws w,
    In (r, t) reciprocals ->
    match visit host {| funcs := _prepare_functions host self; names := names |}
            (ast.Call (ast.Name t) [a] kws) w with
    | (Raise e, w1) =>
        visit host {| funcs := _prepare_functions host self; names := names |}
          (ast.Call (ast.Name r) [a] kws) w = (Raise e, w1)
        /\ visit host {| funcs := _prepare_functions host self; names := names |}
             (ast.BinOp (ast.Constant (VInt 1)) ast.Div (ast.Call (ast.Name t) [a] kws)) w
           = (Raise e, w1)
    | (Return y, w1) =>
        visit host {| funcs := _prepare_functions host self; names := names |}
          (ast.Call (ast.Name r) [a] kws) w
        = converted call_error (py_binop host ast.Div (VInt 1) y) w1
        /\ visit host {| funcs := _prepare_functions host self; names := names |}
             (ast.BinOp (ast.Constant (VInt 1)) ast.Div (ast.Call (ast.Name t) [a] kws)) w
           = converted binop_error (py_binop host ast.Div (VInt 1) y) w1
    end.
Proof.
  intros W host self names r t a kws w Hin.
  unfold reciprocals in Hin. cbn [In] in Hin.
  set (ev := {| funcs := _prepare_functions host self; names := names |}).
  assert (Hcases :
    forall trig r' t',
      funcs ev !! lower t' = Some (_angle_wrapper host self trig) ->
      funcs ev !! lower r' = Some (reciprocal host (_angle_wrapper host self trig)) ->
      match visit host ev (ast.Call (ast.Name t') [a] kws) w with
      | (Raise e, w1) =>
          visit host ev (ast.Call (ast.Name r') [a] kws) w = (Raise e, w1)
          /\ visit host ev
               (ast.BinOp (ast.Constant (VInt 1)) ast.Div (ast.Call (ast.Name t') [a] kws)) w
             = (Raise e, w1)
      | (Return y, w1) =>
          visit host ev (ast.Call (ast.Name r') [a] kws) w
          = converted call_error (py_binop host ast.Div (VInt 1) y) w1
          /\ visit host ev
               (ast.BinOp (ast.Constant (VInt 1)) ast.Div (ast.Call (ast.Name t') [a] kws)) w
             = converted binop_error (py_binop host ast.Div (VInt 1) y) w1
      end).
  { intros trig r' t' Ht Hr.
    rewrite !visit_binop_constant, (visit_call_one host ev t' _ a kws w Ht),
      (visit_call_one host ev r' _ a kws w Hr).
    destruct (visit host ev a w) as [[x|e] w1]; [|split; reflexivity].
    unfold call_native, try_except, reciprocal, _angle_wrapper.
    destruct (String.eqb (mode self) "rad"); unfold lambda1, bind, lift.
    - destruct (trig x) as [y|e]; [|destruct (exn_class e); split; reflexivity].
      unfold apply_binop, converted, call_error, binop_error, DivisionByZero. cbn.
      destruct (py_binop host ast.Div (VInt 1) y) as [v|e]; [split; reflexivity|].
      destruct (exn_class e); split; reflexivity.
    - destruct (math_radians host x) as [x'|e];
        [|destruct (exn_class e); split; reflexivity].
      destruct (trig x') as [y|e]; [|destruct (exn_class e); split; reflexivity].
      unfold apply_binop, converted, call_error, binop_error, DivisionByZero. cbn.
      destruct (py_binop host ast.Div (VInt 1) y) as [v|e]; [split; reflexivity|].
      destruct (exn_class e); split; reflexivity. }
  destruct Hin as [Hin|[Hin|[Hin|[]]]]; injection Hin as <- <-.
  - apply (Hcases (math_cos host)); reflexivity.
  - apply (Hcases (math_sin host)); reflexivity.
  - apply (Hcases (math_tan host)); reflexivity.
Qed.

Lemma X12_witness :
  visit (cpython series.lib)
    {| funcs := _prepare_functions (cpython series.lib) degrees;
       names := _prepare_names None |}
    (ast.Call (ast.Name "cot") [ast.Constant (VInt 0)] []) rng0
  = (Raise (Exn EvalError "float division by zero"), rng0)
  /\ visit (cpython series.lib)
       {| funcs := _prepare_functions (cpython series.lib) degrees;
          names := _prepare_names None |}
       (ast.BinOp (ast.Constant (VInt 1)) ast.Div
          (ast.Call (ast.Name "tan") [ast.Constant (VInt 0)] [])) rng0
     = (Raise (Exn EvalError "Division by zero"), rng0).
Proof.
  refine (X12_reciprocals_divide_one_by_the_function rng (cpython series.lib) degrees
            (_prepare_names None) "cot" "tan" (ast.Constant (VInt 0)) [] rng0 _).
  cbn. tauto.
Defined.

(** X13: log dispatches on the number of its arguments once they are
    evaluated: with one it is the host's log10, with two or more it is the
    host's log of the first to the base of the second, the further ones
    being evaluated and ignored, and with none it fails on the first index
    with 'tuple index out of range'.  ln hands all its arguments to the
    host's log, so that ln and log agree on two arguments. *)
Theorem X13_log_dispatches_on_the_argument_count :
  forall W (host : Host W) (self : CalculatorEngine) names args kws vs w w1,
    evals_seq
      (visit host {| funcs := _prepare_functions host self; names := names |})
      args w vs w1 ->
    visit host {| funcs := _prepare_functions host self; names := names |}
      (ast.Call (ast.Name "log") args kws) w
    = match vs with
      | [] => (Raise (Exn EvalError "tuple index out of range"), w1)
      | [x] => converted call_error (math_log10 host x) w1
      | x :: b :: _ => converted call_error (math_log host [x; b]) w1
      end
    /\ visit host {| funcs := _prepare_functions host self; names := names |}
         (ast.Call (ast.Name "ln") args kws) w
       = converted call_error (math_log host vs) w1.
Proof.
  intros W host self names args kws vs w w1 Hargs. split.
  - erewrite visit_call_evaluated by (try reflexivity; exact Hargs).
    destruct vs as [|x [|b vs]]; [reflexivity| |];
      apply call_native_lift; reflexivity.
  - erewrite visit_call_evaluated by (try reflexivity; exact Hargs).
    apply call_native_lift. reflexivity.
Qed.

Lemma X13_witness :
  visit (cpython series.lib)
    {| funcs := _prepare_functions (cpython series.lib) new_engine;
       names := _prepare_names None |}
    (ast.Call (ast.Name "log") [] []) rng0
  = (Raise (Exn EvalError "tuple index out of range"), rng0).
Proof.
  refine (proj1 (X13_log_dispatches_on_the_argument_count rng (cpython series.lib)
                   new_engine (_prepare_names None) [] [] [] rng0 rng0 _)).
  constructor.
Defined.

(** ** Randomness *)

Section Stateless.

Context {W : Type} (host : Host W).

Lemma stateless_ret {A} (a : A) : stateless (W := W) (ret a).
Proof. exists (Return a). reflexivity. Qed.

Lemma stateless_raise {A} e : stateless (W := W) (A := A) (raise e).
Proof. exists (Raise e). reflexivity. Qed.

Lemma stateless_lift {A} (r : res A) : stateless (W := W) (lift r).
Proof. exists r. reflexivity. Qed.

Lemma stateless_bind {A B} (c : M W A) (k : A -> M W B) :
  stateless c -> (forall a, stateless (k a)) -> stateless (bind c k).
Proof.
  intros [[a|e] Hc] Hk.
  - destruct (Hk a) as [r Hr]. exists r. intros w. unfold bind. rewrite Hc. apply Hr.
  - exists (Raise e). intros w. unfold bind. rewrite Hc. reflexivity.
Qed.

Lemma stateless_try_except {A} (c : M W A) (h : exn -> M W A) :
  stateless c -> (forall e, stateless (h e)) -> stateless (try_except c h).
Proof.
  intros [[a|e] Hc] Hh.
  - exists (Return a). intros w. unfold try_except. rewrite Hc. reflexivity.
  - destruct (Hh e) as [r Hr]. exists r. intros w. unfold try_except. rewrite Hc. apply Hr.
Qed.

Lemma stateless_mapM {A B} (f : A -> M W B) l :
  Forall (fun x => stateless (f x)) l -> stateless (mapM f l).
Proof.
  induction 1 as [|x l Hx _ IH]; [apply stateless_ret|].
  cbn. apply stateless_bind; [exact Hx|]. intros y.
  apply stateless_bind; [exact IH|]. intros ys. apply stateless_ret.
Qed.

Lemma stateless_apply_binop op a b : stateless (apply_binop host op a b).
Proof.
  unfold apply_binop. destruct (in_ops op); [|apply stateless_raise].
  destruct (py_binop host op a b) as [v|e]; [apply stateless_ret|].
  destruct (exn_class e); apply stateless_raise.
Qed.

Lemma stateless_apply_unaryop op v : stateless (apply_unaryop host op v).
Proof.
  destruct op; cbn;
    first [apply stateless_lift|apply stateless_ret|apply stateless_raise].
Qed.

Lemma stateless_compare_step op result a b : stateless (compare_step host op result a b).
Proof.
  destruct op; cbn; try apply stateless_raise;
    destruct result; first [apply stateless_lift|apply stateless_ret].
Qed.

Lemma stateless_compare_loop (f : ast.node -> M W value) comparators :
  Forall (fun x => stateless (f x)) comparators ->
  forall ops left_ result, stateless (compare_loop host f ops comparators left_ result).
Proof.
  induction 1 as [|c cs Hc _ IH]; intros ops left_ result.
  - destruct ops; apply stateless_ret.
  - destruct ops as [|op ops]; [apply stateless_ret|].
    cbn. apply stateless_bind; [exact Hc|]. intros right_.
    apply stateless_bind; [apply stateless_compare_step|]. intros result'. apply IH.
Qed.

Lemma stateless_call_native (fn : list value -> M W value) vs :
  stateless (fn vs) -> stateless (call_native fn vs).
Proof.
  intros H. apply stateless_try_except; [exact H|].
  intros e. destruct (exn_class e); apply stateless_raise.
Qed.

Lemma stateless_index (a : list value) i : stateless (W := W) (index a i).
Proof. unfold index. destruct (nth_error a i); [apply stateless_ret|apply stateless_raise]. Qed.

Lemma stateless_lambda1 scope x (body : value -> M W value) vs :
  (forall a, stateless (body a)) -> stateless (lambda1 host scope x body vs).
Proof.
  intros H. unfold lambda1. destruct vs as [|a [|b vs]]; auto using stateless_raise.
Qed.

Lemma stateless_angle_wrapper self trig vs : stateless (_angle_wrapper host self trig vs).
Proof.
  unfold _angle_wrapper. destruct (String.eqb (mode self) "rad");
    apply stateless_lambda1; intros a; [apply stateless_lift|].
  apply stateless_bind; [apply stateless_lift|]. intros r. apply stateless_lift.
Qed.

Lemma stateless_reciprocal (f : list value -> M W value) vs :
  (forall vs, stateless (f vs)) -> stateless (reciprocal host f vs).
Proof.
  intros H. apply stateless_lambda1. intros a.
  apply stateless_bind; [apply H|]. intros y. apply stateless_lift.
Qed.

Lemma stateless_needs_two f msg vs : stateless (needs_two (W := W) f msg vs).
Proof.
  unfold needs_two. destruct (1 <? length vs)%nat;
    [apply stateless_lift|apply stateless_raise].
Qed.

(** Every entry of the function table but rand and choice leaves the
    generator alone. *)
Lemma function_table_stateless self k fn vs :
  _prepare_functions host self !! k = Some fn ->
  ~ In k random_names ->
  stateless (fn vs).
Proof.
  intros Hk Hout. unfold _prepare_functions in Hk.
  apply (elem_of_list_to_map_2 (M := gmap string)) in Hk.
  unfold random_names in Hout. cbn [In] in Hout.
  repeat (apply elem_of_cons in Hk as [Hk|Hk];
          [injection Hk as -> ->;
           first [ apply stateless_angle_wrapper
                 | apply stateless_reciprocal; intros; apply stateless_angle_wrapper
                 | apply stateless_needs_two
                 | apply stateless_lift
                 | idtac ]|]).
  all: try (exfalso; tauto).
  - destruct vs as [|x [|b vs]]; [| apply stateless_lift |];
      (apply stateless_bind; [apply stateless_index|]; intros x';
       apply stateless_bind; [apply stateless_index|]; intros b'; apply stateless_lift).
  - destruct vs; [apply stateless_ret|apply stateless_lift].
  - unfold _safe_mode. apply stateless_try_except; [apply stateless_lift|].
    intros e. destruct (exn_class e); first [apply stateless_ret|apply stateless_raise].
  - apply stateless_lambda1. intros n.
    apply stateless_bind; [apply stateless_lift|]. intros i. apply stateless_lift.
  - unfold lambda2. destruct vs as [|a [|b [|c vs]]];
      first [apply stateless_raise|apply stateless_lift].
  - apply elem_of_nil in Hk. destruct Hk.
Qed.

Lemma visit_stateless (self : CalculatorEngine) bindings node :
  (forall k, In k (called node) -> ~ In k random_names) ->
  stateless (visit host {| funcs := _prepare_functions host self; names := bindings |} node).
Proof.
  set (ev := {| funcs := _prepare_functions host self; names := bindings |}).
  assert (Hlist : forall l,
             Forall (fun node => (forall k, In k (called node) -> ~ In k random_names) ->
                                 stateless (visit host ev node)) l ->
             (forall k, In k (flat_map called l) -> ~ In k random_names) ->
             Forall (fun x => stateless (visit host ev x)) l).
  { intros l HF Hc. apply Forall_flat_map_in in Hc.
    induction HF; constructor; inversion Hc; subst; auto. }
  induction node using node_induction; intros Hc.
  - apply IHnode, Hc.
  - apply stateless_ret.
  - apply stateless_ret.
  - cbn [visit]. apply stateless_bind; [apply IHnode, Hc|].
    intros v. apply stateless_apply_unaryop.
  - cbn [visit]. cbn in Hc.
    apply stateless_bind;
      [apply IHnode1; intros k Hk; apply Hc, in_or_app; left; exact Hk|].
    intros a. apply stateless_bind;
      [apply IHnode2; intros k Hk; apply Hc, in_or_app; right; exact Hk|].
    intros b. apply stateless_apply_binop.
  - cbn [visit]. apply stateless_bind; [|intros; apply stateless_ret].
    apply stateless_mapM, Hlist; assumption.
  - cbn [visit]. cbn in Hc.
    apply stateless_bind;
      [apply IHnode; intros k Hk; apply Hc, in_or_app; left; exact Hk|].
    intros a. apply stateless_compare_loop, Hlist; [assumption|].
    intros k Hk. apply Hc, in_or_app. right. exact Hk.
  - destruct node; try apply stateless_raise.
    cbn [visit]. cbn zeta. cbn in Hc.
    destruct (funcs ev !! lower id) as [fn|] eqn:Hfn; [|apply stateless_raise].
    apply stateless_bind.
    + apply stateless_mapM, Hlist; [assumption|].
      intros k Hk. apply Hc. right. exact Hk.
    + intros vs. apply stateless_call_native.
      apply (function_table_stateless self (lower id)); [exact Hfn|].
      apply Hc. left. reflexivity.
  - cbn [visit]. cbn zeta.
    destruct (names ev !! lower id); [apply stateless_ret|apply stateless_raise].
  - cbn [visit]. apply stateless_bind; [|intros; apply stateless_ret].
    apply stateless_mapM, Hlist; assumption.
  - cbn [visit]. apply stateless_bind; [|intros; apply stateless_ret].
    apply stateless_mapM, Hlist; assumption.
  - apply stateless_raise.
Qed.

End Stateless.

(** X14: only rand and choice use the random number generator.  On a text
    that calls neither, calculate and evaluate_for_x return the same result
    in every state of the generator and leave the state as it is: evaluating
    such a text again gives the same answer. *)
Theorem X14_only_rand_and_choice_use_the_generator :
  forall W (host : Host W) (self : CalculatorEngine) text node,
    ast_parse host (prepare_text text) = Some node ->
    (forall k, In k (called node) -> ~ In k random_names) ->
    (exists v, forall w, calculate host self text w = (Return v, w))
    /\ (forall x, exists v, forall w, evaluate_for_x host self text x w = (Return v, w)).
Proof.
  intros W host self text node Hparse Hfree. split.
  - destruct (visit_stateless host self (_prepare_names None) node Hfree) as [r Hr].
    exists (report r). intros w.
    rewrite calculate_report, (evaluate_parsed host self None text node w Hparse), Hr.
    reflexivity.
  - intros x.
    destruct (visit_stateless host self (_prepare_names (Some [("x", x)])) node Hfree)
      as [r Hr].
    exists (value_or_none r). intros w. unfold evaluate_for_x, try_except.
    rewrite (evaluate_parsed host self _ text node w Hparse), Hr.
    destruct r as [v|e]; [reflexivity|]. cbn. destruct (exn_class e); reflexivity.
Qed.

Lemma X14_witness :
  exists v, forall w,
    calculate (cpython series.lib) radians "max(2, 3) * x" w = (Return v, w).
Proof.
  refine (proj1 (X14_only_rand_and_choice_use_the_generator rng (cpython series.lib) radians
                   "max(2, 3) * x"
                   (ast.Expression
                      (ast.BinOp
                         (ast.Call (ast.Name "max")
                            [ast.Constant (VInt 2); ast.Constant (VInt 3)] [])
                         ast.Mult (ast.Name "x")))
                   eq_refl _)).
  intros k Hk Hin. cbn in Hk, Hin.
  destruct Hk as [<-|[]].
  destruct Hin as [Hin|[Hin|[]]]; discriminate Hin.
Defined.

(** * Properties of the keypad, the history and the plot *)

Lemma count_app c s t : count c (s +:+ t) = count c s + count c t.
Proof.
  induction s as [|c' s IH]; [reflexivity|].
  change (count c (String c' s +:+ t))
    with ((if Ascii.eqb c' c then 1 else 0) + count c (s +:+ t)).
  rewrite IH. cbn [count]. lia.
Qed.

Lemma count_repeat c c' n :
  count c (py.repeat_string (String c' "") n)
  = if Ascii.eqb c' c then Z.of_nat n else 0.
Proof.
  induction n as [|n IH]; [destruct (Ascii.eqb c' c); reflexivity|].
  change (py.repeat_string (String c' "") (S n))
    with (String c' (py.repeat_string (String c' "") n)).
  cbn [count]. rewrite IH. destruct (Ascii.eqb c' c); lia.
Qed.

Lemma append_empty s : s +:+ "" = s.
Proof.
  induction s as [|c s IH]; [reflexivity|].
  change (String c s +:+ "") with (String c (s +:+ "")). f_equal. exact IH.
Qed.

Lemma append_not_empty s t : s <> "" -> s +:+ t <> "".
Proof. destruct s; [congruence|discriminate]. Qed.

(** The closing parentheses [_evaluate] appends are the missing ones. *)
Lemma closed_balance expr :
  (if 0 <? count "(" expr - count ")" expr
   then expr +:+ py.repeat_string ")" (Z.to_nat (count "(" expr - count ")" expr))
   else expr) = closed expr
  /\ count "(" (closed expr) <= count ")" (closed expr)
  /\ (count "(" expr <= count ")" expr -> closed expr = expr).
Proof.
  unfold closed. rewrite !count_app, !count_repeat. cbn [Ascii.eqb Bool.eqb].
  repeat split.
  - destruct (0 <? count "(" expr - count ")" expr) eqn:E; [reflexivity|].
    apply Z.ltb_ge in E. replace (Z.to_nat _) with 0%nat by lia.
    symmetry. apply append_empty.
  - lia.
  - intros H. replace (Z.to_nat _) with 0%nat by lia. apply append_empty.
Qed.

Section Keypad.

Context {W : Type} (host : Host W) (builtins : Builtins).

Lemma set_mode_for (e : CalculatorEngine) (is_rad : bool) :
  set_mode e (if is_rad then "rad" else "deg") = engine_for is_rad.
Proof. destruct is_rad; reflexivity. Qed.

(** What [_evaluate] does on an entry that is not blank. *)
Lemma evaluate_cases self w :
  str_strip builtins (gui.expr_var self) <> "" ->
  exists v w',
    calculate host (engine_for (gui.is_rad self))
      (closed (str_strip builtins (gui.expr_var self))) w = (Return v, w')
    /\ gui._evaluate host builtins self w
       = match builtin_str builtins v with
         | Return s =>
             (Return tt,
              gui.with_history
                (gui.with_display
                   (gui.with_engine self (engine_for (gui.is_rad self))) s)
                (gui.history self
                 ++ [(closed (str_strip builtins (gui.expr_var self)), s)])%list, w')
         | Raise e =>
             (Raise e, gui.with_engine self (engine_for (gui.is_rad self)), w')
         end.
Proof.
  intros Hexpr. unfold gui._evaluate.
  destruct (String.eqb_spec (str_strip builtins (gui.expr_var self)) "") as [E|_];
    [contradiction|].
  rewrite (proj1 (closed_balance _)).
  set (sent := closed (str_strip builtins (gui.expr_var self))).
  cbn [gui.engine gui.with_engine gui.is_rad]. rewrite set_mode_for.
  destruct (calculate_returns host (engine_for (gui.is_rad self)) sent w)
    as (v & w' & Hv).
  exists v, w'. split; [exact Hv|].
  unfold try_except. rewrite Hv.
  destruct (builtin_str builtins v) as [s|e]; reflexivity.
Qed.

Lemma evaluate_for_x_returns self text x w :
  exists v w', evaluate_for_x host self text x w = (Return v, w').
Proof.
  unfold evaluate_for_x, try_except.
  destruct (evaluate host self (Some [("x", x)]) text w) as [[v|e] w']; [eauto|].
  destruct (exn_class e); cbn; eauto.
Qed.

(** The loop of the plot evaluates the expression at each abscissa in
    turn and never raises. *)
Lemma sampling_spec engine_ expr_ xs_ :
  forall ys_ has_valid w,
  exists vs w',
    evals_seq (fun x => evaluate_for_x host engine_ expr_ (VFloat x)) xs_ w vs w'
    /\ gui.sampling host builtins engine_ expr_ xs_ ys_ has_valid w
       = (Return ((ys_ ++ map (fun v => fst (ordinate builtins v)) vs)%list,
                  has_valid || existsb (fun v => snd (ordinate builtins v)) vs), w').
Proof.
  induction xs_ as [|xv rest IH]; intros ys_ has_valid w.
  - exists [], w. split; [constructor|].
    cbn. rewrite app_nil_r, orb_false_r. reflexivity.
  - destruct (evaluate_for_x_returns engine_ expr_ (VFloat xv) w) as (v & w1 & Hv).
    assert (Hstep :
      gui.sampling host builtins engine_ expr_ (xv :: rest) ys_ has_valid w
      = gui.sampling host builtins engine_ expr_ rest
          (ys_ ++ [fst (ordinate builtins v)])%list
          (has_valid || snd (ordinate builtins v)) w1).
    { cbn [gui.sampling]. unfold bind, try_except. rewrite Hv. unfold ordinate.
      destruct v; try (destruct (builtin_float builtins _); cbn [fst snd];
                       rewrite ?orb_true_r, ?orb_false_r; reflexivity).
      cbn [fst snd]. rewrite orb_false_r. reflexivity. }
    destruct (IH (ys_ ++ [fst (ordinate builtins v)])%list
                (has_valid || snd (ordinate builtins v)) w1) as (vs & w' & Hvs & Hs).
    exists (v :: vs), w'. split; [econstructor; eassumption|].
    rewrite Hstep, Hs. cbn [map existsb]. rewrite <- app_assoc, orb_assoc. reflexivity.
Qed.

End Keypad.

(** X15: the '=' key.  On a blank entry nothing happens.  Otherwise the
    stripped text is evaluated with its missing closing parentheses
    appended, so that the text sent to the engine leaves no parenthesis
    open, and is the stripped text itself when none was open.  The engine
    never raises, so the handler's own 'except' is not entered: the display
    shows the text of the engine's result and the history gains exactly one
    line, the text sent and the text shown; only when str refuses the result
    (an integer beyond the digit limit) does the handler raise, after the
    mode was set and before display and history are touched. *)
Theorem X15_equals_key_closes_parentheses_and_records_the_result :
  forall W (host : Host W) (builtins : Builtins) self w,
    (str_strip builtins (gui.expr_var self) = "" ->
     gui._evaluate host builtins self w = (Return tt, self, w))
    /\ (str_strip builtins (gui.expr_var self) <> "" ->
        count "(" (closed (str_strip builtins (gui.expr_var self)))
        <= count ")" (closed (str_strip builtins (gui.expr_var self)))
        /\ (count "(" (str_strip builtins (gui.expr_var self))
            <= count ")" (str_strip builtins (gui.expr_var self)) ->
            closed (str_strip builtins (gui.expr_var self))
            = str_strip builtins (gui.expr_var self))
        /\ exists v w',
             calculate host (engine_for (gui.is_rad self))
               (closed (str_strip builtins (gui.expr_var self))) w = (Return v, w')
             /\ gui._evaluate host builtins self w
                = match builtin_str builtins v with
                  | Return s =>
                      (Return tt,
                       gui.with_history
                         (gui.with_display
                            (gui.with_engine self (engine_for (gui.is_rad self))) s)
                         (gui.history self
                          ++ [(closed (str_strip builtins (gui.expr_var self)), s)])%list,
                       w')
                  | Raise e =>
                      (Raise e, gui.with_engine self (engine_for (gui.is_rad self)), w')
                  end).
Proof.
  intros W host builtins self w. split.
  - intros E. unfold gui._evaluate. rewrite E. reflexivity.
  - intros Hexpr. split; [apply closed_balance|]. split; [apply closed_balance|].
    apply evaluate_cases, Hexpr.
Qed.

Lemma X15_witness :
  gui._evaluate (cpython series.lib) cpython_builtins
    (gui.with_expr (gui.new_gui cpython_builtins) "  sqrt(16 ") rng0
  = (Return tt,
     gui.with_history
       (gui.with_display
          (gui.with_expr (gui.new_gui cpython_builtins) "  sqrt(16 ") "4.0")
       [("sqrt(16)", "4.0")], rng0).
Proof.
  destruct (proj2 (X15_equals_key_closes_parentheses_and_records_the_result
                     rng (cpython series.lib) cpython_builtins
                     (gui.with_expr (gui.new_gui cpython_builtins) "  sqrt(16 ") rng0))
    as (_ & _ & v & w' & Hv & He); [discriminate|].
  rewrite He.
  assert (Hc : (Return v, w') = (Return (VFloat 4), rng0)) by (rewrite <- Hv; reflexivity).
  injection Hc as -> ->. reflexivity.
Defined.

(** ** The plot *)

Section Plot.

Context {W : Type} (host : Host W) (builtins : Builtins).

Lemma sample_count_at_least_ten self : 10 <= gui.sample_count builtins self.
Proof.
  unfold gui.sample_count.
  destruct (int_of_text builtins (gui.samples_var self)) as [n|e]; [|lia].
  destruct (n <? 10) eqn:E; [lia|]. apply Z.ltb_ge in E. exact E.
Qed.

Lemma next_color_cycle self :
  let '(r, self') := gui.next_color builtins self in
  exists c, self' = gui.with_cycle self c.
Proof.
  unfold gui.next_color.
  destruct (gui.color_cycle self) as [|c rest]; [|eauto].
  destruct (prop_cycle builtins) as [|c rest]; eauto.
Qed.

(** What [_plot_expression] leaves behind: the state as it was but for the
    engine's mode and the colour cycle, or that with one more trace. *)
Lemma plot_expression_cases self add w :
  exists r self' w',
    gui._plot_expression host builtins self add w = (r, self', w')
    /\ ((self' = self /\ w' = w)
        \/ (exists c,
              self' = gui.with_cycle
                        (gui.with_engine self (engine_for (gui.is_rad self))) c)
        \/ (exists c xmin xmax vs t,
              self' = gui.with_traces
                        (gui.with_cycle
                           (gui.with_engine self (engine_for (gui.is_rad self))) c)
                        (if add then (gui.traces self ++ [t])%list else [t])
              /\ r = Return tt
              /\ gui.expr t = str_strip builtins (gui.fx_var self)
              /\ gui.expr t <> ""
              /\ gui.x_range builtins self = Return (xmin, xmax)
              /\ PrimFloat.leb xmax xmin = false
              /\ np_linspace builtins xmin xmax (gui.sample_count builtins self)
                 = Return (gui.xs t)
              /\ evals_seq
                   (fun x => evaluate_for_x host (engine_for (gui.is_rad self))
                               (gui.expr t) (VFloat x))
                   (gui.xs t) w vs w'
              /\ gui.ys t = map (fun v => fst (ordinate builtins v)) vs
              /\ existsb (fun v => snd (ordinate builtins v)) vs = true)).
Proof.
  unfold gui._plot_expression.
  destruct (String.eqb_spec (str_strip builtins (gui.fx_var self)) "") as [E|E];
    [do 3 eexists; split; [reflexivity|left; split; reflexivity]|].
  destruct (gui.x_range builtins self) as [[xmin xmax]|e] eqn:Hrange;
    [|do 3 eexists; split; [reflexivity|left; split; reflexivity]].
  destruct (np_linspace builtins xmin xmax (gui.sample_count builtins self))
    as [xs_|e] eqn:Hxs;
    [|do 3 eexists; split; [reflexivity|left; split; reflexivity]].
  cbn [gui.engine gui.with_engine gui.is_rad]. rewrite set_mode_for.
  set (self1 := gui.with_engine self (engine_for (gui.is_rad self))).
  assert (Hsame : exists c, self1 = gui.with_cycle self1 c)
    by (exists (gui.color_cycle self); reflexivity).
  destruct (sampling_spec host builtins (engine_for (gui.is_rad self))
              (str_strip builtins (gui.fx_var self)) xs_ [] false w)
    as (vs & w' & Hvs & Hs).
  rewrite Hs. cbn [app orb].
  destruct (existsb (fun v => snd (ordinate builtins v)) vs) eqn:Hvalid; cbn [negb].
  - pose proof (next_color_cycle self1) as Hcolor.
    destruct (gui.next_color builtins self1) as [[color_|e] self2].
    + destruct Hcolor as [c ->].
      do 3 eexists. split; [reflexivity|]. right. right.
      exists c, xmin, xmax, vs. eexists. split; [reflexivity|].
      cbn [gui.expr gui.xs gui.ys]. repeat split; try assumption.
      unfold gui.x_range in Hrange.
      destruct (float_of_text builtins (gui.xmin_var self)) as [lo|]; [|discriminate].
      destruct (float_of_text builtins (gui.xmax_var self)) as [hi|]; [|discriminate].
      destruct (PrimFloat.leb hi lo) eqn:Hle; [discriminate|].
      injection Hrange as <- <-. exact Hle.
    + destruct Hcolor as [c ->].
      do 3 eexists. split; [reflexivity|]. right. left. eauto.
  - do 3 eexists. split; [reflexivity|]. right. left. exact Hsame.
Qed.

End Plot.

(** X19: plotting.  The handler leaves the texts, the history and the flag
    as they are.  It adds a trace only for a text that is not blank, a
    range whose ends float() accepts and whose lower end is below the upper
    one, and at least one valid point; the trace then carries the stripped
    text, the abscissas linspace gives for at least ten points, and for each
    abscissa in turn what evaluate_for_x returns there, as a float, or NaN
    where it returned None or something float() refuses: one ordinate for
    each abscissa.  evaluate_for_x never raises, so the loop never does. *)
Theorem X19_plot_has_one_ordinate_for_each_abscissa :
  forall W (host : Host W) (builtins : Builtins) self add w,
  exists r self' w',
    gui._plot_expression host builtins self add w = (r, self', w')
    /\ gui.history self' = gui.history self
    /\ gui.display_var self' = gui.display_var self
    /\ gui.expr_var self' = gui.expr_var self
    /\ gui.fx_var self' = gui.fx_var self
    /\ gui.is_rad self' = gui.is_rad self
    /\ (gui.engine self' = gui.engine self
        \/ gui.engine self' = engine_for (gui.is_rad self))
    /\ (gui.traces self' = gui.traces self
        \/ exists t xmin xmax vs,
             gui.traces self' = (if add then (gui.traces self ++ [t])%list else [t])
             /\ gui.expr t = str_strip builtins (gui.fx_var self)
             /\ gui.expr t <> ""
             /\ gui.x_range builtins self = Return (xmin, xmax)
             /\ PrimFloat.leb xmax xmin = false
             /\ 10 <= gui.sample_count builtins self
             /\ np_linspace builtins xmin xmax (gui.sample_count builtins self)
                = Return (gui.xs t)
             /\ evals_seq
                  (fun x => evaluate_for_x host (engine_for (gui.is_rad self))
                              (gui.expr t) (VFloat x))
                  (gui.xs t) w vs w'
             /\ gui.ys t = map (fun v => fst (ordinate builtins v)) vs
             /\ length (gui.ys t) = length (gui.xs t)
             /\ existsb (fun v => snd (ordinate builtins v)) vs = true).
Proof.
  intros W host builtins self add w.
  destruct (plot_expression_cases host builtins self add w)
    as (r & self' & w' & Hp & [[-> ->]|[[c ->]|H]]).
  - exists r, self, w. repeat split; auto.
  - do 3 eexists. split; [exact Hp|]. cbn. repeat split; auto.
  - destruct H as (c & xmin & xmax & vs & t & -> & -> & H1 & H2 & H3 & H4 & H5 & H6 & H7 & H8).
    do 3 eexists. split; [exact Hp|]. cbn. repeat split; auto.
    right. exists t, xmin, xmax, vs. repeat split; auto.
    + apply sample_count_at_least_ten.
    + rewrite H7, length_map. eapply evals_seq_length, H6.
Qed.

(** ** What the main loop preserves *)

Section Mainloop.

Context {W : Type} (host : Host W) (builtins : Builtins).

Lemma invariant_new_gui : Invariant host builtins (gui.new_gui builtins).
Proof. repeat split; [constructor|left; reflexivity|constructor]. Qed.

Lemma invariant_set self target text :
  Invariant host builtins self -> Invariant host builtins (gui.set self target text).
Proof. intros H. destruct target; exact H. Qed.

Lemma invariant_plot self add w :
  Invariant host builtins self ->
  Invariant host builtins (snd (fst (gui._plot_expression host builtins self add w))).
Proof.
  intros (H1 & H2 & H3 & H4 & H5).
  destruct (plot_expression_cases host builtins self add w)
    as (r & self' & w' & Hp & [[-> ->]|[[c ->]|H]]); rewrite Hp; cbn [fst snd].
  - repeat split; assumption.
  - rewrite H1. repeat split; assumption.
  - destruct H as (c & xmin & xmax & vs & t & -> & _ & Ht & Hne & _ & _ & _ & Hvs & Hys & _).
    rewrite H1. repeat split; try assumption. cbn [gui.traces gui.with_traces].
    assert (Hd : drawable t).
    { split; [exact Hne|]. rewrite Hys, length_map. eapply evals_seq_length, Hvs. }
    destruct add; [apply Forall_app; split; [exact H5|]|];
      (constructor; [exact Hd|constructor]).
Qed.

Lemma invariant_handle ev self w :
  Invariant host builtins self ->
  Invariant host builtins (fst (gui.handle host builtins ev self w)).
Proof.
  intros Hinv. destruct ev; cbn [gui.handle fst].
  - apply invariant_set, Hinv.
  - exact Hinv.
  - apply invariant_set, Hinv.
  - unfold gui._insert_last_answer.
    destruct (last (gui.history self)) as [[? answer]|]; [apply invariant_set|]; exact Hinv.
  - destruct Hinv as (H1 & H2 & H3 & H4 & H5).
    repeat split; try assumption. left. reflexivity.
  - unfold gui._toggle_sign.
    destruct (gui.get self (gui._get_active_entry self focused)); [exact Hinv|].
    destruct (startswith _ _); apply invariant_set, Hinv.
  - destruct (String.eqb_spec (str_strip builtins (gui.expr_var self)) "") as [E|E].
    + unfold gui._evaluate. rewrite E. exact Hinv.
    + destruct (evaluate_cases host builtins self w E) as (v & w' & Hv & He).
      rewrite He. destruct Hinv as (H1 & H2 & H3 & H4 & H5). rewrite H1 in *.
      destruct (builtin_str builtins v) as [s|e] eqn:Hs; cbn [fst].
      * repeat split; cbn; try assumption.
        -- apply Forall_app. split; [exact H3|]. constructor; [|constructor].
           repeat split; cbn [fst snd].
           ++ unfold closed. apply append_not_empty, E.
           ++ apply closed_balance.
           ++ exists w, v, w'. split; assumption.
        -- right. eexists. apply last_snoc.
      * repeat split; cbn; assumption.
  - exact Hinv.
  - unfold gui._on_history_double. destruct sel; [exact Hinv|].
    destruct (String.eqb (gui.mode self) "scientific"); exact Hinv.
  - unfold gui._run_plot.
    pose proof (invariant_plot (gui.with_traces self []) false w) as Hp.
    destruct (gui._plot_expression host builtins (gui.with_traces self []) false w)
      as [[r self'] w'].
    apply Hp. destruct Hinv as (H1 & H2 & H3 & H4 & H5).
    repeat split; try assumption. constructor.
  - unfold gui._add_plot.
    pose proof (invariant_plot self true w Hinv) as Hp.
    destruct (gui._plot_expression host builtins self true w) as [[r self'] w'].
    exact Hp.
  - destruct Hinv as (H1 & H2 & H3 & H4 & H5).
    repeat split; try assumption. constructor.
Qed.

Lemma invariant_mainloop events self w :
  Invariant host builtins self ->
  Invariant host builtins (fst (gui.mainloop host builtins events self w)).
Proof.
  unfold gui.mainloop. revert self w.
  induction events as [|ev events IH]; intros self w Hinv; [exact Hinv|].
  cbn [fold_left fst snd].
  destruct (gui.handle host builtins ev self w) as [self' w'] eqn:Hh.
  apply IH. change self' with (fst (self', w')). rewrite <- Hh.
  apply invariant_handle, Hinv.
Qed.

End Mainloop.

(** X16: whatever is typed and whichever keys are pressed, the interface
    never leaves degrees: the flag is_rad is never set, so every '=' and
    every plot puts the engine in 'deg' mode.  Every line of the history
    records such an evaluation: an expression that is not empty and leaves
    no parenthesis open, with the text of what calculate returned for it in
    degrees.  The display is blank or shows the result of the last line of
    the history, and every trace has a name and one ordinate for each
    abscissa. *)
Theorem X16_interface_always_evaluates_in_degrees :
  forall W (host : Host W) (builtins : Builtins) events w,
    gui.is_rad (fst (gui.mainloop host builtins events (gui.new_gui builtins) w)) = false
    /\ gui.engine (fst (gui.mainloop host builtins events (gui.new_gui builtins) w))
       = degrees
    /\ Forall (recorded host builtins)
         (gui.history (fst (gui.mainloop host builtins events (gui.new_gui builtins) w)))
    /\ (gui.display_var (fst (gui.mainloop host builtins events (gui.new_gui builtins) w))
        = ""
        \/ exists expr,
             last (gui.history
                     (fst (gui.mainloop host builtins events (gui.new_gui builtins) w)))
             = Some (expr,
                     gui.display_var
                       (fst (gui.mainloop host builtins events
                               (gui.new_gui builtins) w))))
    /\ Forall drawable
         (gui.traces (fst (gui.mainloop host builtins events (gui.new_gui builtins) w))).
Proof.
  intros W host builtins events w.
  exact (invariant_mainloop host builtins events (gui.new_gui builtins) w
           (invariant_new_gui host builtins)).
Qed.

(** ** The sign key *)

Lemma get_set self target text : gui.get (gui.set self target text) target = text.
Proof. destruct target; reflexivity. Qed.

Lemma active_set self target text focused :
  gui._get_active_entry (gui.set self target text) focused
  = gui._get_active_entry self focused.
Proof. destruct target; reflexivity. Qed.

Lemma startswith_minus s : startswith s "-" = true <-> exists rest, s = String "-" rest.
Proof.
  destruct s as [|c s]; cbn [startswith].
  - split; [discriminate|intros [rest H]; discriminate].
  - destruct (Ascii.eqb_spec "-" c) as [<-|Hc]; cbn [andb].
    + split; [eauto|reflexivity].
    + split; [discriminate|]. intros [rest H]. congruence.
Qed.

(** X17: the sign key removes a leading '-' or inserts one.  Pressing it
    twice restores the text of the entry, except on a lone '-', which is
    erased for good, and on a text that starts with '--', which loses both
    signs. *)
Theorem X17_sign_key_twice_restores_the_text :
  forall self focused,
    gui.get (gui._toggle_sign (gui._toggle_sign self focused) focused)
      (gui._get_active_entry self focused)
    = gui.get self (gui._get_active_entry self focused)
    <-> gui.get self (gui._get_active_entry self focused) <> "-"
        /\ startswith (gui.get self (gui._get_active_entry self focused)) "--" = false.
Proof.
  intros self focused.
  assert (Hstep : forall s,
             gui.get (gui._toggle_sign s focused) (gui._get_active_entry s focused)
             = match gui.get s (gui._get_active_entry s focused) with
               | EmptyString => EmptyString
               | String c rest =>
                   if startswith (String c rest) "-" then rest
                   else String "-" (String c rest)
               end).
  { intros s. unfold gui._toggle_sign.
    destruct (gui.get s (gui._get_active_entry s focused)) as [|c rest] eqn:E;
      [exact E|].
    destruct (startswith (String c rest) "-"); apply get_set. }
  assert (Hactive : gui._get_active_entry (gui._toggle_sign self focused) focused
                    = gui._get_active_entry self focused).
  { unfold gui._toggle_sign.
    destruct (gui.get self (gui._get_active_entry self focused)); [reflexivity|].
    destruct (startswith _ _); apply active_set. }
  pose proof (Hstep (gui._toggle_sign self focused)) as Htwice.
  rewrite Hactive, (Hstep self) in Htwice. rewrite Htwice. clear.
  destruct (gui.get self (gui._get_active_entry self focused)) as [|c rest].
  - split; [intros _; split; [discriminate|reflexivity]|reflexivity].
  - change (startswith (String c rest) "-") with (Ascii.eqb "-" c && true).
    change (startswith (String c rest) "--") with (Ascii.eqb "-" c && startswith rest "-").
    destruct (Ascii.eqb_spec "-" c) as [<-|Hc]; cbn [andb].
    + destruct rest as [|d rest].
      * split; [discriminate|]. intros [H _]. congruence.
      * change (startswith (String d rest) "-") with (Ascii.eqb "-" d && true).
        destruct (Ascii.eqb_spec "-" d) as [<-|Hd]; cbn [andb].
        -- split; [|intros [_ H]; discriminate H].
           intros H. exfalso.
           assert (Hlen : String.length rest = String.length (String "-" (String "-" rest)))
             by (rewrite <- H; reflexivity).
           cbn in Hlen. lia.
        -- split; [|reflexivity]. intros _. split; [discriminate|reflexivity].
    + cbn. split; [|reflexivity]. intros _. split; [congruence|reflexivity].
Qed.

(** ** The history lines *)

Lemma startswith_separator c a r :
  startswith (String c (a +:+ " = " +:+ r)) " = "
  = startswith (String c (a +:+ " =")) " = ".
Proof.
  destruct a as [|d [|e a]]; cbn [startswith String.app];
    repeat match goal with
           | |- context [Ascii.eqb ?x ?y] => destruct (Ascii.eqb x y)
           end; reflexivity.
Qed.

(** The text before the separator of a history line is the expression
    exactly when the separator does not occur earlier. *)
Lemma before_line expr res :
  before " = " (expr +:+ " = " +:+ res) = expr
  <-> contains " = " (expr +:+ " =") = false.
Proof.
  induction expr as [|c a IH].
  - cbn. split; reflexivity.
  - change (String c a +:+ " = " +:+ res) with (String c (a +:+ " = " +:+ res)).
    change (String c a +:+ " =") with (String c (a +:+ " =")).
    cbn [before contains]. rewrite startswith_separator.
    destruct (startswith (String c (a +:+ " =")) " = ").
    + split; discriminate.
    + cbn [orb]. rewrite <- IH. split; [intros H; injection H; trivial|intros ->; reflexivity].
Qed.

(** X18: a double click on a line of the history window puts the text
    before the first ' = ' of the line into the entry of the current mode.
    That text is the expression of the line exactly when ' = ' does not
    occur in the expression followed by ' ='; an expression that holds
    ' = ' comes back cut at that place. *)
Theorem X18_history_line_gives_back_its_expression :
  forall self i expr res,
    nth_error (last_items 200 (gui.history self)) i = Some (expr, res) ->
    picked (gui._on_history_double self [i] (gui.history_lines self)) = expr
    <-> contains " = " (expr +:+ " =") = false.
Proof.
  intros self i expr res Hi.
  assert (Hitem : nth i (gui.history_lines self) "" = expr +:+ " = " +:+ res).
  { unfold gui.history_lines. apply nth_error_nth.
    rewrite nth_error_map, Hi. reflexivity. }
  unfold gui._on_history_double, picked. rewrite Hitem.
  destruct (String.eqb (gui.mode self) "scientific") eqn:Hm; cbn; rewrite Hm;
    apply before_line.
Qed.

Lemma X18_witness :
  picked (gui._on_history_double
            (gui.with_history (gui.new_gui cpython_builtins)
               [("2+3", "5"); ("1 == 2", "False")])
            [1%nat]
            (gui.history_lines
               (gui.with_history (gui.new_gui cpython_builtins)
                  [("2+3", "5"); ("1 == 2", "False")])))
  = "1 == 2".
Proof.
  apply (proj2 (X18_history_line_gives_back_its_expression
                  (gui.with_history (gui.new_gui cpython_builtins)
                     [("2+3", "5"); ("1 == 2", "False")])
                  1%nat "1 == 2" "False" eq_refl)).
  reflexivity.
Defined.
